(** * Travel-Agent: the fallback and normalisation core, embedded in Rocq

    The development follows the Python sources

      - [tools/weather_tool.py]  (class [WeatherTool]),
      - [tools/flight_tool.py]   (class [FlightTool]),
      - [tools/places_tool.py]   (class [PlacesTool]),
      - [agents/travel_agent.py] (class [TravelPlanningAgent]),
      - [utils/helpers.py].

    Part I gives the Python values the program manipulates ([str], regular
    expressions, dates, the random module).  Part II embeds the program, one
    definition per method, keeping the method names.  Part III names the
    inputs and predicates the properties speak about.  Part IV states and
    proves the properties. *)

From Stdlib Require Import Ascii String.
From Stdlib Require Import List ZArith NArith QArith Bool Lia.
From Stdlib Require Import Sorting.Sorted Sorting.Permutation.
Import ListNotations.

Local Open Scope N_scope.
Local Open Scope list_scope.

(* ================================================================== *)
(** * Part I.  Python values *)
(* ================================================================== *)

(** ** Strings

    A Python [str] is a sequence of Unicode code points. *)

Definition codepoint := N.
Definition str := list codepoint.

(** [lit "abc"] is the [str] of an ASCII literal of the source. *)
Definition lit (s : string) : str :=
  map N_of_ascii (list_ascii_of_string s).
Arguments lit s%_string.

(** Code points the sources use outside ASCII. *)
Definition degree_sign : codepoint := 176.   (* U+00B0, in '°C' and '°F' *)
Definition e_acute : codepoint := 233.       (* U+00E9, in 'Musée' *)
Definition sharp_s : codepoint := 223.       (* U+00DF *)

Definition str_eqb (a b : str) : bool :=
  if list_eq_dec N.eq_dec a b then true else false.

(** The part of the Unicode character database that [str] methods and the
    [re] module consult.  [str.lower] and [str.upper] act on whole strings:
    one code point may map to several (U+00DF upper-cases to 'SS') and
    [lower] looks at the context of a Greek capital sigma.  The laws record
    how Basic Latin and the Latin-1 Supplement behave; CPython satisfies
    them, and so does the instance [Latin1] below. *)

Definition ascii_digit (c : codepoint) : bool := (48 <=? c) && (c <=? 57).

Definition latin1_space (c : codepoint) : bool :=
  ((9 <=? c) && (c <=? 13)) || ((28 <=? c) && (c <=? 32))
  || (c =? 133) || (c =? 160).

Definition ascii_lower (c : codepoint) : codepoint :=
  if (65 <=? c) && (c <=? 90) then c + 32 else c.

Definition ascii_upper (c : codepoint) : codepoint :=
  if (97 <=? c) && (c <=? 122) then c - 32 else c.

Definition is_ascii (s : str) : Prop := Forall (fun c => c < 128) s.

Class Unicode : Type := {
  (** value of a decimal digit (category Nd): what [\d] matches and what
      [int()] and [float()] read *)
  decimal_value : codepoint -> option N;
  (** [str.isspace] on one code point: what [\s] matches and [strip] drops *)
  is_whitespace : codepoint -> bool;
  str_lower : str -> str;
  str_upper : str -> str;
  str_title : str -> str;
  decimal_value_latin1 : forall c, c < 256 ->
    decimal_value c = if ascii_digit c then Some (c - 48) else None;
  is_whitespace_latin1 : forall c, c < 256 ->
    is_whitespace c = latin1_space c;
  str_lower_ascii : forall s, is_ascii s -> str_lower s = map ascii_lower s;
  str_upper_ascii : forall s, is_ascii s -> str_upper s = map ascii_upper s
}.

(** *** The Latin-1 fragment, executable

    Exact on code points below 256; code points above are left alone. *)

Definition latin1_lower_char (c : codepoint) : codepoint :=
  if ((65 <=? c) && (c <=? 90)) || ((192 <=? c) && (c <=? 214))
     || ((216 <=? c) && (c <=? 222))
  then c + 32 else c.

Definition latin1_upper_char (c : codepoint) : str :=
  if ((97 <=? c) && (c <=? 122)) || ((224 <=? c) && (c <=? 246))
     || ((248 <=? c) && (c <=? 254))
  then [c - 32]
  else if c =? 223 then [83; 83]         (* 'ß' -> 'SS' *)
  else if c =? 181 then [924]            (* micro sign -> Greek capital mu *)
  else if c =? 255 then [376]            (* 'ÿ' -> U+0178 *)
  else [c].

Definition latin1_title_char (c : codepoint) : str :=
  if c =? 223 then [83; 115] else latin1_upper_char c.

Definition latin1_cased (c : codepoint) : bool :=
  ((65 <=? c) && (c <=? 90)) || ((97 <=? c) && (c <=? 122))
  || (c =? 170) || (c =? 181) || (c =? 186)
  || ((192 <=? c) && (c <=? 214)) || ((216 <=? c) && (c <=? 246))
  || ((248 <=? c) && (c <=? 255)).

Fixpoint latin1_title_from (previous_is_cased : bool) (s : str) : str :=
  match s with
  | [] => []
  | c :: s' =>
      (if previous_is_cased then [latin1_lower_char c] else latin1_title_char c)
        ++ latin1_title_from (latin1_cased c) s'
  end.

Definition latin1_decimal (c : codepoint) : option N :=
  if ascii_digit c then Some (c - 48) else None.

Definition latin1_is_space (c : codepoint) : bool :=
  (c <? 256) && latin1_space c.

(** The laws hold of the fragment. *)
Definition Latin1 : Unicode.
Proof.
  refine {| decimal_value := latin1_decimal;
            is_whitespace := latin1_is_space;
            str_lower := map latin1_lower_char;
            str_upper := flat_map latin1_upper_char;
            str_title := latin1_title_from false |}.
  - intros c _. reflexivity.
  - intros c Hc. unfold latin1_is_space.
    replace (c <? 256) with true by (symmetry; apply N.ltb_lt; exact Hc).
    reflexivity.
  - induction 1 as [|c s Hc _ IH]; [reflexivity|].
    cbn [map]. rewrite IH. f_equal.
    unfold latin1_lower_char, ascii_lower.
    destruct ((65 <=? c) && (c <=? 90)) eqn:E; [reflexivity|].
    replace (192 <=? c) with false by (symmetry; apply N.leb_gt; lia).
    replace (216 <=? c) with false by (symmetry; apply N.leb_gt; lia).
    reflexivity.
  - induction 1 as [|c s Hc _ IH]; [reflexivity|].
    cbn [map flat_map]. rewrite IH.
    unfold latin1_upper_char, ascii_upper.
    destruct ((97 <=? c) && (c <=? 122)) eqn:E; [reflexivity|].
    replace (224 <=? c) with false by (symmetry; apply N.leb_gt; lia).
    replace (248 <=? c) with false by (symmetry; apply N.leb_gt; lia).
    replace (c =? 223) with false by (symmetry; apply N.eqb_neq; lia).
    replace (c =? 181) with false by (symmetry; apply N.eqb_neq; lia).
    replace (c =? 255) with false by (symmetry; apply N.eqb_neq; lia).
    reflexivity.
Defined.

(** ** Exceptions

    A call either returns a value or raises.  Only [Exception] subclasses
    are modelled: they are what the [except Exception] and bare [except]
    clauses of the sources catch. *)

Inductive exn : Type :=
| ValueError | TypeError | IndexError | KeyError | AttributeError
| OverflowError | ZeroDivisionError | JSONDecodeError | TimeoutError
| OtherError (description : str).

Inductive result (A : Type) : Type :=
| Ok (a : A)
| Raise (e : exn).
Arguments Ok {A} a.
Arguments Raise {A} e.

Definition rbind {A B} (m : result A) (f : A -> result B) : result B :=
  match m with Ok a => f a | Raise e => Raise e end.

Declare Scope result_scope.
Delimit Scope result_scope with result.
Notation "x <- m ;; f" := (rbind m (fun x => f))
  (at level 61, m at next level, right associativity) : result_scope.

(** [try: body  except Exception: handler] for a handler that ignores the
    exception object (the sources only print it). *)
Definition try_except {A} (body : result A) (handler : A) : A :=
  match body with Ok a => a | Raise _ => handler end.

Definition raises {A} (m : result A) : bool :=
  match m with Ok _ => false | Raise _ => true end.

(** [for x in xs: ...] collecting one value per iteration; the first
    exception leaves the loop. *)
Fixpoint for_each {A B} (f : A -> result B) (xs : list A) : result (list B) :=
  match xs with
  | [] => Ok []
  | x :: xs' =>
      match f x with
      | Raise e => Raise e
      | Ok y => match for_each f xs' with
                | Raise e => Raise e
                | Ok ys => Ok (y :: ys)
                end
      end
  end.

(** [range(n)]: empty when [n <= 0]. *)
Definition range (n : Z) : list Z :=
  map Z.of_nat (seq 0 (Z.to_nat n)).

(** ** Operations on [str] *)

(** [s[:n]] for a literal [n >= 0]. *)
Definition slice_to (n : nat) {A} (s : list A) : list A := firstn n s.

(** [s[a:b]] for negative literals [a = -i], [b = -j]. *)
Definition slice_neg {A} (i j : nat) (s : list A) : list A :=
  let n := length s in
  let start := (n - i)%nat in
  let stop := (n - j)%nat in
  firstn (stop - start) (skipn start s).

(** [t.startswith(p)] *)
Fixpoint starts_with (p t : str) : bool :=
  match p, t with
  | [], _ => true
  | _ :: _, [] => false
  | a :: p', b :: t' => (a =? b) && starts_with p' t'
  end.

(** [sub in t] *)
Fixpoint contains (sub t : str) : bool :=
  starts_with sub t ||
  match t with
  | [] => false
  | _ :: t' => contains sub t'
  end.

(** decimal rendering of a non-negative int, [str(n)] *)
Fixpoint digits_of (fuel : nat) (n : N) (acc : str) : str :=
  match fuel with
  | O => acc
  | S fuel' =>
      let acc' := (48 + n mod 10) :: acc in
      if n / 10 =? 0 then acc' else digits_of fuel' (n / 10) acc'
  end.

Definition str_of_N (n : N) : str :=
  digits_of (S (N.to_nat (N.log2 n))) n [].

(** [str(z)] for an int *)
Definition str_of_Z (z : Z) : str :=
  match z with
  | Zneg p => lit "-" ++ str_of_N (Npos p)
  | _ => str_of_N (Z.to_N z)
  end.

(** [f"{z:0wd}"] : zero padded to width [w] (the sign counts in the width
    and precedes the zeros). *)
Definition zero_pad (w : nat) (z : Z) : str :=
  match z with
  | Zneg p =>
      let d := str_of_N (Npos p) in
      lit "-" ++ repeat 48 (w - 1 - length d) ++ d
  | _ =>
      let d := str_of_N (Z.to_N z) in
      repeat 48 (w - length d) ++ d
  end.

Section Strings.
Context {U : Unicode}.

Definition is_decimal (c : codepoint) : bool :=
  match decimal_value c with Some _ => true | None => false end.

Fixpoint lstrip (s : str) : str :=
  match s with
  | c :: s' => if is_whitespace c then lstrip s' else s
  | [] => []
  end.

Definition rstrip (s : str) : str := rev (lstrip (rev s)).

(** [s.strip()] *)
Definition str_strip (s : str) : str := rstrip (lstrip s).

(** [int(s)] on a run of decimal digits.  (Recent CPython refuses runs of
    more than 4300 digits with a [ValueError], which the bare [except] of
    the extractors turns into the default; runs that long are outside the
    model, and no property below rests on them.) *)
Definition int_of_digits (s : str) : N :=
  fold_left
    (fun acc c => 10 * acc + match decimal_value c with Some d => d | None => 0 end)
    s 0.

(** [float(s)] on [digits] or [digits.digits], as the exact decimal value
    (binary rounding is left out; integers below 2^53 and the halves and
    quarters the sources use are exact in both). *)
Fixpoint split_at_dot (s : str) : str * option str :=
  match s with
  | [] => ([], None)
  | c :: s' =>
      if c =? 46 then ([], Some s')
      else let '(a, b) := split_at_dot s' in (c :: a, b)
  end.

Definition float_of_str (s : str) : Q :=
  let '(ip, fp) := split_at_dot s in
  match fp with
  | None => inject_Z (Z.of_N (int_of_digits ip))
  | Some f =>
      Qred (Qmake (Z.of_N (int_of_digits (ip ++ f)))
                  (Z.to_pos (10 ^ Z.of_nat (length f))))
  end.

(** ** Regular expressions

    The fragment of [re] the sources use: literals, the classes [\d] and
    [\s], sequence, alternation, greedy [?], greedy [*] and [+] on a class,
    capturing groups.  [match_re] is a backtracking matcher with the
    priorities of [re]: the left alternative first, the longest repetition
    first. *)

Inductive charclass : Type := CDigit | CSpace.

Inductive regex : Type :=
| Lits (s : str)
| Cls (k : charclass)
| Star (k : charclass)
| Seq (r1 r2 : regex)
| Alt (r1 r2 : regex)
| Opt (r : regex)
| Group (r : regex).

Definition Plus (k : charclass) : regex := Seq (Cls k) (Star k).

Definition in_class (k : charclass) (c : codepoint) : bool :=
  match k with
  | CDigit => is_decimal c
  | CSpace => is_whitespace c
  end.

(** what a successful match hands back: the groups in order, and the text
    after the match *)
Definition matched : Type := list str * str.
Definition cont : Type := str -> list str -> option matched.

Definition or_else {A} (a b : option A) : option A :=
  match a with Some x => Some x | None => b end.

Fixpoint match_star (p : codepoint -> bool) (t : str) (caps : list str)
    (k : cont) : option matched :=
  match t with
  | c :: t' =>
      if p c then or_else (match_star p t' caps k) (k t caps) else k t caps
  | [] => k [] caps
  end.

Fixpoint match_re (r : regex) (t : str) (caps : list str) (k : cont)
    : option matched :=
  match r with
  | Lits s => if starts_with s t then k (skipn (length s) t) caps else None
  | Cls c =>
      match t with
      | x :: t' => if in_class c x then k t' caps else None
      | [] => None
      end
  | Star c => match_star (in_class c) t caps k
  | Seq r1 r2 => match_re r1 t caps (fun t1 caps1 => match_re r2 t1 caps1 k)
  | Alt r1 r2 => or_else (match_re r1 t caps k) (match_re r2 t caps k)
  | Opt r1 => or_else (match_re r1 t caps k) (k t caps)
  | Group r1 =>
      match_re r1 t caps
        (fun t1 caps1 => k t1 (caps1 ++ [firstn (length t - length t1) t]))
  end.

(** [re.match(r, t)]: a match at the start of [t]. *)
Definition re_match (r : regex) (t : str) : option matched :=
  match_re r t [] (fun rest caps => Some (caps, rest)).

(** [re.search(r, t)]: the leftmost match; the result is its groups. *)
Fixpoint re_search (r : regex) (t : str) : option (list str) :=
  match re_match r t with
  | Some (caps, _) => Some caps
  | None =>
      match t with
      | [] => None
      | _ :: t' => re_search r t'
      end
  end.

(** [m.group(1)] *)
Definition group1 (caps : list str) : str := nth 0 caps [].

(** [re.findall(r, t)] for a pattern with one group whose matches are not
    empty: group 1 of the successive non-overlapping matches.  [skip]
    counts the characters of the last match still to pass over. *)
Fixpoint findall_from (r : regex) (skip : nat) (t : str) : list str :=
  match t with
  | [] => []
  | _ :: t' =>
      match skip with
      | S n => findall_from r n t'
      | O =>
          match re_match r t with
          | Some (caps, rest) =>
              group1 caps :: findall_from r (length t - length rest - 1) t'
          | None => findall_from r 0 t'
          end
      end
  end.

Definition re_findall (r : regex) (t : str) : list str := findall_from r 0 t.

End Strings.

(** ** Dates: the [datetime] module

    [datetime.now()] is a reading of the clock; the embedded methods take it
    as an argument.  One reading is used for a whole call (the sources read
    the clock again in every loop iteration; a call that straddles midnight
    is not modelled). *)

Local Open Scope Z_scope.

Record datetime : Type := {
  year : Z; month : Z; day : Z;
  hour : Z; minute : Z; second : Z; microsecond : Z
}.

Definition is_leap (y : Z) : bool :=
  ((y mod 4 =? 0) && negb (y mod 100 =? 0)) || (y mod 400 =? 0).

Definition days_in_month (y m : Z) : Z :=
  if m =? 2 then (if is_leap y then 29 else 28)
  else if (m =? 4) || (m =? 6) || (m =? 9) || (m =? 11) then 30
  else 31.

(** what the [datetime] constructor accepts (MINYEAR = 1, MAXYEAR = 9999) *)
Definition valid_date (y m d : Z) : bool :=
  (1 <=? y) && (y <=? 9999) && (1 <=? m) && (m <=? 12)
  && (1 <=? d) && (d <=? days_in_month y m).

Definition valid_datetime (dt : datetime) : bool :=
  valid_date (year dt) (month dt) (day dt).

Definition with_date (dt : datetime) (y m d : Z) : datetime :=
  {| year := y; month := m; day := d;
     hour := hour dt; minute := minute dt; second := second dt;
     microsecond := microsecond dt |}.

(** [dt.replace(day=d)]: a new value, [ValueError] when the date does not
    exist. *)
Definition replace_day (dt : datetime) (d : Z) : result datetime :=
  if valid_date (year dt) (month dt) d
  then Ok (with_date dt (year dt) (month dt) d)
  else Raise ValueError.

(** [dt.replace(month=m, day=d)] *)
Definition replace_month_day (dt : datetime) (m d : Z) : result datetime :=
  if valid_date (year dt) m d
  then Ok (with_date dt (year dt) m d)
  else Raise ValueError.

Definition next_day (dt : datetime) : result datetime :=
  if day dt <? days_in_month (year dt) (month dt)
  then Ok (with_date dt (year dt) (month dt) (day dt + 1))
  else if month dt <? 12
  then Ok (with_date dt (year dt) (month dt + 1) 1)
  else if year dt <? 9999
  then Ok (with_date dt (year dt + 1) 1 1)
  else Raise OverflowError.

Definition prev_day (dt : datetime) : result datetime :=
  if 1 <? day dt
  then Ok (with_date dt (year dt) (month dt) (day dt - 1))
  else if 1 <? month dt
  then Ok (with_date dt (year dt) (month dt - 1)
             (days_in_month (year dt) (month dt - 1)))
  else if 1 <? year dt
  then Ok (with_date dt (year dt - 1) 12 31)
  else Raise OverflowError.

Fixpoint iter_days (step : datetime -> result datetime) (n : nat)
    (dt : datetime) : result datetime :=
  match n with
  | O => Ok dt
  | S n' =>
      match step dt with
      | Ok dt' => iter_days step n' dt'
      | Raise e => Raise e
      end
  end.

(** [dt + timedelta(days=n)]: [OverflowError] outside years 1..9999. *)
Definition add_days (dt : datetime) (n : Z) : result datetime :=
  if 0 <=? n then iter_days next_day (Z.to_nat n) dt
  else iter_days prev_day (Z.to_nat (- n)) dt.

(** [calendar.month_name] in the C locale; index 0 is the empty string. *)
Definition month_names : list str :=
  [ lit ""; lit "January"; lit "February"; lit "March"; lit "April";
    lit "May"; lit "June"; lit "July"; lit "August"; lit "September";
    lit "October"; lit "November"; lit "December" ].

(** [dt.strftime('%Y-%m-%d')]; the year is written without padding, as
    glibc does (it has four digits from year 1000 on) *)
Definition strftime_iso (dt : datetime) : str :=
  str_of_Z (year dt) ++ lit "-" ++ zero_pad 2 (month dt) ++ lit "-"
  ++ zero_pad 2 (day dt).

(** [dt.strftime('%B %d, %Y')] *)
Definition strftime_long (dt : datetime) : str :=
  nth (Z.to_nat (month dt)) month_names [] ++ lit " "
  ++ zero_pad 2 (day dt) ++ lit ", " ++ str_of_Z (year dt).

(** [dt.isoformat()] *)
Definition isoformat (dt : datetime) : str :=
  zero_pad 4 (year dt) ++ lit "-" ++ zero_pad 2 (month dt) ++ lit "-"
  ++ zero_pad 2 (day dt) ++ lit "T" ++ zero_pad 2 (hour dt) ++ lit ":"
  ++ zero_pad 2 (minute dt) ++ lit ":" ++ zero_pad 2 (second dt)
  ++ (if microsecond dt =? 0 then []
      else lit "." ++ zero_pad 6 (microsecond dt)).

(** ** The [random] module

    The generator is a stream of raw draws; every function of the module
    consumes draws and maps them into its range.  A property proved for
    every stream holds for every outcome of the calls. *)

Definition rng : Type := nat -> N.

Definition Rand (A : Type) : Type := rng -> A * rng.

Definition ret {A} (a : A) : Rand A := fun g => (a, g).

Definition bind {A B} (m : Rand A) (f : A -> Rand B) : Rand B :=
  fun g => let '(a, g') := m g in f a g'.

Declare Scope rand_scope.
Delimit Scope rand_scope with rand.
Notation "x <~ m ;; f" := (bind m (fun x => f))
  (at level 61, m at next level, right associativity) : rand_scope.

Definition draw : Rand N :=
  fun g => (g 0%nat, fun n => g (S n)).

(** [random.randint(a, b)], for [a <= b] *)
Definition randint (a b : Z) : Rand Z :=
  (r <~ draw ;; ret (a + Z.of_N r mod (b - a + 1)))%rand.

(** [random.choice(l)] on a non-empty list ([d] is never returned then) *)
Definition choice {A} (d : A) (l : list A) : Rand A :=
  (r <~ draw ;; ret (nth (N.to_nat r mod length l) l d))%rand.

(** [random.random() < 0.3] *)
Definition random_below_three_tenths : Rand bool :=
  (r <~ draw ;; ret (N.ltb (r mod 10) 3))%rand.

(** [round(random.uniform(3.8, 4.9), 1)]: one of 3.8, 3.9, ..., 4.9 *)
Definition uniform_rating : Rand Q :=
  (r <~ draw ;; ret (Qred (Qmake (38 + Z.of_N (r mod 12)) 10)))%rand.

(** [for x in xs] with a random body *)
Fixpoint rand_map {A B} (f : A -> Rand B) (xs : list A) : Rand (list B) :=
  match xs with
  | [] => ret []
  | x :: xs' => (y <~ f x ;; ys <~ rand_map f xs' ;; ret (y :: ys))%rand
  end.

(** take the element at index [i] out of a list *)
Fixpoint remove_nth {A} (i : nat) (l : list A) : list A :=
  match l, i with
  | [], _ => []
  | _ :: l', O => l'
  | x :: l', S i' => x :: remove_nth i' l'
  end.

(** [random.shuffle(l)]: a permutation chosen by the draws, one element
    picked at a time among those left. *)
Fixpoint shuffle_fuel {A} (fuel : nat) (l : list A) : Rand (list A) :=
  match fuel, l with
  | S fuel', x :: _ =>
      (r <~ draw ;;
       let i := (N.to_nat r mod length l)%nat in
       rest <~ shuffle_fuel fuel' (remove_nth i l) ;;
       ret (nth i l x :: rest))%rand
  | _, _ => ret []
  end.

Definition shuffle {A} (l : list A) : Rand (list A) :=
  shuffle_fuel (length l) l.

(** [random.sample(population, k)] for [k <= len(population)]: [k]
    distinct positions in random order. *)
Definition sample {A} (population : list A) (k : nat) : Rand (list A) :=
  (l <~ shuffle population ;; ret (firstn k l))%rand.

Local Close Scope Z_scope.

(* ================================================================== *)
(** * Part II.  The program *)
(* ================================================================== *)

(** ** What an MCP tool call can do

    The external call of an adapter ([session.call_tool] behind
    [asyncio.wait_for(..., timeout=30.0)], run by [loop.run_until_complete])
    is the environment of the program.  One value of [outcome] describes one
    call. *)

(** an item of [result.content]: it has a [text] attribute, or it is
    rendered with [str()] *)
Inductive content_item : Type :=
| TextContent (text : str)
| OtherContent (rendered : str).

(** [result.content]: a list, or some other object *)
Inductive mcp_content : Type :=
| ContentList (items : list content_item)
| ContentOther.

(** [result]: falsy or without a [content] attribute, or with one *)
Inductive tool_result : Type :=
| NoContent
| WithContent (content : mcp_content).

Inductive outcome : Type :=
| TimedOut                       (* asyncio.TimeoutError after 30 s *)
| Failed (e : exn)               (* transport or protocol exception *)
| Answered (r : tool_result)     (* call_tool returned *)
| LoopFailed (e : exn).          (* the event loop itself raised *)

(** the coroutine body up to the point where [call_tool] has returned *)
Definition awaited (o : outcome) : result tool_result :=
  match o with
  | TimedOut => Raise TimeoutError
  | Failed e => Raise e
  | Answered r => Ok r
  | LoopFailed e => Raise e
  end.

(** [loop.run_until_complete(coroutine)] *)
Definition run_until_complete {A} (o : outcome) (coroutine : A) : result A :=
  match o with
  | LoopFailed e => Raise e
  | _ => Ok coroutine
  end.

(** [content[0].text if hasattr(content[0], 'text') else str(content[0])] *)
Definition item_text (i : content_item) : str :=
  match i with
  | TextContent t => t
  | OtherContent s => s
  end.

(** ** tools/weather_tool.py *)

Local Open Scope Z_scope.

(** the dict returned by [get_current_weather]; an absent key is [None] in
    an [option] field *)
Record WeatherReading : Type := {
  w_city : str;
  w_raw_data : option str;
  w_temperature_celsius : Q;
  w_temperature_fahrenheit : option Q;
  w_description : str;
  w_humidity : Z;
  w_wind_speed : Q;
  w_feels_like_celsius : option Q;
  w_source : str;
  w_units : option str
}.

(** one dict of the list returned by [get_forecast] *)
Record ForecastDay : Type := {
  f_date : str;
  f_temperature_celsius : Q;
  f_temperature_fahrenheit : Q;
  f_description : str;
  f_humidity : Z;
  f_wind_speed : Q
}.

Record WeatherTool : Type := {
  api_key : option str;
  use_mock : bool
}.

Definition placeholder_key : str := lit "your_accuweather_api_key_here".

(** a [str] or [None] in a condition *)
Definition truthy (s : option str) : bool :=
  match s with
  | Some (_ :: _) => true
  | _ => false
  end.

(** [WeatherTool.__init__]: [config.USE_MOCK_DATA] is read and then
    overwritten by the test on the key. *)
Definition WeatherTool_init (ACCUWEATHER_API_KEY : option str)
    (USE_MOCK_DATA : bool) : WeatherTool :=
  let valid :=
    truthy ACCUWEATHER_API_KEY &&
    negb (match ACCUWEATHER_API_KEY with
          | Some k => str_eqb k placeholder_key
          | None => false
          end) in
  {| api_key := ACCUWEATHER_API_KEY;
     use_mock := if valid then false else true |}.

Definition mock_weather_source : str :=
  lit "Mock Data (AccuWeather API key not configured)".

Definition mcp_weather_source : str :=
  lit "MCP Weather Server (AccuWeather)".

Definition _get_mock_current_weather (city : str) : WeatherReading :=
  {| w_city := city;
     w_raw_data := None;
     w_temperature_celsius := 49 # 2;             (* 24.5 *)
     w_temperature_fahrenheit := Some (761 # 10);  (* 76.1 *)
     w_description := lit "partly cloudy";
     w_humidity := 65;
     w_wind_speed := 25 # 2;                       (* 12.5 *)
     w_feels_like_celsius := Some (119 # 5);       (* 23.8 *)
     w_source := mock_weather_source;
     w_units := None |}.

Section Weather.
Context {U : Unicode}.

(** The four patterns of the extractors: digits then the degree sign and
    C (or F); digits then a percent sign; and, for the wind speed, digits,
    an optional dot, optional digits, optional white space and one of the
    units mph, km/h, m/s, in that order of preference. *)
Definition re_celsius : regex :=
  Seq (Group (Plus CDigit)) (Lits (degree_sign :: lit "C")).
Definition re_fahrenheit : regex :=
  Seq (Group (Plus CDigit)) (Lits (degree_sign :: lit "F")).
Definition re_percent : regex :=
  Seq (Group (Plus CDigit)) (Lits (lit "%")).
Definition re_speed : regex :=
  Seq (Group (Seq (Plus CDigit) (Seq (Opt (Lits (lit "."))) (Star CDigit))))
      (Seq (Star CSpace)
           (Group (Alt (Lits (lit "mph"))
                       (Alt (Lits (lit "km/h")) (Lits (lit "m/s")))))).

Definition is_metric (units : str) : bool := str_eqb units (lit "metric").

Definition _extract_temperature (text units : str) : Q :=
  let m := if is_metric units then re_search re_celsius text
           else re_search re_fahrenheit text in
  match m with
  | Some caps => float_of_str (group1 caps)
  | None => if is_metric units then 20 # 1 else 68 # 1
  end.

Definition conditions : list str :=
  [ lit "sunny"; lit "cloudy"; lit "rainy"; lit "clear";
    lit "partly cloudy"; lit "overcast"; lit "stormy" ].

(** the [for condition in conditions] loop of [_extract_description] *)
Fixpoint first_condition (cs : list str) (text_lower : str) : option str :=
  match cs with
  | [] => None
  | condition :: cs' =>
      if contains condition text_lower then Some condition
      else first_condition cs' text_lower
  end.

Definition _extract_description (text : str) : str :=
  let text_lower := str_lower text in
  match first_condition conditions text_lower with
  | Some condition => condition
  | None => lit "moderate weather"
  end.

Definition _extract_humidity (text : str) : Z :=
  match re_search re_percent text with
  | Some caps => Z.of_N (int_of_digits (group1 caps))
  | None => 65
  end.

Definition _extract_wind_speed (text : str) : Q :=
  match re_search re_speed (str_lower text) with
  | Some caps => float_of_str (group1 caps)
  | None => 10 # 1
  end.

Definition _parse_mcp_response (content : mcp_content) (location units : str)
    : WeatherReading :=
  match content with
  | ContentList (first :: _) =>
      let weather_text := item_text first in
      {| w_city := location;
         w_raw_data := Some weather_text;
         w_temperature_celsius := _extract_temperature weather_text units;
         w_temperature_fahrenheit :=
           if is_metric units
           then Some (_extract_temperature weather_text (lit "imperial"))
           else None;
         w_description := _extract_description weather_text;
         w_humidity := _extract_humidity weather_text;
         w_wind_speed := _extract_wind_speed weather_text;
         w_feels_like_celsius := None;
         w_source := mcp_weather_source;
         w_units := Some units |}
  | _ => _get_mock_current_weather location
  end.

(** the coroutine [get_weather] inside [_call_mcp_weather] *)
Definition get_weather (o : outcome) (location units : str)
    : result WeatherReading :=
  match awaited o with
  | Raise e => Raise e
  | Ok (WithContent content) => Ok (_parse_mcp_response content location units)
  | Ok NoContent => Ok (_get_mock_current_weather location)
  end.

Definition _call_mcp_weather (o : outcome) (location units : str)
    : WeatherReading :=
  try_except (get_weather o location units)
             (_get_mock_current_weather location).

Definition get_current_weather (self : WeatherTool) (o : outcome)
    (city units : str) : WeatherReading :=
  if use_mock self then _get_mock_current_weather city
  else try_except (run_until_complete o (_call_mcp_weather o city units))
                  (_get_mock_current_weather city).

Definition _get_mock_forecast (now : datetime) (city : str) (num_days : Z)
    : result (list ForecastDay) :=
  let base_temp : Q := 24 # 1 in
  for_each
    (fun i =>
       match add_days now i with
       | Raise e => Raise e
       | Ok date =>
           let temp_variation := (i mod 3) * 2 in
           Ok {| f_date := strftime_iso date;
                 f_temperature_celsius :=
                   Qred (base_temp + inject_Z temp_variation);
                 f_temperature_fahrenheit :=
                   Qred ((base_temp + inject_Z temp_variation) * (9 # 5)
                         + (32 # 1));
                 f_description :=
                   nth (Z.to_nat (i mod 3))
                       [lit "sunny"; lit "partly cloudy"; lit "cloudy"] [];
                 f_humidity := 60 + (i mod 4) * 5;
                 f_wind_speed := inject_Z (10 + (i mod 3) * 2) |}
       end)
    (range num_days).

(** the body of the loop of [get_forecast] on real data *)
Definition forecast_day (now : datetime) (current : WeatherReading) (i : Z)
    : result ForecastDay :=
  let date := now in
  match (if day date + i <=? 28 then replace_day date (day date + i)
         else replace_month_day date (month date + 1) 1) with
  | Raise e => Raise e
  | Ok date =>
      let c := (w_temperature_celsius current + inject_Z (i mod 3)
                - (1 # 1))%Q in
      Ok {| f_date := strftime_iso date;
            f_temperature_celsius := Qred c;
            f_temperature_fahrenheit := Qred (c * (9 # 5) + (32 # 1));
            f_description := w_description current;
            f_humidity := w_humidity current;
            f_wind_speed := w_wind_speed current |}
  end.

(** [get_forecast(city, num_days)]; [o] is the outcome of the MCP call that
    its [get_current_weather] makes. *)
Definition get_forecast (self : WeatherTool) (o : outcome) (now : datetime)
    (city : str) (num_days : Z) : result (list ForecastDay) :=
  let current := get_current_weather self o city (lit "metric") in
  if contains (lit "MCP") (w_source current)
  then for_each (forecast_day now current) (range num_days)
  else _get_mock_forecast now city num_days.

End Weather.

(** ** tools/flight_tool.py *)

(** Python values as [json.loads] builds them. *)
#[warnings="-register-all"]
Inductive pyval : Type :=
| PNone
| PBool (b : bool)
| PInt (z : Z)
| PFloat (q : Q)
| PStr (s : str)
| PList (l : list pyval)
| PDict (d : list (str * pyval)).

Fixpoint dict_lookup {V} (d : list (str * V)) (key : str) : option V :=
  match d with
  | [] => None
  | (k, v) :: d' => if str_eqb k key then Some v else dict_lookup d' key
  end.

(** [d.get(key, default)] *)
Definition dict_get {V} (d : list (str * V)) (key : str) (default : V) : V :=
  match dict_lookup d key with
  | Some v => v
  | None => default
  end.

(** [v[0]]; the keys of a JSON object are strings, so the key 0 is absent *)
Definition py_index0 (v : pyval) : result pyval :=
  match v with
  | PStr (c :: _) => Ok (PStr [c])
  | PList (x :: _) => Ok x
  | PStr [] | PList [] => Raise IndexError
  | PDict _ => Raise KeyError
  | _ => Raise TypeError
  end.

(** [v[:n]] *)
Definition py_slice_to (n : nat) (v : pyval) : result pyval :=
  match v with
  | PStr s => Ok (PStr (slice_to n s))
  | PList l => Ok (PList (slice_to n l))
  | _ => Raise TypeError
  end.

(** [v[-i:-j]] *)
Definition py_slice_neg (i j : nat) (v : pyval) : result pyval :=
  match v with
  | PStr s => Ok (PStr (slice_neg i j s))
  | PList l => Ok (PList (slice_neg i j l))
  | _ => Raise TypeError
  end.

(** [len(v)] *)
Definition py_len (v : pyval) : result Z :=
  match v with
  | PStr s => Ok (Z.of_nat (length s))
  | PList l => Ok (Z.of_nat (length l))
  | PDict d => Ok (Z.of_nat (length d))
  | _ => Raise TypeError
  end.

(** one flight dict *)
Record Flight : Type := {
  flight_number : pyval;
  airline : pyval;
  origin : str;
  destination : str;
  departure_date : pyval;
  departure_time : pyval;
  arrival_date : pyval;
  arrival_time : pyval;
  duration : pyval;
  stops : Z;
  price : pyval;
  currency : pyval;
  deep_link : option pyval;
  flight_source : str;
  raw_info : option str
}.

Record SearchParams : Type := {
  sp_from : str;
  sp_to : str;
  sp_departure : str;
  sp_return : option str
}.

(** the dict a flight search returns *)
Record FlightsResult : Type := {
  outbound_flights : list Flight;
  flights_source : str;
  search_params : SearchParams;
  return_flights : option (list Flight);
  raw_response : option str
}.

Definition kiwi_real_source : str := lit "Kiwi MCP Server (Real Data)".
Definition kiwi_mock_source : str :=
  lit "Mock Data (Kiwi MCP Server unavailable)".

(** [x['price']] as the key of [list.sort].  The only list the program
    sorts is the one [_generate_mock_flights] has just built, whose prices
    are ints. *)
Definition price_key (x : Flight) : Z :=
  match price x with
  | PInt p => p
  | _ => 0
  end.

(** [l.sort(key=...)]: the stable sort; an element goes before the first
    element whose key is not smaller. *)
Fixpoint insert_by {A} (key : A -> Z) (x : A) (l : list A) : list A :=
  match l with
  | [] => [x]
  | y :: l' =>
      if key x <=? key y then x :: y :: l' else y :: insert_by key x l'
  end.

Fixpoint sort_by {A} (key : A -> Z) (l : list A) : list A :=
  match l with
  | [] => []
  | x :: l' => insert_by key x (sort_by key l')
  end.

(** the flight built by iteration [i] of the loop of
    [_generate_mock_flights], from the three values it draws *)
Definition mock_flight (fly_from fly_to departure_date : str) (i : Z)
    (drawn_price : Z) (drawn_airline : str) (drawn_stops : Z) : Flight :=
  let hour := 6 + i * 3 in
  {| flight_number := PStr (lit "KW" ++ str_of_Z (1000 + i));
     airline := PStr drawn_airline;
     origin := fly_from;
     destination := fly_to;
     departure_date := PStr departure_date;
     departure_time := PStr (zero_pad 2 hour ++ lit ":00");
     arrival_date := PStr departure_date;
     arrival_time := PStr (zero_pad 2 (hour + 6) ++ lit ":00");
     duration := PStr (lit "6h 0m");
     stops := drawn_stops;
     price := PInt drawn_price;
     currency := PStr (lit "USD");
     deep_link := None;
     flight_source := lit "Mock Data";
     raw_info := None |}.

Definition airlines : list str :=
  [lit "Kiwi Airlines"; lit "AirFly"; lit "SkyConnect"].

(** the [for i in range(5)] loop, before the sort *)
Definition mock_outbound (fly_from fly_to departure_date : str)
    : Rand (list Flight) :=
  rand_map
    (fun i =>
       (r <~ randint (-100) 200 ;;
        let price := 300 + r in
        a <~ choice [] airlines ;;
        s <~ choice 0 [0; 0; 1] ;;
        ret (mock_flight fly_from fly_to departure_date i price a s))%rand)
    (range 5).

Definition _generate_mock_flights (fly_from fly_to departure_date : str)
    (return_date : option str) : Rand FlightsResult :=
  (generated <~ mock_outbound fly_from fly_to departure_date ;;
   let outbound := sort_by price_key generated in
   ret {| outbound_flights := outbound;
          flights_source := kiwi_mock_source;
          search_params :=
            {| sp_from := fly_from; sp_to := fly_to;
               sp_departure := departure_date; sp_return := return_date |};
          return_flights :=
            if truthy return_date then Some (slice_to 3 outbound) else None;
          raw_response := None |})%rand.

Section Flights.
Context {U : Unicode}.

(** [json.loads]: [None] stands for [JSONDecodeError]. *)
Variable json_loads : str -> option pyval.

(** [hash(str(flight_data))]: salted per process. *)
Variable hash_repr : pyval -> Z.

(** The pattern of [_parse_text_response]: a dollar sign, then digits. *)
Definition re_price : regex := Seq (Lits (lit "$")) (Group (Plus CDigit)).

Definition _parse_single_kiwi_flight (flight_data : pyval)
    (fly_from fly_to : str) : option Flight :=
  try_except
    (match flight_data with
     | PDict d =>
         let default_number :=
           PStr (lit "KW" ++ str_of_Z (hash_repr flight_data mod 10000)) in
         (a <- py_index0
                 (dict_get d (lit "airlines")
                    (PList [PStr (lit "Kiwi Airlines")])) ;;
          dd <- py_slice_to 10 (dict_get d (lit "local_departure") (PStr [])) ;;
          dt <- py_slice_neg 8 3
                  (dict_get d (lit "local_departure") (PStr [])) ;;
          ad <- py_slice_to 10 (dict_get d (lit "local_arrival") (PStr [])) ;;
          at_ <- py_slice_neg 8 3
                   (dict_get d (lit "local_arrival") (PStr [])) ;;
          n <- py_len (dict_get d (lit "route") (PList [])) ;;
          Ok (Some
                {| flight_number := dict_get d (lit "id") default_number;
                   airline := a;
                   origin := fly_from;
                   destination := fly_to;
                   departure_date := dd;
                   departure_time := dt;
                   arrival_date := ad;
                   arrival_time := at_;
                   duration := dict_get d (lit "fly_duration")
                                 (PStr (lit "N/A"));
                   stops := n - 1;
                   price := dict_get d (lit "price") (PInt 0);
                   currency := dict_get d (lit "currency")
                                 (PStr (lit "USD"));
                   deep_link := Some (dict_get d (lit "deep_link")
                                        (PStr (lit "https://www.kiwi.com")));
                   flight_source := lit "Kiwi.com MCP Server";
                   raw_info := None |}))%result
     | _ => Raise AttributeError       (* no method [get] *)
     end)
    None.

(** the flight built for the [i]-th price found in the text *)
Definition text_flight (text fly_from fly_to date : str) (i : Z) (price : str)
    : Flight :=
  {| flight_number := PStr (lit "KW" ++ str_of_Z (1000 + i));
     airline := PStr (lit "Kiwi Airlines");
     origin := fly_from;
     destination := fly_to;
     departure_date := PStr date;
     departure_time := PStr (str_of_Z (8 + i * 2) ++ lit ":00");
     arrival_date := PStr date;
     arrival_time := PStr (str_of_Z (14 + i * 2) ++ lit ":00");
     duration := PStr (lit "6h 0m");
     stops := 0;
     price := PFloat (float_of_str price);
     currency := PStr (lit "USD");
     deep_link := None;
     flight_source := lit "Kiwi.com MCP Server";
     raw_info := Some (slice_to 200 text) |}.

(** [enumerate(l)] *)
Definition enumerate {A} (l : list A) : list (Z * A) :=
  combine (map Z.of_nat (seq 0 (length l))) l.

Definition _parse_text_response (text fly_from fly_to date : str)
    : list Flight :=
  let price_matches := re_findall re_price text in
  map (fun '(i, price) => text_flight text fly_from fly_to date i price)
      (enumerate (slice_to 5 price_matches)).

(** the sequence [flight_results['data'][:5]] iterated by the loop: a list
    gives its items, a string its characters; other values cannot be
    sliced. *)
Definition data_items (data : pyval) : result (list pyval) :=
  match data with
  | PList l => Ok (slice_to 5 l)
  | PStr s => Ok (map (fun c => PStr [c]) (slice_to 5 s))
  | _ => Raise TypeError
  end.

(** the flights the JSON branch of [_parse_kiwi_response] appends *)
Definition json_flights (flight_results : pyval) (fly_from fly_to : str)
    : result (list Flight) :=
  match flight_results with
  | PDict d =>
      match dict_lookup d (lit "data") with
      | Some data =>
          (items <- data_items data ;;
           Ok (flat_map
                 (fun flight =>
                    match _parse_single_kiwi_flight flight fly_from fly_to with
                    | Some parsed_flight => [parsed_flight]
                    | None => []
                    end)
                 items))%result
      | None => Ok []
      end
  | _ => Ok []
  end.

Definition is_nil {A} (l : list A) : bool :=
  match l with [] => true | _ => false end.

Definition _parse_kiwi_response (content : mcp_content)
    (fly_from fly_to departure_date : str) (return_date : option str)
    : Rand FlightsResult :=
  let flights_data (flights : list Flight) (raw : option str) :=
    {| outbound_flights := flights;
       flights_source := kiwi_real_source;
       search_params :=
         {| sp_from := fly_from; sp_to := fly_to;
            sp_departure := departure_date; sp_return := return_date |};
       return_flights := None;
       raw_response := raw |} in
  let mock := _generate_mock_flights fly_from fly_to departure_date
                return_date in
  match content with
  | ContentList (first :: _) =>
      let response_text := item_text first in
      match json_loads response_text with
      | Some flight_results =>
          match json_flights flight_results fly_from fly_to with
          | Ok flights =>
              if is_nil flights then mock else ret (flights_data flights None)
          | Raise _ => mock             (* caught by the outer [except] *)
          end
      | None =>
          let flights :=
            _parse_text_response response_text fly_from fly_to
              departure_date in
          if is_nil flights then mock
          else ret (flights_data flights (Some response_text))
      end
  | _ => mock
  end.

(** the coroutine [connect_and_search] inside [_call_kiwi_mcp] *)
Definition connect_and_search (o : outcome)
    (departure_date fly_from fly_to : str) (return_date : option str)
    : result (Rand FlightsResult) :=
  match awaited o with
  | Raise e => Raise e
  | Ok (WithContent content) =>
      Ok (_parse_kiwi_response content fly_from fly_to departure_date
            return_date)
  | Ok NoContent =>
      Ok (_generate_mock_flights fly_from fly_to departure_date return_date)
  end.

Definition _call_kiwi_mcp (o : outcome)
    (departure_date fly_from fly_to : str) (return_date : option str)
    : Rand FlightsResult :=
  try_except (connect_and_search o departure_date fly_from fly_to return_date)
    (_generate_mock_flights fly_from fly_to departure_date return_date).

Definition search_flights (o : outcome)
    (departure_date fly_from fly_to : str) (return_date : option str)
    : Rand FlightsResult :=
  try_except
    (run_until_complete o
       (_call_kiwi_mcp o departure_date fly_from fly_to return_date))
    (_generate_mock_flights fly_from fly_to departure_date return_date).

Definition get_best_flights (o : outcome)
    (departure_date fly_from fly_to : str) (return_date : option str)
    (num_results : nat) : Rand FlightsResult :=
  (all_flights <~ search_flights o departure_date fly_from fly_to
                    return_date ;;
   ret {| outbound_flights :=
            slice_to num_results (outbound_flights all_flights);
          flights_source := flights_source all_flights;
          search_params := search_params all_flights;
          return_flights :=
            option_map (slice_to num_results) (return_flights all_flights);
          raw_response := None |})%rand.

End Flights.

(** ** tools/places_tool.py *)

Record EntryFee : Type := {
  is_free : bool;
  fee_price : Z;
  fee_currency : str
}.

Record Place : Type := {
  place_name : str;
  place_category : str;
  place_type : str;
  rating : Q;
  num_reviews : Z;
  place_description : str;
  address : str;
  estimated_visit_duration : str;
  entry_fee : EntryFee;
  best_time_to_visit : str;
  activities : list str
}.

Record DayPlan : Type := {
  dp_day : Z;
  dp_theme : str;
  dp_places : list Place;
  dp_activities : list str
}.

(** [self.attraction_types] *)
Definition attraction_types : list (str * list str) :=
  [ (lit "historical",
     [lit "Monument"; lit "Palace"; lit "Fort"; lit "Archaeological Site";
      lit "Heritage Site"]);
    (lit "cultural",
     [lit "Museum"; lit "Art Gallery"; lit "Theater"; lit "Cultural Center";
      lit "Temple"]);
    (lit "natural",
     [lit "Park"; lit "Garden"; lit "Lake"; lit "Beach"; lit "Viewpoint"]);
    (lit "entertainment",
     [lit "Amusement Park"; lit "Zoo"; lit "Aquarium"; lit "Shopping Mall";
      lit "Market"]);
    (lit "religious",
     [lit "Temple"; lit "Church"; lit "Mosque"; lit "Monastery";
      lit "Shrine"]) ].

(** [self.activity_types] *)
Definition activity_types : list str :=
  [ lit "Sightseeing"; lit "Photography"; lit "Walking Tour";
    lit "Food Tour"; lit "Shopping"; lit "Cultural Experience";
    lit "Adventure"; lit "Relaxation" ].

(** [famous_db]: destination, then category, then (name, description) *)
Definition famous_db : list (str * list (str * list (str * str))) :=
  [ (lit "Paris",
     [ (lit "historical",
        [ (lit "Eiffel Tower",
           lit "Iconic iron lattice tower and symbol of Paris");
          (lit "Arc de Triomphe",
           lit "Monumental arch honoring French military victories") ]);
       (lit "cultural",
        [ (lit "Louvre Museum",
           lit "World's largest art museum and historic monument");
          (lit "Mus" ++ e_acute :: lit "e d'Orsay",
           lit "Museum featuring Impressionist and Post-Impressionist masterpieces") ]) ]);
    (lit "London",
     [ (lit "historical",
        [ (lit "Tower of London",
           lit "Historic castle and UNESCO World Heritage Site");
          (lit "Buckingham Palace",
           lit "Official residence of the British monarch") ]);
       (lit "cultural",
        [ (lit "British Museum",
           lit "World-famous museum of human history and culture") ]) ]);
    (lit "Tokyo",
     [ (lit "historical",
        [ (lit "Senso-ji Temple", lit "Ancient Buddhist temple in Asakusa");
          (lit "Imperial Palace",
           lit "Primary residence of the Emperor of Japan") ]);
       (lit "cultural",
        [ (lit "Tokyo National Museum",
           lit "Japan's oldest and largest museum") ]) ]);
    (lit "New York",
     [ (lit "historical",
        [ (lit "Statue of Liberty",
           lit "Iconic symbol of freedom and democracy");
          (lit "Empire State Building",
           lit "Art Deco skyscraper and American cultural icon") ]) ]) ].

(** [l[:n]] for an int [n] of either sign *)
Definition slice_to_int {A} (n : Z) (l : list A) : list A :=
  if 0 <=? n then firstn (Z.to_nat n) l
  else firstn (length l - Z.to_nat (- n)) l.

(** [l[a:b]] for ints [0 <= a], [0 <= b] *)
Definition slice_between {A} (a b : Z) (l : list A) : list A :=
  firstn (Z.to_nat b - Z.to_nat a) (skipn (Z.to_nat a) l).

(** the list [themes] of [_get_day_theme] *)
Definition themes : list str :=
  [ lit "Historical Exploration"; lit "Cultural Immersion";
    lit "Natural Beauty"; lit "Local Experiences";
    lit "Adventure & Entertainment"; lit "Relaxation & Leisure";
    lit "Shopping & Cuisine" ].

Definition _get_day_theme (day total_days : Z) : str :=
  if day =? 0 then lit "Arrival & City Orientation"
  else if day =? total_days - 1 then lit "Final Day Highlights"
  else nth (Z.to_nat (day mod Z.of_nat (length themes))) themes [].

Definition _generate_entry_fee : Rand EntryFee :=
  (free <~ random_below_three_tenths ;;
   if free
   then ret {| is_free := true; fee_price := 0; fee_currency := lit "USD" |}
   else (p <~ randint 5 50 ;;
         ret {| is_free := false; fee_price := p;
                fee_currency := lit "USD" |}))%rand.

(** [l.sort(key=..., reverse=True)] on float keys: the stable sort in
    non-increasing order; an element goes before the first element whose
    key is not larger. *)
Fixpoint insert_desc {A} (key : A -> Q) (x : A) (l : list A) : list A :=
  match l with
  | [] => [x]
  | y :: l' =>
      if Qle_bool (key y) (key x) then x :: y :: l'
      else y :: insert_desc key x l'
  end.

Fixpoint sort_desc {A} (key : A -> Q) (l : list A) : list A :=
  match l with
  | [] => []
  | x :: l' => insert_desc key x (sort_desc key l')
  end.

Section Places.
Context {U : Unicode}.

(** [list(s)] for the set [s] that received these strings in this order:
    the order of a set of strings follows their salted hashes. *)
Variable list_of_set : list str -> list str.

Definition _get_famous_places (destination category : str)
    : list (str * str) :=
  let dest_key := str_title destination in
  match dict_lookup famous_db dest_key with
  | Some by_category => dict_get by_category category []
  | None => []
  end.

(** the body of the loop of [_generate_places_for_category] *)
Definition generate_place (destination category : str)
    (attraction_subtypes : list str) (famous_places : list (str * str))
    (i : Z) : Rand Place :=
  (place_data <~
     (if i <? Z.of_nat (length famous_places)
      then ret (nth (Z.to_nat i) famous_places ([], []))
      else (subtype <~ choice [] attraction_subtypes ;;
            ret (destination ++ lit " " ++ subtype ++ lit " "
                   ++ str_of_Z (i + 1),
                 lit "A beautiful " ++ category ++ lit " "
                   ++ str_lower subtype ++ lit " in " ++ destination
                   ++ lit "."))) ;;
   ty <~ choice [] attraction_subtypes ;;
   rt <~ uniform_rating ;;
   nr <~ randint 100 5000 ;;
   street <~ randint 1 999 ;;
   dur <~ choice []
            [lit "1-2 hours"; lit "2-3 hours"; lit "3-4 hours";
             lit "Half day"; lit "Full day"] ;;
   fee <~ _generate_entry_fee ;;
   best <~ choice []
             [lit "Morning"; lit "Afternoon"; lit "Evening"; lit "Anytime"] ;;
   k <~ randint 2 4 ;;
   acts <~ sample activity_types (Z.to_nat k) ;;
   ret {| place_name := fst place_data;
          place_category := category;
          place_type := ty;
          rating := rt;
          num_reviews := nr;
          place_description := snd place_data;
          address := str_of_Z street ++ lit " " ++ destination
                       ++ lit " Road, " ++ destination;
          estimated_visit_duration := dur;
          entry_fee := fee;
          best_time_to_visit := best;
          activities := acts |})%rand.

Definition _generate_places_for_category (destination category : str)
    (count : Z) : Rand (list Place) :=
  let attraction_subtypes :=
    dict_get attraction_types category [lit "Attraction"] in
  let famous_places := _get_famous_places destination category in
  rand_map
    (generate_place destination category attraction_subtypes famous_places)
    (range count).

(** [search_places(destination, limit=limit)]: the callers of the program
    pass no categories, so all five are used. *)
Definition search_places (destination : str) (limit : Z) : Rand (list Place) :=
  let categories := map fst attraction_types in
  let places_per_category :=
    Z.max (limit / Z.of_nat (length categories)) 2 in
  (by_category <~
     rand_map
       (fun category =>
          _generate_places_for_category destination category
            places_per_category)
       categories ;;
   places <~ shuffle (concat by_category) ;;
   ret (slice_to_int limit places))%rand.

(** [get_top_attractions(destination, num_results)] *)
Definition get_top_attractions (destination : str) (num_results : Z)
    : Rand (list Place) :=
  (all_places <~ search_places destination 20 ;;
   ret (slice_to_int num_results (sort_desc rating all_places)))%rand.

Definition _suggest_activities (places : list Place) : list str :=
  slice_to 4 (list_of_set (flat_map activities places)).

Definition create_itinerary_suggestions (destination : str) (num_days : Z)
    : Rand (result (list DayPlan)) :=
  (all_places <~ search_places destination (num_days * 4) ;;
   if num_days =? 0 then ret (Raise ZeroDivisionError)
   else
     let places_per_day :=
       Z.max (Z.of_nat (length all_places) / num_days) 2 in
     ret (Ok (map
                (fun day =>
                   let start_idx := day * places_per_day in
                   let end_idx := start_idx + places_per_day in
                   let day_places :=
                     slice_between start_idx end_idx all_places in
                   {| dp_day := day + 1;
                      dp_theme := _get_day_theme day num_days;
                      dp_places := day_places;
                      dp_activities := _suggest_activities day_places |})
                (range num_days))))%rand.

End Places.

(** ** utils/helpers.py *)

(** [calendar.month_name[month]]: thirteen entries, negative indices count
    from the end. *)
Definition get_month_name (month : Z) : result str :=
  if (0 <=? month) && (month <=? 12)
  then Ok (nth (Z.to_nat month) month_names [])
  else if (-13 <=? month) && (month <? 0)
  then Ok (nth (Z.to_nat (13 + month)) month_names [])
  else Raise IndexError.

Section Helpers.
Context {U : Unicode}.

(** [validate_inputs]: the first component of the tuple *)
Definition validate_inputs (destination : str) (num_days month : Z) : bool :=
  if is_nil destination || (length (str_strip destination) <? 2)%nat
  then false
  else if (num_days <? 1) || (30 <? num_days) then false
  else if (month <? 1) || (12 <? month) then false
  else true.

End Helpers.

(** ** agents/travel_agent.py *)

Record DateSuggestion : Type := {
  period : str;
  start_date : str;
  end_date : str
}.

Record WeatherInfo : Type := {
  current : WeatherReading;
  forecast : list ForecastDay
}.

Record TravelPlan : Type := {
  plan_destination : str;
  plan_origin : str;
  plan_duration : str;
  travel_month : str;
  cultural_context : str;
  weather : WeatherInfo;
  suggested_dates : list DateSuggestion;
  flights : FlightsResult;
  itinerary : list DayPlan;
  generated_at : str;
  mcp_servers_used : list (str * str)
}.

(** what [self.llm.invoke(prompt)] does *)
Inductive llm_outcome : Type :=
| LlmFailed (e : exn)
| LlmContent (content : str)       (* the response has a [content] *)
| LlmOther (rendered : str).       (* [str(response)] *)

(** everything outside the program that one [create_travel_plan] meets *)
Record World : Type := {
  clock : datetime;                (* datetime.now() *)
  llm : llm_outcome;
  weather_call_1 : outcome;        (* for get_current_weather *)
  weather_call_2 : outcome;        (* for the one inside get_forecast *)
  flight_call : outcome;
  dice : rng
}.

Definition city_codes : list (str * str) :=
  [ (lit "new york", lit "NYC"); (lit "nyc", lit "NYC");
    (lit "paris", lit "PAR"); (lit "london", lit "LON");
    (lit "tokyo", lit "TYO"); (lit "los angeles", lit "LAX");
    (lit "chicago", lit "CHI"); (lit "san francisco", lit "SFO");
    (lit "miami", lit "MIA"); (lit "boston", lit "BOS");
    (lit "seattle", lit "SEA"); (lit "rome", lit "ROM");
    (lit "barcelona", lit "BCN"); (lit "amsterdam", lit "AMS");
    (lit "dubai", lit "DXB"); (lit "singapore", lit "SIN");
    (lit "hong kong", lit "HKG"); (lit "sydney", lit "SYD");
    (lit "delhi", lit "DEL"); (lit "mumbai", lit "BOM") ].

(** *** [generate_date_suggestions] of utils/helpers.py

    The agent imports it; its dicts have the keys of [DateSuggestion]. *)

(** [datetime(y, m, d)]: midnight of that day *)
Definition make_datetime (y m d : Z) : result datetime :=
  if valid_date y m d
  then Ok {| year := y; month := m; day := d;
             hour := 0; minute := 0; second := 0; microsecond := 0 |}
  else Raise ValueError.

(** [a <= b] on datetimes: the order of the tuples of their fields *)
Fixpoint lex_leb (a b : list Z) : bool :=
  match a, b with
  | x :: a', y :: b' => (x <? y) || ((x =? y) && lex_leb a' b')
  | _, _ => true
  end.

Definition datetime_fields (dt : datetime) : list Z :=
  [year dt; month dt; day dt; hour dt; minute dt; second dt; microsecond dt].

Definition datetime_leb (a b : datetime) : bool :=
  lex_leb (datetime_fields a) (datetime_fields b).

(** [calendar.monthrange(year, month)[1]] is [days_in_month]; the
    constructor has already refused a month outside 1..12. *)
Definition get_month_date_range (year month : Z)
    : result (datetime * datetime) :=
  (first_day <- make_datetime year month 1 ;;
   let last_day_num := days_in_month year month in
   last_day <- make_datetime year month last_day_num ;;
   Ok (first_day, last_day))%result.

Definition generate_date_suggestions (month year num_days : Z)
    : result (list DateSuggestion) :=
  (month_range <- get_month_date_range year month ;;
   let first_day := fst month_range in
   let last_day := snd month_range in
   let suggestion (name : str) (starts ends : datetime) :=
     {| period := name;
        start_date := strftime_long starts;
        end_date := strftime_long ends |} in
   (* beginning of month *)
   let start_1 := first_day in
   end_1 <- add_days start_1 (num_days - 1) ;;
   let early :=
     if datetime_leb end_1 last_day
     then [suggestion (lit "Early Month") start_1 end_1] else [] in
   (* middle of month *)
   start_2 <- add_days first_day 10 ;;
   end_2 <- add_days start_2 (num_days - 1) ;;
   let mid :=
     if datetime_leb end_2 last_day
     then [suggestion (lit "Mid Month") start_2 end_2] else [] in
   (* end of month *)
   let end_3 := last_day in
   start_3 <- add_days end_3 (- (num_days - 1)) ;;
   let late :=
     if datetime_leb first_day start_3
     then [suggestion (lit "Late Month") start_3 end_3] else [] in
   Ok (early ++ mid ++ late))%result.

Section Agent.
Context {U : Unicode}.
Variable json_loads : str -> option pyval.
Variable hash_repr : pyval -> Z.
Variable list_of_set : list str -> list str.

Definition _get_city_code (city : str) : str :=
  let city_lower := str_strip (str_lower city) in
  dict_get city_codes city_lower (str_upper (slice_to 3 city)).

Definition _generate_cultural_context (response : llm_outcome)
    (destination : str) : str :=
  match response with
  | LlmContent content => content
  | LlmOther rendered => rendered
  | LlmFailed _ =>
      destination
      ++ lit " is a remarkable destination known for its rich cultural heritage and historical significance. The city offers a unique blend of tradition and modernity, making it an ideal destination for travelers seeking authentic experiences. Visitors can explore numerous historical sites, immerse themselves in local culture, and enjoy the vibrant atmosphere that "
      ++ destination ++ lit " has to offer."
  end.

Definition _get_weather_info (weather_tool : WeatherTool) (w : World)
    (destination : str) (num_days : Z) : result WeatherInfo :=
  let current_weather :=
    get_current_weather weather_tool (weather_call_1 w) destination
      (lit "metric") in
  (forecast <- get_forecast weather_tool (weather_call_2 w) (clock w)
                 destination (Z.min num_days 5) ;;
   Ok {| current := current_weather; forecast := forecast |})%result.

Definition create_travel_plan (weather_tool : WeatherTool) (w : World)
    (destination : str) (num_days travel_month : Z) (origin : str)
    : result TravelPlan :=
  let today := clock w in
  (departure_date_obj <- add_days today 2 ;;
   return_date_obj <- add_days departure_date_obj num_days ;;
   let departure_date := strftime_iso departure_date_obj in
   let return_date := strftime_iso return_date_obj in
   let cultural_context := _generate_cultural_context (llm w) destination in
   weather_info <- _get_weather_info weather_tool w destination num_days ;;
   departure_7 <- add_days departure_date_obj 7 ;;
   return_7 <- add_days return_date_obj 7 ;;
   departure_14 <- add_days departure_date_obj 14 ;;
   return_14 <- add_days return_date_obj 14 ;;
   let date_suggestions :=
     [ {| period := lit "Suggested Dates";
          start_date := strftime_long departure_date_obj;
          end_date := strftime_long return_date_obj |};
       {| period := lit "Alternative (+1 week)";
          start_date := strftime_long departure_7;
          end_date := strftime_long return_7 |};
       {| period := lit "Alternative (+2 weeks)";
          start_date := strftime_long departure_14;
          end_date := strftime_long return_14 |} ] in
   let origin_code := _get_city_code origin in
   let dest_code := _get_city_code destination in
   let '(flight_options, dice') :=
     get_best_flights json_loads hash_repr (flight_call w) departure_date
       origin_code dest_code (Some return_date) 3 (dice w) in
   let '(made, _) :=
     create_itinerary_suggestions list_of_set destination num_days dice' in
   itinerary <- made ;;
   month_name <- get_month_name travel_month ;;
   Ok {| plan_destination := destination;
         plan_origin := origin;
         plan_duration := str_of_Z num_days ++ lit " days";
         travel_month := month_name;
         cultural_context := cultural_context;
         weather := weather_info;
         suggested_dates := date_suggestions;
         flights := flight_options;
         itinerary := itinerary;
         generated_at := isoformat (clock w);
         mcp_servers_used :=
           [ (lit "weather",
              lit "AccuWeather MCP (@timlukahorstmann/mcp-weather)");
             (lit "flights", lit "Kiwi Travel MCP (https://mcp.kiwi.com)");
             (lit "places", lit "Mock Data (No MCP server available)") ] |}
  )%result.

End Agent.

(* ================================================================== *)
(** * Part III.  The vocabulary of the properties *)
(* ================================================================== *)

(** non-decreasing by [key]: each element is below all that follow *)
Definition sorted_by {A} (key : A -> Z) : list A -> Prop :=
  StronglySorted (fun x y => key x <= key y).


(** the external call raised or timed out *)
Definition call_failed (o : outcome) : Prop :=
  match o with
  | Answered _ => False
  | _ => True
  end.

(** a call that returned some text *)
Definition answered_text (text : str) : outcome :=
  Answered (WithContent (ContentList [TextContent text])).

(** the call returned this text as first content item *)
Definition answered_first (text : str) (more : list content_item) : outcome :=
  Answered (WithContent (ContentList (TextContent text :: more))).

(** a tool with an API key, so that the MCP server is called *)
Definition keyed_tool : WeatherTool :=
  WeatherTool_init (Some (lit "an-accuweather-key")) false.

(** a clock reading three days before the end of December *)
Definition december_28 : datetime :=
  {| year := 2026; month := 12; day := 28;
     hour := 9; minute := 30; second := 0; microsecond := 0 |}.

(** the world of 28 December 2026 in which the weather server answers *)
Definition december_world (text : str) (llm_says : llm_outcome)
    (first_weather flight : outcome) (draws : rng) : World :=
  {| clock := december_28;
     llm := llm_says;
     weather_call_1 := first_weather;
     weather_call_2 := answered_text text;
     flight_call := flight;
     dice := draws |}.

(** [is_ascii] as a test *)
Definition ascii_b (s : str) : bool := forallb (fun c => (c <? 128)%N) s.

(** the executable reading of [_get_city_code] on ASCII input *)
Definition city_code_ascii (x : str) : str :=
  dict_get city_codes (@str_strip Latin1 (map ascii_lower x))
    (map ascii_upper (slice_to 3 x)).

(** ASCII white space around a name *)
Definition ascii_blank (ws : str) : Prop :=
  Forall (fun c => (c < 128)%N /\ latin1_space c = true) ws.

Section Languages.
Context {U : Unicode}.

(** the words a pattern matches *)
Inductive lang : regex -> str -> Prop :=
| lang_lits (s : str) : lang (Lits s) s
| lang_cls (k : charclass) (c : codepoint) :
    in_class k c = true -> lang (Cls k) [c]
| lang_star (k : charclass) (w : str) :
    Forall (fun c => in_class k c = true) w -> lang (Star k) w
| lang_seq (r1 r2 : regex) (w1 w2 : str) :
    lang r1 w1 -> lang r2 w2 -> lang (Seq r1 r2) (w1 ++ w2)
| lang_alt_l (r1 r2 : regex) (w : str) : lang r1 w -> lang (Alt r1 r2) w
| lang_alt_r (r1 r2 : regex) (w : str) : lang r2 w -> lang (Alt r1 r2) w
| lang_opt_none (r : regex) : lang (Opt r) []
| lang_opt_some (r : regex) (w : str) : lang r w -> lang (Opt r) w
| lang_group (r : regex) (w : str) : lang r w -> lang (Group r) w.

(** no word of the language starts inside [pre]: the search moves on *)
Definition no_match_starts_in (r : regex) (pre t : str) : Prop :=
  forall a b w rest,
    pre = a ++ b -> b <> [] -> b ++ t = w ++ rest -> ~ lang r w.

End Languages.

(** the shape of three of the four patterns: digits in a group, then a
    literal *)
Definition digits_then (L : str) : regex :=
  Seq (Group (Plus CDigit)) (Lits L).

(** the last character of [pre], if any, is not in [p] *)
Definition last_char_avoids (p : codepoint -> bool) (pre : str) : Prop :=
  match rev pre with
  | c :: _ => p c = false
  | [] => True
  end.

(** the units of the wind-speed pattern, in the order it tries them *)
Definition speed_units : list str := [lit "mph"; lit "km/h"; lit "m/s"].

(** a digit or the dot: the characters of the first group *)
Definition digit_or_dot {U : Unicode} (c : codepoint) : bool :=
  is_decimal c || (c =? 46)%N.

(** the literal of the Celsius pattern *)
Definition degrees_C : str := degree_sign :: lit "C".

(** the text "22°C 60% 5 m/s cloudy" *)
Definition four_tokens : str :=
  lit "22" ++ degrees_C ++ lit " 60% 5 m/s cloudy".

(** the four tokens after an earlier temperature:
    "10°C now, 22°C later, 60%, 5 m/s, cloudy" *)
Definition two_temperatures : str :=
  lit "10" ++ degrees_C ++ lit " now, 22" ++ degrees_C
  ++ lit " later, 60%, 5 m/s, cloudy".




(** the call left nothing to parse: it failed, or its result has no
    content, or the content is not a list with a first item *)
Definition nothing_to_parse (o : outcome) : Prop :=
  match o with
  | Answered (WithContent (ContentList (_ :: _))) => False
  | _ => True
  end.

(** the [search_params] that echo a request *)
Definition request_of (fly_from fly_to departure_date : str)
    (return_date : option str) : SearchParams :=
  {| sp_from := fly_from; sp_to := fly_to;
     sp_departure := departure_date; sp_return := return_date |}.

(** a flight of a result is tagged [tag] and joins the requested places *)
Definition flight_of (tag fly_from fly_to : str) (x : Flight) : Prop :=
  flight_source x = tag /\ origin x = fly_from /\ destination x = fly_to.

Definition is_dict (v : pyval) : bool :=
  match v with PDict _ => true | _ => false end.

(** a decoded JSON value without a flight object among the first five
    items of a list under [data] *)
Definition no_flight_object (v : pyval) : Prop :=
  match v with
  | PDict d =>
      match dict_lookup d (lit "data") with
      | Some (PList items) =>
          Forall (fun item => is_dict item = false) (slice_to 5 items)
      | _ => True
      end
  | _ => True
  end.

(** an AccuWeather key the constructor accepts: set, not empty, and not
    the placeholder of the sample configuration *)
Definition usable_key (k : option str) : Prop :=
  exists key, k = Some key /\ key <> [] /\ key <> placeholder_key.



(** a generated place: its type belongs to its category, and the drawn
    values lie in their ranges *)
Definition place_ok (p : Place) : Prop :=
  (exists subtypes,
     In (place_category p, subtypes) attraction_types
     /\ In (place_type p) subtypes)
  /\ (38 # 10 <= rating p <= 49 # 10)%Q
  /\ (100 <= num_reviews p <= 5000)%Z
  /\ (if is_free (entry_fee p) then fee_price (entry_fee p) = 0%Z
      else (5 <= fee_price (entry_fee p) <= 50)%Z)
  /\ fee_currency (entry_fee p) = lit "USD"
  /\ (2 <= length (activities p) <= 4)%nat
  /\ NoDup (activities p)
  /\ incl (activities p) activity_types.

(** non-increasing by rating *)
Definition best_first : list Place -> Prop :=
  StronglySorted (fun x y => (rating y <= rating x)%Q).

(** [list(s)] lists every member of the set once, in some order *)
Definition set_listing (list_of_set : list str -> list str) : Prop :=
  forall l, NoDup (list_of_set l)
            /\ forall x, In x (list_of_set l) <-> In x l.

(** the order in which first occurrences appear: one possible [list(s)] *)
Definition first_occurrences (l : list str) : list str :=
  nodup (list_eq_dec N.eq_dec) l.

(** midnight of day [d] of month [m] of year [y] *)
Definition midnight (y m d : Z) : datetime :=
  {| year := y; month := m; day := d;
     hour := 0%Z; minute := 0%Z; second := 0%Z; microsecond := 0%Z |}.

(** the months counted from year 0: the order of (year, month) pairs *)
Definition month_index (dt : datetime) : Z := (12 * year dt + month dt)%Z.

(** the time of day *)
Definition time_of (dt : datetime) : list Z :=
  [hour dt; minute dt; second dt; microsecond dt].

(* ================================================================== *)
(** * Part IV.  Properties *)
(* ================================================================== *)

(** ** Lists, loops and random loops *)

Lemma range_length (n : Z) : length (range n) = Z.to_nat n.
Proof. unfold range. now rewrite length_map, length_seq. Qed.

Lemma range_nth_error (n d : Z) :
  0 <= d < n -> nth_error (range n) (Z.to_nat d) = Some d.
Proof.
  intros Hd. unfold range.
  rewrite nth_error_map, nth_error_seq.
  destruct (Nat.ltb_spec (Z.to_nat d) (Z.to_nat n)) as [_|H]; [|lia].
  cbn. f_equal. lia.
Qed.

Lemma in_range (n d : Z) : In d (range n) <-> 0 <= d < n.
Proof.
  unfold range. rewrite in_map_iff. split.
  - intros (k & <- & Hk). apply in_seq in Hk. lia.
  - intros Hd. exists (Z.to_nat d). split; [lia|]. apply in_seq. lia.
Qed.

Lemma seq_offset (a s len : nat) :
  seq (a + s) len = map (fun j => (a + j)%nat) (seq s len).
Proof.
  revert s. induction len as [|len IH]; intros s; cbn; [reflexivity|].
  f_equal. rewrite <- IH. f_equal. lia.
Qed.

Lemma range_split (n k : Z) :
  0 <= k < n ->
  range n = range k ++ k :: map (fun j => k + 1 + j) (range (n - k - 1)).
Proof.
  intros Hk. unfold range.
  replace (Z.to_nat n)
    with (Z.to_nat k + S (Z.to_nat (n - k - 1)))%nat by lia.
  rewrite seq_app, map_app. f_equal. cbn [seq map Nat.add].
  f_equal; [lia|].
  replace (S (Z.to_nat k)) with (S (Z.to_nat k) + 0)%nat by lia.
  rewrite seq_offset, !map_map. apply map_ext. intros j. lia.
Qed.

Lemma for_each_length {A B} (f : A -> result B) (xs : list A) (ys : list B) :
  for_each f xs = Ok ys -> length ys = length xs.
Proof.
  revert ys. induction xs as [|x xs IH]; intros ys H; cbn in H.
  - now inversion H.
  - destruct (f x); [|discriminate].
    destruct (for_each f xs); [|discriminate].
    inversion H; subst. cbn. f_equal. now apply IH.
Qed.

Lemma for_each_ok {A B} (f : A -> result B) (xs : list A) :
  (forall x, In x xs -> raises (f x) = false) ->
  raises (for_each f xs) = false.
Proof.
  induction xs as [|x xs IH]; intros H; cbn; [reflexivity|].
  pose proof (H x (or_introl eq_refl)) as Hx.
  destruct (f x); [|discriminate].
  assert (IH' : raises (for_each f xs) = false)
    by (apply IH; intros y Hy; apply H; now right).
  now destruct (for_each f xs).
Qed.

Lemma for_each_raise {A B} (f : A -> result B) (xs1 xs2 : list A) (x : A)
    (e : exn) :
  (forall y, In y xs1 -> raises (f y) = false) ->
  f x = Raise e ->
  for_each f (xs1 ++ x :: xs2) = Raise e.
Proof.
  intros Hok Hx. induction xs1 as [|y xs1 IH]; cbn.
  - now rewrite Hx.
  - pose proof (Hok y (or_introl eq_refl)) as Hy.
    destruct (f y); [|discriminate].
    rewrite IH; [reflexivity|]. intros z Hz. apply Hok. now right.
Qed.

Lemma rand_map_length {A B} (f : A -> Rand B) (xs : list A) (g : rng) :
  length (fst (rand_map f xs g)) = length xs.
Proof.
  revert g. induction xs as [|x xs IH]; intros g; cbn; [reflexivity|].
  unfold bind. destruct (f x g) as [y g1].
  specialize (IH g1). destruct (rand_map f xs g1) as [ys g2]. cbn in *.
  now f_equal.
Qed.

(** what holds of every outcome of the body holds of every element *)
Lemma rand_map_Forall {A B} (P : B -> Prop) (f : A -> Rand B) (xs : list A)
    (g : rng) :
  (forall x g', P (fst (f x g'))) ->
  Forall P (fst (rand_map f xs g)).
Proof.
  intros H. revert g. induction xs as [|x xs IH]; intros g; cbn.
  - constructor.
  - unfold bind. pose proof (H x g) as Hx. destruct (f x g) as [y g1].
    specialize (IH g1). destruct (rand_map f xs g1) as [ys g2]. cbn in *.
    now constructor.
Qed.

Lemma randint_bounds (a b : Z) (g : rng) :
  a <= b -> a <= fst (randint a b g) <= b.
Proof.
  intros Hab. unfold randint, bind, draw, ret. cbn.
  pose proof (Z.mod_pos_bound (Z.of_N (g 0%nat)) (b - a + 1)). lia.
Qed.

Lemma choice_In {A} (d : A) (l : list A) (g : rng) :
  l <> [] -> In (fst (choice d l g)) l.
Proof.
  intros Hl. unfold choice, bind, draw, ret. cbn.
  apply nth_In. apply Nat.mod_upper_bound.
  destruct l; [congruence|cbn; lia].
Qed.

(** ** The stable sort *)

Lemma insert_by_perm {A} (key : A -> Z) (x : A) (l : list A) :
  Permutation (x :: l) (insert_by key x l).
Proof.
  induction l as [|y l IH]; cbn; [reflexivity|].
  destruct (key x <=? key y); [reflexivity|].
  rewrite perm_swap. now constructor.
Qed.

Lemma sort_by_perm {A} (key : A -> Z) (l : list A) :
  Permutation l (sort_by key l).
Proof.
  induction l as [|x l IH]; cbn; [reflexivity|].
  rewrite <- insert_by_perm. now constructor.
Qed.

Lemma insert_by_sorted {A} (key : A -> Z) (x : A) (l : list A) :
  sorted_by key l -> sorted_by key (insert_by key x l).
Proof.
  unfold sorted_by. induction 1 as [|y l Hs IH Hy]; cbn.
  - repeat constructor.
  - destruct (Z.leb_spec (key x) (key y)) as [Hxy|Hxy].
    + constructor; [now constructor|].
      constructor; [exact Hxy|].
      eapply Forall_impl; [|exact Hy]. cbn. intros; lia.
    + constructor; [exact IH|].
      eapply Permutation_Forall; [apply insert_by_perm|].
      constructor; [lia|exact Hy].
Qed.

Lemma sort_by_sorted {A} (key : A -> Z) (l : list A) :
  sorted_by key (sort_by key l).
Proof.
  induction l as [|x l IH]; cbn; [constructor|].
  now apply insert_by_sorted.
Qed.

Lemma sort_by_length {A} (key : A -> Z) (l : list A) :
  length (sort_by key l) = length l.
Proof. symmetry. apply Permutation_length, sort_by_perm. Qed.

Lemma sort_by_Forall {A} (key : A -> Z) (P : A -> Prop) (l : list A) :
  Forall P l -> Forall P (sort_by key l).
Proof. apply Permutation_Forall, sort_by_perm. Qed.

(** ** The synthetic flight generator *)


Lemma mock_outbound_times (fly_from fly_to departure_date : str) (g : rng) :
  map departure_time (fst (mock_outbound fly_from fly_to departure_date g))
  = map (fun i => PStr (zero_pad 2 (6 + 3 * i) ++ lit ":00")) (range 5).
Proof. reflexivity. Qed.

Lemma generate_mock_flights_outbound (fly_from fly_to departure_date : str)
    (return_date : option str) (g : rng) :
  outbound_flights
    (fst (_generate_mock_flights fly_from fly_to departure_date return_date g))
  = sort_by price_key (fst (mock_outbound fly_from fly_to departure_date g)).
Proof.
  unfold _generate_mock_flights, bind.
  now destruct (mock_outbound fly_from fly_to departure_date g).
Qed.


(** C9: in the synthetic generator a provided return date makes
    [return_flights] the first three outbound flights of the sorted list,
    no flight being generated for the return (the same draws are consumed
    and the same outbound list comes out as without a return date); with no
    return date there is no [return_flights]. *)
Theorem C9_return_flights_reuse_outbound (fly_from fly_to departure_date : str)
    (return_date : str) (g : rng) :
  let with_return :=
    _generate_mock_flights fly_from fly_to departure_date (Some return_date)
      g in
  let one_way :=
    _generate_mock_flights fly_from fly_to departure_date None g in
  return_flights (fst with_return)
  = (if is_nil return_date then None
     else Some (slice_to 3 (outbound_flights (fst with_return))))
  /\ sorted_by price_key (outbound_flights (fst with_return))
  /\ return_flights (fst one_way) = None
  /\ outbound_flights (fst with_return) = outbound_flights (fst one_way)
  /\ snd with_return = snd one_way.
Proof.
  cbv zeta. split; [|split; [|split; [|split]]].
  - unfold _generate_mock_flights, bind.
    destruct (mock_outbound fly_from fly_to departure_date g).
    now destruct return_date.
  - rewrite generate_mock_flights_outbound. apply sort_by_sorted.
  - unfold _generate_mock_flights, bind.
    now destruct (mock_outbound fly_from fly_to departure_date g).
  - now rewrite !generate_mock_flights_outbound.
  - unfold _generate_mock_flights, bind.
    now destruct (mock_outbound fly_from fly_to departure_date g).
Qed.

(** ** The weather adapter *)

Section WeatherFacts.
Context {U : Unicode}.

Lemma call_mcp_weather_failed (o : outcome) (location units : str) :
  call_failed o ->
  _call_mcp_weather o location units = _get_mock_current_weather location.
Proof. now destruct o. Qed.

Lemma parse_mcp_response_source (content : mcp_content) (location units : str) :
  w_source (_parse_mcp_response content location units) = mcp_weather_source
  \/ _parse_mcp_response content location units
     = _get_mock_current_weather location.
Proof. destruct content as [[|first rest]|]; cbn; auto. Qed.

End WeatherFacts.

(** C5: when the external weather call raises or times out,
    [get_current_weather] still returns (it is a total function: no
    exception leaves it), and what it returns is the fixed mock reading
    (24.5 degrees, 65 percent, wind 12.5) whose source says mock data. *)
Theorem C5_weather_call_failure_gives_mock {U : Unicode} (self : WeatherTool)
    (o : outcome) (city units : str) :
  call_failed o ->
  let r := get_current_weather self o city units in
  r = _get_mock_current_weather city
  /\ w_source r = lit "Mock Data (AccuWeather API key not configured)"
  /\ contains (lit "MCP") (w_source r) = false
  /\ w_temperature_celsius r = 49 # 2
  /\ w_humidity r = 65
  /\ w_wind_speed r = 25 # 2.
Proof.
  intros Ho r.
  assert (Hr : r = _get_mock_current_weather city).
  { subst r. unfold get_current_weather.
    destruct (use_mock self); [reflexivity|].
    destruct o; cbn in *; try reflexivity. contradiction. }
  rewrite Hr. repeat split.
Qed.

Lemma C5_witness :
  call_failed (Failed (OtherError (lit "connection refused")))
  /\ w_source
       (@get_current_weather Latin1 (WeatherTool_init (Some (lit "key")) false)
          (Failed (OtherError (lit "connection refused"))) (lit "Paris")
          (lit "metric"))
     = lit "Mock Data (AccuWeather API key not configured)".
Proof.
  split; [exact I|].
  apply (@C5_weather_call_failure_gives_mock Latin1
           (WeatherTool_init (Some (lit "key")) false)
           (Failed (OtherError (lit "connection refused"))) (lit "Paris")
           (lit "metric") I).
Defined.

(** ** Prefixes and substrings *)

Lemma starts_with_spec (p t : str) :
  starts_with p t = true <-> exists rest, t = p ++ rest.
Proof.
  revert t. induction p as [|a p IH]; intros t; cbn.
  - split; [intros _; now exists t|reflexivity].
  - destruct t as [|b t].
    + split; [discriminate|]. now intros (rest & H).
    + rewrite andb_true_iff, N.eqb_eq, IH. split.
      * intros (-> & rest & ->). now exists rest.
      * intros (rest & H). inversion H; subst. split; [reflexivity|].
        now exists rest.
Qed.

Lemma starts_with_app (p rest : str) : starts_with p (p ++ rest) = true.
Proof. apply starts_with_spec. now exists rest. Qed.

Lemma contains_spec (s t : str) :
  contains s t = true <-> exists a b, t = a ++ s ++ b.
Proof.
  induction t as [|c t IH]; cbn; rewrite orb_true_iff, starts_with_spec.
  - split.
    + intros [(rest & H)|H]; [|discriminate]. now exists [], rest.
    + intros (a & b & H). left.
      destruct a; [now exists b|discriminate].
  - rewrite IH. split.
    + intros [(rest & H)|(a & b & H)].
      * now exists [], rest.
      * exists (c :: a), b. now rewrite H.
    + intros ([|x a] & b & H).
      * left. now exists b.
      * right. inversion H; subst. now exists a, b.
Qed.

Lemma contains_app_r (a b t : str) :
  contains (a ++ b) t = true -> contains b t = true.
Proof.
  rewrite !contains_spec. intros (x & y & ->).
  exists (x ++ a), y. now rewrite <- !app_assoc.
Qed.

Lemma contains_false_app (s a b : str) :
  contains s (a ++ b) = false -> contains s a = false.
Proof.
  intros H. destruct (contains s a) eqn:E; [|reflexivity].
  apply contains_spec in E as (x & y & ->).
  rewrite <- H. symmetry. apply contains_spec.
  exists x, (y ++ b). now rewrite <- !app_assoc.
Qed.


(** ** The description extractor *)

(** C10: [_extract_description] never returns "partly cloudy": "cloudy" is
    tested earlier in the list and is a substring of it.  A text whose
    lower-casing contains "partly cloudy" yields "sunny" when it also
    contains "sunny", and "cloudy" otherwise.  The result is always one of
    sunny, cloudy, rainy, clear, overcast, stormy, moderate weather. *)
Theorem C10_description_never_partly_cloudy {U : Unicode} (text : str) :
  _extract_description text <> lit "partly cloudy"
  /\ In (_extract_description text)
        [ lit "sunny"; lit "cloudy"; lit "rainy"; lit "clear";
          lit "overcast"; lit "stormy"; lit "moderate weather" ]
  /\ (contains (lit "partly cloudy") (str_lower text) = true ->
      _extract_description text
      = if contains (lit "sunny") (str_lower text) then lit "sunny"
        else lit "cloudy").
Proof.
  unfold _extract_description, conditions. cbn [first_condition].
  assert (Hsub : contains (lit "partly cloudy") (str_lower text) = true ->
                 contains (lit "cloudy") (str_lower text) = true)
    by apply (contains_app_r (lit "partly ") (lit "cloudy")).
  destruct (contains (lit "sunny") (str_lower text));
    [repeat split; cbn; auto; discriminate|].
  destruct (contains (lit "cloudy") (str_lower text));
    [repeat split; cbn; auto; discriminate|].
  destruct (contains (lit "rainy") (str_lower text));
    [split; [discriminate|split; [cbn; auto 10|intros H; now apply Hsub in H]]|].
  destruct (contains (lit "clear") (str_lower text));
    [split; [discriminate|split; [cbn; auto 10|intros H; now apply Hsub in H]]|].
  destruct (contains (lit "partly cloudy") (str_lower text));
    [now specialize (Hsub eq_refl)|].
  destruct (contains (lit "overcast") (str_lower text));
    [split; [discriminate|split; [cbn; auto 10|discriminate]]|].
  destruct (contains (lit "stormy") (str_lower text));
    split; try discriminate; (split; [cbn; auto 10|discriminate]).
Qed.

(** The sentence of C10 that fails: a text containing "partly cloudy" that
    also contains "sunny" yields "sunny", not "cloudy". *)
Lemma C10_counterexample :
  contains (lit "partly cloudy") (lit "sunny, later partly cloudy") = true
  /\ @_extract_description Latin1 (lit "sunny, later partly cloudy")
     = lit "sunny"
  /\ @_extract_description Latin1 (lit "sunny, later partly cloudy")
     <> lit "cloudy".
Proof. repeat split. discriminate. Qed.

(** ** The forecast and the calendar *)

Section ForecastFacts.
Context {U : Unicode}.

Lemma days_in_month_bounds (y m : Z) : 28 <= days_in_month y m <= 31.
Proof.
  unfold days_in_month.
  destruct (m =? 2); [destruct (is_leap y); lia|].
  destruct ((m =? 4) || (m =? 6) || (m =? 9) || (m =? 11)); lia.
Qed.

Lemma valid_date_spec (y m d : Z) :
  valid_date y m d = true <->
  1 <= y <= 9999 /\ 1 <= m <= 12 /\ 1 <= d <= days_in_month y m.
Proof.
  unfold valid_date. rewrite !andb_true_iff, !Z.leb_le. tauto.
Qed.

(** the real-data branch keeps the day when it stays within 28, and asks
    for day 1 of month + 1 otherwise: there is no month 13 *)
Lemma forecast_day_returns (now : datetime) (current : WeatherReading)
    (i : Z) :
  valid_datetime now = true -> 0 <= i ->
  day now + i <= 28 \/ month now < 12 ->
  raises (forecast_day now current i) = false.
Proof.
  unfold valid_datetime. rewrite valid_date_spec. intros Hv Hi Hc.
  unfold forecast_day.
  destruct (Z.leb_spec (day now + i) 28) as [Hle|Hgt].
  - unfold replace_day.
    replace (valid_date (year now) (month now) (day now + i)) with true;
      [reflexivity|].
    symmetry. apply valid_date_spec.
    pose proof (days_in_month_bounds (year now) (month now)). lia.
  - unfold replace_month_day.
    replace (valid_date (year now) (month now + 1) 1) with true;
      [reflexivity|].
    symmetry. apply valid_date_spec.
    pose proof (days_in_month_bounds (year now) (month now + 1)). lia.
Qed.

Lemma forecast_day_raises (now : datetime) (current : WeatherReading)
    (i : Z) :
  month now = 12 -> 28 < day now + i ->
  forecast_day now current i = Raise ValueError.
Proof.
  intros Hm Hd. unfold forecast_day.
  destruct (Z.leb_spec (day now + i) 28) as [Hle|Hgt]; [lia|].
  unfold replace_month_day.
  replace (valid_date (year now) (month now + 1) 1) with false;
    [reflexivity|].
  symmetry. apply not_true_iff_false. rewrite valid_date_spec. lia.
Qed.

Lemma real_source_has_MCP : contains (lit "MCP") mcp_weather_source = true.
Proof. reflexivity. Qed.

Lemma get_forecast_real_branch (self : WeatherTool) (text : str)
    (more : list content_item) (now : datetime) (city : str) (num_days : Z) :
  use_mock self = false ->
  get_forecast self
    (Answered (WithContent (ContentList (TextContent text :: more))))
    now city num_days
  = for_each
      (forecast_day now
         (_parse_mcp_response (ContentList (TextContent text :: more)) city
            (lit "metric")))
      (range num_days).
Proof.
  intros Hm. unfold get_forecast, get_current_weather. rewrite Hm.
  reflexivity.
Qed.

(** In December the real-data branch raises as soon as a forecast day
    passes the 28th. *)
Lemma get_forecast_raises_in_december (self : WeatherTool) (text : str)
    (more : list content_item) (now : datetime) (city : str) (num_days : Z) :
  use_mock self = false ->
  valid_datetime now = true ->
  month now = 12 ->
  1 <= num_days ->
  28 < day now + (num_days - 1) ->
  get_forecast self
    (Answered (WithContent (ContentList (TextContent text :: more))))
    now city num_days
  = Raise ValueError.
Proof.
  intros Hm Hv Hdec Hpos Hlate. rewrite get_forecast_real_branch by exact Hm.
  assert (Hday : 1 <= day now <= 31).
  { unfold valid_datetime in Hv. apply valid_date_spec in Hv.
    pose proof (days_in_month_bounds (year now) (month now)). lia. }
  assert (Hk : 0 <= Z.max 0 (29 - day now) < num_days) by lia.
  assert (Hk' : 28 < day now + Z.max 0 (29 - day now)) by lia.
  assert (Hk'' : forall j, 0 <= j < Z.max 0 (29 - day now) ->
                           day now + j <= 28) by lia.
  set (k := Z.max 0 (29 - day now)) in *.
  rewrite (range_split num_days k Hk). apply for_each_raise.
  - intros j Hj. apply in_range in Hj.
    apply forecast_day_returns; [exact Hv|lia|left; now apply Hk''].
  - apply forecast_day_raises; [exact Hdec|exact Hk'].
Qed.

End ForecastFacts.

(** C1: [get_forecast] does raise.  With real data (current weather tagged
    MCP), on 28 December a two-day forecast asks for day 1 of month 13:
    [datetime.replace] raises [ValueError] and nothing catches it. *)
Theorem C1_forecast_raises_on_december_28 {U : Unicode} (text city : str) :
  valid_datetime december_28 = true
  /\ contains (lit "MCP")
       (w_source (get_current_weather keyed_tool (answered_text text) city
                    (lit "metric"))) = true
  /\ get_forecast keyed_tool (answered_text text) december_28 city 2
     = Raise ValueError.
Proof.
  split; [reflexivity|]. split; [reflexivity|].
  apply get_forecast_raises_in_december; (reflexivity || lia).
Qed.

(** ** The itinerary *)

Lemma get_day_theme_first (total_days : Z) :
  _get_day_theme 0 total_days = lit "Arrival & City Orientation".
Proof. reflexivity. Qed.

Lemma get_day_theme_last (total_days : Z) :
  1 < total_days ->
  _get_day_theme (total_days - 1) total_days = lit "Final Day Highlights".
Proof.
  intros H. unfold _get_day_theme.
  destruct (Z.eqb_spec (total_days - 1) 0); [lia|].
  now rewrite Z.eqb_refl.
Qed.

Lemma get_day_theme_interior (day total_days : Z) :
  0 < day < total_days - 1 ->
  _get_day_theme day total_days = nth (Z.to_nat (day mod 7)) themes [].
Proof.
  intros H. unfold _get_day_theme.
  destruct (Z.eqb_spec day 0); [lia|].
  destruct (Z.eqb_spec day (total_days - 1)); [lia|].
  reflexivity.
Qed.

Section ItineraryFacts.
Context {U : Unicode}.
Variable list_of_set : list str -> list str.

(** for a positive number of days the itinerary is the image of
    [range(num_days)] *)
Lemma create_itinerary_days (destination : str) (num_days : Z) (g : rng) :
  num_days <> 0 ->
  exists days,
    fst (create_itinerary_suggestions list_of_set destination num_days g)
    = Ok days
    /\ map dp_day days = map (fun day => day + 1) (range num_days)
    /\ map dp_theme days
       = map (fun day => _get_day_theme day num_days) (range num_days).
Proof.
  intros Hn. unfold create_itinerary_suggestions, bind.
  destruct (search_places destination (num_days * 4) g) as [all_places g'].
  destruct (Z.eqb_spec num_days 0) as [|_]; [contradiction|].
  cbn [fst ret]. eexists. split; [reflexivity|].
  rewrite !map_map. split; reflexivity.
Qed.

End ItineraryFacts.

(** C2: for N in [1, 30] the itinerary has exactly N entries, numbered
    1..N in order; the first theme is "Arrival & City Orientation" (also
    when N = 1); the last theme is "Final Day Highlights" exactly when
    N > 1; an interior day d (counted from 0) has theme themes[d mod 7]. *)
Theorem C2_itinerary_entries_and_themes {U : Unicode}
    (list_of_set : list str -> list str) (destination : str) (N : Z)
    (g : rng) :
  1 <= N <= 30 ->
  exists days,
    fst (create_itinerary_suggestions list_of_set destination N g) = Ok days
    /\ length days = Z.to_nat N
    /\ map dp_day days = map (fun d => d + 1) (range N)
    /\ option_map dp_theme (nth_error days 0)
       = Some (lit "Arrival & City Orientation")
    /\ (option_map dp_theme (nth_error days (Z.to_nat (N - 1)))
        = Some (lit "Final Day Highlights") <-> 1 < N)
    /\ (forall d, 0 < d < N - 1 ->
        option_map dp_theme (nth_error days (Z.to_nat d))
        = Some (nth (Z.to_nat (d mod 7)) themes [])).
Proof.
  intros HN.
  destruct (create_itinerary_days list_of_set destination N g ltac:(lia))
    as (days & Hdays & Hnum & Hthemes).
  assert (Hnth : forall d, 0 <= d < N ->
            option_map dp_theme (nth_error days (Z.to_nat d))
            = Some (_get_day_theme d N)).
  { intros d Hd. rewrite <- nth_error_map, Hthemes, nth_error_map.
    now rewrite range_nth_error. }
  exists days. split; [exact Hdays|]. split.
  { rewrite <- (length_map dp_day), Hnum, length_map. apply range_length. }
  split; [exact Hnum|]. split.
  { exact (Hnth 0 ltac:(lia)). }
  split.
  - rewrite Hnth by lia. split.
    + intros H. destruct (Z.eq_dec N 1) as [->|]; [discriminate H|lia].
    + intros H. now rewrite get_day_theme_last.
  - intros d Hd. rewrite Hnth by lia.
    now rewrite get_day_theme_interior.
Qed.

Lemma C2_witness :
  (1 <= 1 <= 30)
  /\ exists days,
       fst (@create_itinerary_suggestions Latin1 (fun l => l) (lit "Paris") 1
              (fun _ => 7%N)) = Ok days
       /\ length days = 1%nat
       /\ option_map dp_theme (nth_error days 0)
          = Some (lit "Arrival & City Orientation").
Proof.
  split; [lia|].
  destruct (@C2_itinerary_entries_and_themes Latin1 (fun l => l)
              (lit "Paris") 1 (fun _ => 7%N) ltac:(lia))
    as (days & H1 & H2 & _ & H3 & _).
  exists days. auto.
Defined.

(** ** The plan composer *)

(** C6: a valid request for which [create_travel_plan] returns no plan.
    On 28 December, with the weather server answering, the forecast of
    min(5, 5) days asks for month 13 (the defect of C1); the [ValueError]
    crosses [_get_weather_info] and [create_travel_plan]. *)
Theorem C6_plan_raises_on_december_28 {U : Unicode}
    (json_loads : str -> option pyval) (hash_repr : pyval -> Z)
    (list_of_set : list str -> list str) (text : str)
    (llm_says : llm_outcome) (first_weather flight : outcome) (draws : rng) :
  validate_inputs (lit "Paris") 5 6 = true
  /\ create_travel_plan json_loads hash_repr list_of_set keyed_tool
       (december_world text llm_says first_weather flight draws)
       (lit "Paris") 5 6 (lit "NYC")
     = Raise ValueError.
Proof.
  split.
  - unfold validate_inputs, str_strip, rstrip. cbn.
    rewrite !is_whitespace_latin1 by reflexivity. cbn.
    rewrite !is_whitespace_latin1 by reflexivity. reflexivity.
  - unfold create_travel_plan.
    set (w := december_world text llm_says first_weather flight draws).
    assert (Hw : _get_weather_info keyed_tool w (lit "Paris") 5
                 = Raise ValueError).
    { unfold _get_weather_info. subst w.
      cbn [weather_call_2 clock december_world]. unfold answered_text.
      rewrite get_forecast_raises_in_december; (reflexivity || lia). }
    rewrite Hw. subst w. cbn [clock december_world].
    set (a := add_days december_28 2). vm_compute in a. subst a.
    cbn [rbind].
    match goal with |- context [add_days ?d 5] =>
      set (a := add_days d 5); vm_compute in a; subst a end.
    reflexivity.
Qed.

(** ** City codes *)

Lemma ascii_b_spec (s : str) : ascii_b s = true <-> is_ascii s.
Proof.
  unfold ascii_b, is_ascii. rewrite forallb_forall, Forall_forall.
  split; intros H c Hc; apply N.ltb_lt; auto.
Qed.

Lemma str_eqb_eq (a b : str) : str_eqb a b = true <-> a = b.
Proof.
  unfold str_eqb. destruct (list_eq_dec N.eq_dec a b); split; congruence.
Qed.

Lemma dict_lookup_In {V} (d : list (str * V)) (key : str) (v : V) :
  dict_lookup d key = Some v -> In (key, v) d.
Proof.
  induction d as [|[k x] d IH]; cbn; [discriminate|].
  destruct (str_eqb k key) eqn:E.
  - apply str_eqb_eq in E. intros [= ->]. left. now subst.
  - intros H. right. now apply IH.
Qed.

Lemma is_ascii_firstn (n : nat) (s : str) :
  is_ascii s -> is_ascii (slice_to n s).
Proof.
  unfold is_ascii, slice_to. intros H.
  rewrite <- (firstn_skipn n s) in H. now apply Forall_app in H.
Qed.

Lemma is_ascii_lower (s : str) : is_ascii s -> is_ascii (map ascii_lower s).
Proof.
  unfold is_ascii. intros H. apply Forall_map.
  eapply Forall_impl; [|exact H]. cbn. intros c Hc. unfold ascii_lower.
  destruct ((65 <=? c)%N && (c <=? 90)%N) eqn:E; [|exact Hc].
  apply andb_true_iff in E as [_ E%N.leb_le]. lia.
Qed.

Lemma is_ascii_upper (s : str) : is_ascii s -> is_ascii (map ascii_upper s).
Proof.
  unfold is_ascii. intros H. apply Forall_map.
  eapply Forall_impl; [|exact H]. cbn. intros c Hc. unfold ascii_upper.
  destruct ((97 <=? c)%N && (c <=? 122)%N); lia.
Qed.

Lemma ascii_upper_idem (c : codepoint) :
  ascii_upper (ascii_upper c) = ascii_upper c.
Proof.
  unfold ascii_upper.
  destruct ((97 <=? c)%N && (c <=? 122)%N) eqn:E; [|now rewrite E].
  apply andb_true_iff in E as [E1%N.leb_le E2%N.leb_le].
  replace (97 <=? c - 32)%N with false; [reflexivity|].
  symmetry. apply N.leb_gt. lia.
Qed.

(** an upper-cased character whose lower case is a small letter is the
    capital of that letter *)
Lemma ascii_upper_of_small (z l : codepoint) :
  ascii_lower (ascii_upper z) = l -> (97 <= l <= 122)%N ->
  ascii_upper z = (l - 32)%N.
Proof.
  unfold ascii_lower, ascii_upper. intros H Hl.
  destruct ((97 <=? z)%N && (z <=? 122)%N) eqn:E.
  - apply andb_true_iff in E as [E1%N.leb_le E2%N.leb_le].
    destruct ((65 <=? z - 32)%N && (z - 32 <=? 90)%N) eqn:F; lia.
  - destruct ((65 <=? z)%N && (z <=? 90)%N) eqn:F; [lia|].
    subst l. exfalso.
    apply andb_false_iff in E as [E%N.leb_gt|E%N.leb_gt]; lia.
Qed.

Section StripFacts.
Context {U : Unicode}.

Lemma lstrip_split (s : str) : exists a, s = a ++ lstrip s.
Proof.
  induction s as [|c s (a & IH)]; [now exists []|]. cbn.
  destruct (is_whitespace c); [|now exists []].
  exists (c :: a). cbn. now f_equal.
Qed.

Lemma lstrip_length (s : str) : (length (lstrip s) <= length s)%nat.
Proof.
  destruct (lstrip_split s) as (a & H). rewrite H at 2.
  rewrite length_app. lia.
Qed.

Lemma lstrip_same_length (s : str) :
  length (lstrip s) = length s -> lstrip s = s.
Proof.
  intros Hl. destruct (lstrip_split s) as (a & H).
  assert (Ha : length a = 0%nat).
  { apply (f_equal (@length _)) in H. rewrite length_app in H. lia. }
  destruct a; [now symmetry|discriminate].
Qed.

Lemma rstrip_length (s : str) : (length (rstrip s) <= length s)%nat.
Proof.
  unfold rstrip. rewrite length_rev.
  rewrite <- (length_rev s). apply lstrip_length.
Qed.

Lemma rstrip_same_length (s : str) :
  length (rstrip s) = length s -> rstrip s = s.
Proof.
  unfold rstrip. rewrite length_rev. intros H.
  rewrite lstrip_same_length by now rewrite length_rev.
  apply rev_involutive.
Qed.

Lemma str_strip_length (s : str) : (length (str_strip s) <= length s)%nat.
Proof.
  unfold str_strip.
  pose proof (rstrip_length (lstrip s)). pose proof (lstrip_length s). lia.
Qed.

Lemma str_strip_same_length (s : str) :
  length (str_strip s) = length s -> str_strip s = s.
Proof.
  unfold str_strip. intros H.
  pose proof (rstrip_length (lstrip s)). pose proof (lstrip_length s).
  rewrite rstrip_same_length by lia. apply lstrip_same_length. lia.
Qed.

End StripFacts.

Section CityCodeFacts.
Context {U : Unicode}.

Lemma latin1_is_space_spec (c : codepoint) :
  (c < 256)%N -> latin1_is_space c = latin1_space c.
Proof. exact (@is_whitespace_latin1 Latin1 c). Qed.

(** on Latin-1 strings the methods agree with the executable fragment *)
Lemma lstrip_latin1 (s : str) :
  Forall (fun c => (c < 256)%N) s -> lstrip s = @lstrip Latin1 s.
Proof.
  induction 1 as [|c s Hc _ IH]; [reflexivity|]. cbn.
  rewrite (is_whitespace_latin1 c Hc), (latin1_is_space_spec c Hc).
  now rewrite IH.
Qed.

Lemma str_strip_latin1 (s : str) :
  Forall (fun c => (c < 256)%N) s -> str_strip s = @str_strip Latin1 s.
Proof.
  intros H. unfold str_strip, rstrip.
  rewrite (lstrip_latin1 s H).
  rewrite lstrip_latin1; [reflexivity|].
  apply Forall_rev.
  destruct (@lstrip_split Latin1 s) as (a & Ha).
  rewrite Ha in H. now apply Forall_app in H.
Qed.

Lemma is_ascii_latin1 (s : str) :
  is_ascii s -> Forall (fun c => (c < 256)%N) s.
Proof. apply Forall_impl. intros; lia. Qed.

Lemma get_city_code_ascii (x : str) :
  is_ascii x ->
  _get_city_code x
  = dict_get city_codes (@str_strip Latin1 (map ascii_lower x))
      (map ascii_upper (slice_to 3 x)).
Proof.
  intros Hx. unfold _get_city_code.
  rewrite (str_lower_ascii x Hx).
  rewrite str_upper_ascii by (apply is_ascii_firstn, Hx).
  rewrite str_strip_latin1; [reflexivity|].
  apply is_ascii_latin1, is_ascii_lower, Hx.
Qed.

End CityCodeFacts.

(** facts about the table, checked entry by entry *)
Lemma city_codes_checked :
  forallb
    (fun '(name, code) =>
       ascii_b code
       && str_eqb (city_code_ascii code) code
       && ((3 <? length name)%nat
           || (str_eqb name (lit "nyc") && str_eqb code (lit "NYC")))
       && str_eqb (@str_strip Latin1 name) name
       && negb (is_nil name))
    city_codes = true.
Proof. vm_compute. reflexivity. Qed.

Lemma city_codes_entry (name code : str) :
  dict_lookup city_codes name = Some code ->
  is_ascii code
  /\ city_code_ascii code = code
  /\ ((length name <= 3)%nat -> name = lit "nyc" /\ code = lit "NYC")
  /\ @str_strip Latin1 name = name
  /\ name <> [].
Proof.
  intros H%dict_lookup_In.
  pose proof city_codes_checked as Hall.
  rewrite forallb_forall in Hall. specialize (Hall _ H). cbn beta iota in Hall.
  rewrite !andb_true_iff in Hall.
  destruct Hall as ((((Ha & Hfix) & Hshort) & Hstrip) & Hne).
  split; [now apply ascii_b_spec|].
  split; [now apply str_eqb_eq|].
  split; [|split; [now apply str_eqb_eq|now destruct name]].
  intros Hlen. apply orb_true_iff in Hshort as [Hs|Hs].
  - apply Nat.ltb_lt in Hs. lia.
  - apply andb_true_iff in Hs as [H1 H2].
    split; now apply str_eqb_eq.
Qed.

Lemma city_code_ascii_idempotent (x : str) :
  is_ascii x -> city_code_ascii (city_code_ascii x) = city_code_ascii x.
Proof.
  intros Hx. unfold city_code_ascii at 2 3. unfold dict_get.
  destruct (dict_lookup city_codes (@str_strip Latin1 (map ascii_lower x)))
    as [code|] eqn:E.
  - now apply city_codes_entry in E.
  - remember (map ascii_upper (slice_to 3 x)) as y eqn:Hy.
    assert (Hy3 : (length y <= 3)%nat).
    { rewrite Hy, length_map. apply firstn_le_length. }
    assert (Hyy : map ascii_upper (slice_to 3 y) = y).
    { unfold slice_to. rewrite firstn_all2 by exact Hy3.
      rewrite Hy, map_map. apply map_ext. apply ascii_upper_idem. }
    unfold city_code_ascii, dict_get.
    destruct (dict_lookup city_codes (@str_strip Latin1 (map ascii_lower y)))
      as [code|] eqn:F; [|exact Hyy].
    pose proof (@str_strip_length Latin1 (map ascii_lower y)) as Hlen.
    rewrite length_map in Hlen.
    apply city_codes_entry in F as (_ & _ & Hshort & _).
    destruct (Hshort ltac:(lia)) as [Hkey ->].
    assert (Hsame : @str_strip Latin1 (map ascii_lower y) = map ascii_lower y).
    { apply str_strip_same_length. rewrite Hkey, length_map.
      rewrite Hkey in Hlen. change (length (lit "nyc")) with 3%nat in *.
      lia. }
    rewrite Hsame in Hkey.
    subst y. destruct (slice_to 3 x) as [|a [|b [|c [|d l]]]];
      try discriminate Hkey.
    cbn in Hkey |- *. injection Hkey as Ha Hb Hc.
    rewrite (ascii_upper_of_small a _ Ha), (ascii_upper_of_small b _ Hb),
      (ascii_upper_of_small c _ Hc) by lia.
    reflexivity.
Qed.

Lemma city_code_ascii_is_ascii (x : str) :
  is_ascii x -> is_ascii (city_code_ascii x).
Proof.
  intros Hx. unfold city_code_ascii, dict_get.
  destruct (dict_lookup city_codes (@str_strip Latin1 (map ascii_lower x)))
    as [code|] eqn:E.
  - now apply city_codes_entry in E.
  - apply is_ascii_upper, is_ascii_firstn, Hx.
Qed.

Lemma ascii_blank_is_ascii (ws : str) : ascii_blank ws -> is_ascii ws.
Proof. apply Forall_impl. now intros c [H _]. Qed.

Lemma ascii_blank_lower (ws : str) :
  ascii_blank ws -> map ascii_lower ws = ws.
Proof.
  induction 1 as [|c ws [Hc Hs] _ IH]; [reflexivity|]. cbn. rewrite IH.
  f_equal. unfold ascii_lower.
  destruct ((65 <=? c)%N && (c <=? 90)%N) eqn:E; [|reflexivity].
  exfalso. apply andb_true_iff in E as [E1%N.leb_le E2%N.leb_le].
  unfold latin1_space in Hs.
  rewrite !orb_true_iff, !andb_true_iff, !N.leb_le, !N.eqb_eq in Hs. lia.
Qed.

Lemma lstrip_blank (ws s : str) :
  ascii_blank ws -> @lstrip Latin1 (ws ++ s) = @lstrip Latin1 s.
Proof.
  induction 1 as [|c ws [Hc Hs] _ IH]; [reflexivity|]. cbn.
  unfold latin1_is_space. rewrite Hs.
  replace (c <? 256)%N with true by (symmetry; apply N.ltb_lt; lia).
  exact IH.
Qed.

Lemma lstrip_app {U : Unicode} (s t : str) :
  lstrip s <> [] -> lstrip (s ++ t) = lstrip s ++ t.
Proof.
  induction s as [|c s IH]; cbn; [congruence|].
  destruct (is_whitespace c); [exact IH|reflexivity].
Qed.

Lemma str_strip_around (ws1 name ws2 : str) :
  ascii_blank ws1 -> ascii_blank ws2 ->
  @str_strip Latin1 name = name -> name <> [] ->
  @str_strip Latin1 (ws1 ++ name ++ ws2) = name.
Proof.
  intros H1 H2 Hname Hne.
  pose proof (@rstrip_length Latin1 (@lstrip Latin1 name)) as Hr.
  pose proof (@lstrip_length Latin1 name) as Hl.
  assert (Hlname : @lstrip Latin1 name = name).
  { apply lstrip_same_length. unfold str_strip in Hname.
    rewrite Hname in Hr. lia. }
  assert (Hrname : @rstrip Latin1 name = name).
  { unfold str_strip in Hname. now rewrite Hlname in Hname. }
  unfold str_strip. rewrite lstrip_blank by exact H1.
  rewrite lstrip_app by (rewrite Hlname; exact Hne).
  rewrite Hlname. unfold rstrip. rewrite rev_app_distr.
  rewrite lstrip_blank.
  - exact Hrname.
  - unfold ascii_blank. apply Forall_rev. exact H2.
Qed.

(** C7, as far as it holds.  On ASCII input the lookup is idempotent: a
    code the function has produced maps to itself.  For every name of the
    table, any ASCII casing of it, with ASCII white space around, maps to
    the code of the table; "  Paris " maps to "PAR". *)
Theorem C7_city_code_idempotent_on_ascii {U : Unicode} :
  (forall x, is_ascii x ->
     _get_city_code (_get_city_code x) = _get_city_code x)
  /\ (forall name code ws1 y ws2,
        dict_lookup city_codes name = Some code ->
        is_ascii y -> map ascii_lower y = name ->
        ascii_blank ws1 -> ascii_blank ws2 ->
        _get_city_code (ws1 ++ y ++ ws2) = code)
  /\ _get_city_code (lit "  Paris ") = lit "PAR".
Proof.
  assert (Htable : forall name code ws1 y ws2,
            dict_lookup city_codes name = Some code ->
            is_ascii y -> map ascii_lower y = name ->
            ascii_blank ws1 -> ascii_blank ws2 ->
            _get_city_code (ws1 ++ y ++ ws2) = code).
  { intros name code ws1 y ws2 Hin Hy Hlow H1 H2.
    rewrite get_city_code_ascii.
    2:{ unfold is_ascii. rewrite !Forall_app.
        repeat split; try assumption; now apply ascii_blank_is_ascii. }
    rewrite !map_app, Hlow, !ascii_blank_lower by assumption.
    destruct (city_codes_entry name code Hin) as (_ & _ & _ & Hs & Hne).
    rewrite str_strip_around by assumption.
    unfold dict_get. now rewrite Hin. }
  split; [|split; [exact Htable|]].
  - intros x Hx. rewrite (get_city_code_ascii x Hx).
    fold (city_code_ascii x).
    rewrite get_city_code_ascii by now apply city_code_ascii_is_ascii.
    fold (city_code_ascii (city_code_ascii x)).
    now apply city_code_ascii_idempotent.
  - apply (Htable (lit "paris") (lit "PAR") (lit "  ") (lit "Paris")
             (lit " ")).
    + reflexivity.
    + apply ascii_b_spec. reflexivity.
    + reflexivity.
    + repeat constructor.
    + repeat constructor.
Qed.

Lemma C7_witness :
  is_ascii (lit " los Angeles")
  /\ @_get_city_code Latin1 (@_get_city_code Latin1 (lit " los Angeles"))
     = @_get_city_code Latin1 (lit " los Angeles").
Proof.
  assert (H : is_ascii (lit " los Angeles"))
    by (repeat (apply Forall_cons; [reflexivity|]); apply Forall_nil).
  split; [exact H|].
  exact (proj1 (@C7_city_code_idempotent_on_ascii Latin1)
           (lit " los Angeles") H).
Defined.

(** C7 as stated fails outside ASCII: the slice is taken before the upper
    case, and U+00DF upper-cases to two letters.  The code of "ßab" is
    "SSAB"; the code of "SSAB" is "SSA". *)
Lemma C7_counterexample :
  @_get_city_code Latin1 (sharp_s :: lit "ab") = lit "SSAB"
  /\ @_get_city_code Latin1 (@_get_city_code Latin1 (sharp_s :: lit "ab"))
     = lit "SSA"
  /\ @_get_city_code Latin1 (@_get_city_code Latin1 (sharp_s :: lit "ab"))
     <> @_get_city_code Latin1 (sharp_s :: lit "ab").
Proof. repeat split. discriminate. Qed.

(** ** The matcher and the language of a pattern *)

Section RegexFacts.
Context {U : Unicode}.

Lemma or_else_some {A} (a b : option A) (x : A) :
  or_else a b = Some x -> a = Some x \/ b = Some x.
Proof. destruct a; cbn; auto. Qed.

Lemma match_star_sound (p : codepoint -> bool) (t : str) (caps : list str)
    (k : cont) (x : matched) :
  match_star p t caps k = Some x ->
  exists w rest,
    t = w ++ rest /\ Forall (fun c => p c = true) w /\ k rest caps = Some x.
Proof.
  induction t as [|c t IH]; cbn; intros H.
  - exists [], []. auto.
  - destruct (p c) eqn:Hc.
    + apply or_else_some in H as [H|H].
      * destruct (IH H) as (w & rest & -> & Hw & Hk).
        exists (c :: w), rest. auto.
      * exists [], (c :: t). auto.
    + exists [], (c :: t). auto.
Qed.

(** whatever the matcher accepts starts with a word of the language *)
Lemma match_re_sound (r : regex) :
  forall (t : str) (caps : list str) (k : cont) (x : matched),
    match_re r t caps k = Some x ->
    exists w rest caps',
      t = w ++ rest /\ lang r w /\ k rest caps' = Some x.
Proof.
  induction r as [s|c|c|r1 IH1 r2 IH2|r1 IH1 r2 IH2|r1 IH1|r1 IH1];
    intros t caps k x H; cbn in H.
  - destruct (starts_with s t) eqn:E; [|discriminate].
    apply starts_with_spec in E as (rest & ->).
    rewrite skipn_app, skipn_all, Nat.sub_diag in H. cbn in H.
    exists s, rest, caps. auto using lang.
  - destruct t as [|a t]; [discriminate|].
    destruct (in_class c a) eqn:E; [|discriminate].
    exists [a], t, caps. auto using lang.
  - apply match_star_sound in H as (w & rest & -> & Hw & Hk).
    exists w, rest, caps. auto using lang.
  - apply IH1 in H as (w1 & rest1 & caps1 & -> & H1 & H).
    apply IH2 in H as (w2 & rest2 & caps2 & -> & H2 & H).
    exists (w1 ++ w2), rest2, caps2. rewrite app_assoc. auto using lang.
  - apply or_else_some in H as [H|H].
    + apply IH1 in H as (w & rest & caps' & -> & Hw & Hk).
      exists w, rest, caps'. auto using lang.
    + apply IH2 in H as (w & rest & caps' & -> & Hw & Hk).
      exists w, rest, caps'. auto using lang.
  - apply or_else_some in H as [H|H].
    + apply IH1 in H as (w & rest & caps' & -> & Hw & Hk).
      exists w, rest, caps'. auto using lang.
    + exists [], t, caps. auto using lang.
  - apply IH1 in H as (w & rest & caps' & -> & Hw & Hk).
    eexists w, rest, _. split; [reflexivity|]. split; [|exact Hk].
    auto using lang.
Qed.

Lemma re_match_sound (r : regex) (t : str) (m : matched) :
  re_match r t = Some m -> exists w rest, t = w ++ rest /\ lang r w.
Proof.
  unfold re_match. intros H.
  apply match_re_sound in H as (w & rest & _ & Ht & Hw & _). eauto.
Qed.

Lemma re_search_unfold (r : regex) (t : str) :
  re_search r t
  = match re_match r t with
    | Some (caps, _) => Some caps
    | None => match t with [] => None | _ :: t' => re_search r t' end
    end.
Proof. destruct t; reflexivity. Qed.

Lemma re_search_skip (r : regex) (pre t : str) :
  no_match_starts_in r pre t -> re_search r (pre ++ t) = re_search r t.
Proof.
  induction pre as [|c pre IH]; intros H; [reflexivity|].
  rewrite re_search_unfold.
  destruct (re_match r ((c :: pre) ++ t)) as [m|] eqn:E.
  - exfalso. apply re_match_sound in E as (w & rest & Ht & Hw).
    exact (H [] (c :: pre) w rest eq_refl ltac:(discriminate) Ht Hw).
  - cbn [app]. apply IH. intros a b w rest Hpre Hb Ht.
    apply (H (c :: a) b w rest); [now rewrite Hpre|exact Hb|exact Ht].
Qed.

(** the star takes all it can when what follows cannot start with a
    character of the class *)
Lemma match_star_greedy (p : codepoint -> bool) (run rest : str)
    (caps : list str) (k : cont) :
  Forall (fun c => p c = true) run ->
  (forall c t, p c = true -> k (c :: t) caps = None) ->
  match rest with [] => True | c :: _ => p c = false end ->
  match_star p (run ++ rest) caps k = k rest caps.
Proof.
  intros Hrun Hk Hrest. induction Hrun as [|c run Hc _ IH]; cbn.
  - destruct rest as [|c rest]; cbn; [reflexivity|]. now rewrite Hrest.
  - rewrite Hc, IH. rewrite (Hk c (run ++ rest) Hc).
    now destruct (k rest caps).
Qed.

Lemma firstn_consumed {A} (w rest : list A) :
  firstn (length (w ++ rest) - length rest) (w ++ rest) = w.
Proof.
  rewrite length_app, Nat.add_sub.
  rewrite firstn_app, Nat.sub_diag, firstn_all. cbn. apply app_nil_r.
Qed.

Lemma is_decimal_latin1 (c : codepoint) :
  (c < 256)%N -> is_decimal c = ascii_digit c.
Proof.
  intros Hc. unfold is_decimal. rewrite (decimal_value_latin1 c Hc).
  now destruct (ascii_digit c).
Qed.

End RegexFacts.

Lemma last_char_avoids_app (p : codepoint -> bool) (a b : str) :
  last_char_avoids p (a ++ b) -> b <> [] ->
  Forall (fun c => p c = true) b -> False.
Proof.
  intros H Hb Hall. destruct (exists_last Hb) as (b' & c & ->).
  unfold last_char_avoids in H.
  rewrite app_assoc, rev_app_distr in H. cbn in H.
  apply Forall_app in Hall as [_ Hc]. inversion Hc; subst. congruence.
Qed.

Section PatternFacts.
Context {U : Unicode}.

Lemma lang_seq_inv (r1 r2 : regex) (w : str) :
  lang (Seq r1 r2) w ->
  exists w1 w2, w = w1 ++ w2 /\ lang r1 w1 /\ lang r2 w2.
Proof. inversion 1; subst; eauto. Qed.

Lemma lang_group_inv (r : regex) (w : str) : lang (Group r) w -> lang r w.
Proof. now inversion 1. Qed.

Lemma lang_lits_inv (s w : str) : lang (Lits s) w -> w = s.
Proof. now inversion 1. Qed.

Lemma lang_cls_inv (k : charclass) (w : str) :
  lang (Cls k) w -> exists c, w = [c] /\ in_class k c = true.
Proof. inversion 1; subst; eauto. Qed.

Lemma lang_star_inv (k : charclass) (w : str) :
  lang (Star k) w -> Forall (fun c => in_class k c = true) w.
Proof. now inversion 1. Qed.

Lemma lang_alt_inv (r1 r2 : regex) (w : str) :
  lang (Alt r1 r2) w -> lang r1 w \/ lang r2 w.
Proof. inversion 1; subst; auto. Qed.

Lemma lang_opt_inv (r : regex) (w : str) :
  lang (Opt r) w -> w = [] \/ lang r w.
Proof. inversion 1; subst; auto. Qed.

Lemma lang_plus_inv (k : charclass) (w : str) :
  lang (Plus k) w ->
  w <> [] /\ Forall (fun c => in_class k c = true) w.
Proof.
  intros (w1 & w2 & -> & H1 & H2)%lang_seq_inv.
  apply lang_cls_inv in H1 as (c & -> & Hc). apply lang_star_inv in H2.
  split; [discriminate|]. now constructor.
Qed.

Lemma lang_digits_then (L w : str) :
  lang (digits_then L) w ->
  exists D, w = D ++ L /\ D <> []
            /\ Forall (fun c => is_decimal c = true) D.
Proof.
  intros (w1 & w2 & -> & H1 & H2)%lang_seq_inv.
  apply lang_group_inv, lang_plus_inv in H1 as [Hne HD].
  apply lang_lits_inv in H2 as ->. eauto.
Qed.

(** a literal without digits, found nowhere in [pre], and no digit just
    before the token: no match of "digits then literal" starts in [pre] *)
Lemma digits_then_not_before (L pre D post : str) :
  Forall (fun c => is_decimal c = false) L ->
  contains L pre = false ->
  last_char_avoids is_decimal pre ->
  D <> [] -> Forall (fun c => is_decimal c = true) D ->
  no_match_starts_in (digits_then L) pre (D ++ L ++ post).
Proof.
  intros HL Hpre Hlast HDne HD a b w rest -> Hb Ht Hw.
  apply lang_digits_then in Hw as (D' & -> & HDne' & HD').
  rewrite <- app_assoc in Ht.
  apply app_eq_app in Ht as (l & [[Hb' Hl]|[HD'' Hl]]).
  - (* the digits of the match end inside [b] *)
    subst b. destruct l as [|x l].
    + rewrite app_nil_r in Hlast.
      exact (last_char_avoids_app _ _ _ Hlast HDne' HD').
    + apply app_eq_app in Hl as (m & [[HL' Hm]|[Hx Hm]]).
      * (* the literal starts in [pre] and ends at or after its end *)
        destruct m as [|y m].
        -- assert (Hc : contains L (a ++ D' ++ x :: l) = true).
           { apply contains_spec. exists (a ++ D'), [].
             rewrite HL', !app_nil_r, <- !app_assoc. reflexivity. }
           congruence.
        -- destruct D as [|d D]; [congruence|].
           cbn in Hm. injection Hm as <- _.
           rewrite HL' in HL. apply Forall_app in HL as [_ HL].
           inversion HL; subst. inversion HD; subst. congruence.
      * (* the literal lies inside [pre] *)
        assert (Hc : contains L (a ++ D' ++ x :: l) = true).
        { apply contains_spec. exists (a ++ D'), m.
          rewrite Hx, <- !app_assoc. reflexivity. }
        congruence.
  - (* the digits of the match cover the end of [pre] *)
    rewrite HD'' in HD'. apply Forall_app in HD' as [HDb _].
    exact (last_char_avoids_app _ _ _ Hlast Hb HDb).
Qed.

(** at the token the match succeeds with the whole run of digits *)
Lemma re_match_digits_then (L D post : str) :
  L <> [] -> Forall (fun c => is_decimal c = false) L ->
  D <> [] -> Forall (fun c => is_decimal c = true) D ->
  re_match (digits_then L) (D ++ L ++ post) = Some ([D], post).
Proof.
  intros HLne HL HDne HD.
  destruct D as [|d D]; [congruence|]. inversion HD as [|? ? Hd HD']; subst.
  unfold re_match, digits_then, Plus.
  change ((d :: D) ++ L ++ post) with (d :: (D ++ L ++ post)).
  cbn [match_re in_class]. rewrite Hd. rewrite match_star_greedy.
  - rewrite (starts_with_app L post).
    rewrite skipn_app, skipn_all, Nat.sub_diag. cbn [skipn app].
    change (d :: D ++ L ++ post) with ((d :: D) ++ L ++ post).
    now rewrite firstn_consumed.
  - exact HD'.
  - intros c t Hc. cbn [in_class] in Hc.
    destruct L as [|l0 L]; [congruence|].
    inversion HL as [|? ? Hl0 _]; subst. cbn [starts_with].
    destruct (N.eqb_spec l0 c) as [->|_]; [congruence|reflexivity].
  - destruct L as [|l0 L]; [congruence|].
    inversion HL as [|? ? Hl0 _]; subst. exact Hl0.
Qed.

Lemma re_search_digits_then (L pre D post : str) :
  L <> [] -> Forall (fun c => is_decimal c = false) L ->
  contains L pre = false ->
  last_char_avoids is_decimal pre ->
  D <> [] -> Forall (fun c => is_decimal c = true) D ->
  re_search (digits_then L) (pre ++ D ++ L ++ post) = Some [D].
Proof.
  intros HLne HL Hpre Hlast HDne HD.
  rewrite re_search_skip by now apply digits_then_not_before.
  rewrite re_search_unfold. now rewrite re_match_digits_then.
Qed.

End PatternFacts.

(** ** The wind-speed pattern *)

Section SpeedFacts.
Context {U : Unicode}.

Lemma is_whitespace_char (c : codepoint) :
  (c < 256)%N -> is_whitespace c = latin1_space c.
Proof. apply is_whitespace_latin1. Qed.

(** the star stops at the longest run when the rest then matches *)
Lemma match_star_max (p : codepoint -> bool) (run rest : str)
    (caps : list str) (k : cont) (x : matched) :
  Forall (fun c => p c = true) run ->
  match rest with [] => True | c :: _ => p c = false end ->
  k rest caps = Some x ->
  match_star p (run ++ rest) caps k = Some x.
Proof.
  intros Hrun Hrest Hk. induction Hrun as [|c run Hc _ IH]; cbn.
  - destruct rest as [|c rest]; cbn; [exact Hk|]. now rewrite Hrest.
  - now rewrite Hc, IH.
Qed.

Lemma lang_speed (w : str) :
  lang re_speed w ->
  exists g sp u,
    w = g ++ sp ++ u /\ g <> []
    /\ Forall (fun c => digit_or_dot c = true) g
    /\ Forall (fun c => is_whitespace c = true) sp
    /\ In u speed_units.
Proof.
  unfold re_speed.
  intros (g & w' & -> & Hg & Hw')%lang_seq_inv.
  apply lang_group_inv, lang_seq_inv in Hg as (g1 & g' & -> & H1 & Hg').
  apply lang_plus_inv in H1 as [Hne H1].
  apply lang_seq_inv in Hg' as (g2 & g3 & -> & H2 & H3).
  apply lang_star_inv in H3.
  apply lang_seq_inv in Hw' as (sp & u & -> & Hsp & Hu).
  apply lang_star_inv in Hsp. apply lang_group_inv in Hu.
  exists (g1 ++ g2 ++ g3), sp, u. split; [reflexivity|].
  split; [now destruct g1|]. split; [|split; [exact Hsp|]].
  - rewrite !Forall_app. split; [|split].
    + eapply Forall_impl; [|exact H1]. cbn. intros c Hc.
      unfold digit_or_dot. now rewrite Hc.
    + apply lang_opt_inv in H2 as [->|H2]; [constructor|].
      apply lang_lits_inv in H2 as ->.
      repeat constructor. unfold digit_or_dot. apply orb_true_r.
    + eapply Forall_impl; [|exact H3]. cbn. intros c Hc.
      unfold digit_or_dot. now rewrite Hc.
  - unfold speed_units. cbn.
    apply lang_alt_inv in Hu as [Hu|Hu];
      [apply lang_lits_inv in Hu; auto|].
    apply lang_alt_inv in Hu as [Hu|Hu]; apply lang_lits_inv in Hu; auto.
Qed.

(** no unit holds the digit 5 *)
Lemma unit_has_no_five (u l m : str) :
  In u speed_units -> u = l ++ 53%N :: m -> False.
Proof.
  intros Hu ->.
  assert (H5 : In 53%N (l ++ 53%N :: m)) by apply in_elt.
  destruct Hu as [Hu|[Hu|[Hu|[]]]]; rewrite <- Hu in H5; cbn in H5;
    repeat (destruct H5 as [H5|H5]; [discriminate H5|]); exact H5.
Qed.

(** no match of the speed pattern starts before the token "5 m/s" when
    no unit occurs before it and no digit or dot stands just before it *)
Lemma speed_not_before (pre post : str) :
  Forall (fun u => contains u pre = false) speed_units ->
  last_char_avoids digit_or_dot pre ->
  no_match_starts_in re_speed pre (lit "5 m/s" ++ post).
Proof.
  intros Hunits Hlast a b w rest -> Hb Ht Hw.
  apply lang_speed in Hw as (g & sp & u & -> & Hg & Hq & Hsp & Hu).
  assert (Hnot : contains u (a ++ b) = false).
  { rewrite Forall_forall in Hunits. now apply Hunits. }
  change (lit "5 m/s" ++ post) with (53%N :: (lit " m/s" ++ post)) in Ht.
  rewrite (app_assoc g sp u), <- app_assoc in Ht.
  apply app_eq_app in Ht as (l & [[Hb' Hl]|[Hgs Hl]]).
  - (* the unit starts inside [b] *)
    apply app_eq_app in Hl as (m & [[Hu' Hm]|[Hl' Hm]]).
    + destruct m as [|y m].
      * rewrite app_nil_r in Hu'. subst l.
        assert (Hc : contains u (a ++ b) = true).
        { apply contains_spec. exists (a ++ g ++ sp), [].
          rewrite Hb', app_nil_r, <- !app_assoc. reflexivity. }
        congruence.
      * injection Hm as <- _. exact (unit_has_no_five u l m Hu Hu').
    + assert (Hc : contains u (a ++ b) = true).
      { apply contains_spec. exists (a ++ g ++ sp), m.
        rewrite Hb', Hl', <- !app_assoc. reflexivity. }
      congruence.
  - (* [b] lies inside the digits and blanks of the match *)
    destruct l as [|y l].
    + cbn in Hl.
      destruct Hu as [Hu|[Hu|[Hu|[]]]]; rewrite <- Hu in Hl;
        discriminate Hl.
    + injection Hl as <- Hl.
      apply app_eq_app in Hgs as (n & [[Hg' Hn]|[Hb' Hn]]).
      * rewrite Hg' in Hq. apply Forall_app in Hq as [Hqb _].
        exact (last_char_avoids_app _ _ _ Hlast Hb Hqb).
      * rewrite Hn in Hsp. apply Forall_app in Hsp as [_ Hsp].
        inversion Hsp as [|? ? H5 _]; subst.
        rewrite is_whitespace_char in H5 by reflexivity. discriminate H5.
Qed.

(** at the token the match succeeds: group 1 is "5" *)
Lemma re_match_speed_token (post : str) :
  re_match re_speed (lit "5 m/s" ++ post)
  = Some ([lit "5"; lit "m/s"], post).
Proof.
  change (lit "5 m/s" ++ post)
    with (53%N :: 32%N :: 109%N :: 47%N :: 115%N :: post).
  unfold re_match, re_speed, Plus. cbn [match_re in_class].
  rewrite is_decimal_latin1 by reflexivity.
  change (ascii_digit 53%N) with true. cbv iota.
  (* no further digit, no dot, no digit after the absent dot *)
  apply (match_star_max _ []); [constructor| |].
  { cbn [in_class]. now rewrite is_decimal_latin1 by reflexivity. }
  change (lit ".") with [46%N]. cbn [starts_with N.eqb Pos.eqb andb or_else].
  apply (match_star_max _ []); [constructor| |].
  { cbn [in_class]. now rewrite is_decimal_latin1 by reflexivity. }
  (* one blank, then the unit *)
  apply (match_star_max _ [32%N]).
  { repeat constructor. cbn [in_class].
    now rewrite is_whitespace_char by reflexivity. }
  { cbn [in_class]. now rewrite is_whitespace_char by reflexivity. }
  change (53%N :: 32%N :: 109%N :: 47%N :: 115%N :: post)
    with ([53%N] ++ (32%N :: 109%N :: 47%N :: 115%N :: post)).
  rewrite firstn_consumed.
  change (lit "mph") with [109%N; 112%N; 104%N].
  change (lit "km/h") with [107%N; 109%N; 47%N; 104%N].
  change (lit "m/s") with [109%N; 47%N; 115%N].
  cbn [starts_with N.eqb Pos.eqb andb or_else length skipn app].
  replace (S (S (S (length post))) - length post)%nat with 3%nat by lia.
  reflexivity.
Qed.

Lemma re_search_speed_token (pre post : str) :
  Forall (fun u => contains u pre = false) speed_units ->
  last_char_avoids digit_or_dot pre ->
  re_search re_speed (pre ++ lit "5 m/s" ++ post)
  = Some [lit "5"; lit "m/s"].
Proof.
  intros Hunits Hlast.
  rewrite re_search_skip by now apply speed_not_before.
  rewrite re_search_unfold. now rewrite re_match_speed_token.
Qed.

End SpeedFacts.

(** ** The weather extractors on a text with the four tokens *)

Section ExtractorFacts.
Context {U : Unicode}.

Lemma decimal_digits_latin1 (D : str) :
  forallb ascii_digit D = true ->
  Forall (fun c => is_decimal c = true) D.
Proof.
  rewrite forallb_forall, Forall_forall. intros H c Hc.
  specialize (H c Hc).
  rewrite is_decimal_latin1; [exact H|].
  unfold ascii_digit in H.
  apply andb_true_iff in H as [_ H%N.leb_le]. lia.
Qed.

Lemma non_digits_latin1 (L : str) :
  forallb (fun c => (c <? 256)%N && negb (ascii_digit c)) L = true ->
  Forall (fun c => is_decimal c = false) L.
Proof.
  rewrite forallb_forall, Forall_forall. intros H c Hc.
  specialize (H c Hc). apply andb_true_iff in H as [H1%N.ltb_lt H2].
  rewrite is_decimal_latin1 by exact H1. now apply negb_true_iff.
Qed.

Lemma extract_temperature_first (pre post : str) :
  contains degrees_C pre = false ->
  last_char_avoids is_decimal pre ->
  _extract_temperature (pre ++ lit "22" ++ degrees_C ++ post) (lit "metric")
  = 22 # 1.
Proof.
  intros Hpre Hlast. unfold _extract_temperature.
  change (is_metric (lit "metric")) with true. cbv iota.
  change re_celsius with (digits_then degrees_C).
  rewrite re_search_digits_then;
    [|discriminate|now apply non_digits_latin1|exact Hpre|exact Hlast
     |discriminate|now apply decimal_digits_latin1].
  unfold group1, nth, float_of_str, int_of_digits. cbn.
  rewrite !decimal_value_latin1 by reflexivity. reflexivity.
Qed.

Lemma extract_humidity_first (pre post : str) :
  contains (lit "%") pre = false ->
  last_char_avoids is_decimal pre ->
  _extract_humidity (pre ++ lit "60" ++ lit "%" ++ post) = 60.
Proof.
  intros Hpre Hlast. unfold _extract_humidity.
  change re_percent with (digits_then (lit "%")).
  rewrite re_search_digits_then;
    [|discriminate|now apply non_digits_latin1|exact Hpre|exact Hlast
     |discriminate|now apply decimal_digits_latin1].
  unfold group1, nth, int_of_digits. cbn.
  rewrite !decimal_value_latin1 by reflexivity. reflexivity.
Qed.

Lemma extract_wind_speed_first (text pre post : str) :
  str_lower text = pre ++ lit "5 m/s" ++ post ->
  Forall (fun u => contains u pre = false) speed_units ->
  last_char_avoids digit_or_dot pre ->
  _extract_wind_speed text = 5 # 1.
Proof.
  intros Htext Hunits Hlast. unfold _extract_wind_speed.
  rewrite Htext, re_search_speed_token by assumption.
  unfold group1, nth, float_of_str, int_of_digits. cbn.
  rewrite !decimal_value_latin1 by reflexivity. reflexivity.
Qed.

Lemma extract_description_cloudy (text : str) :
  contains (lit "sunny") (str_lower text) = false ->
  contains (lit "cloudy") (str_lower text) = true ->
  _extract_description text = lit "cloudy".
Proof.
  intros Hs Hc. unfold _extract_description, conditions.
  cbn [first_condition]. now rewrite Hs, Hc.
Qed.

End ExtractorFacts.

(** C8, as far as it holds.  [re.search] returns the leftmost match and
    the conditions are tried in list order.  When "22°C" is the first
    temperature token of the text (no "°C" before it, no digit just before
    it), "60%" its first percentage token (no "%" before it, no digit just
    before it), "5 m/s" the first speed token of the lower-cased text (no
    unit before it, no digit or dot just before it), and the lower-cased
    text contains "cloudy" and not "sunny", the extractors return 22.0, 60,
    5.0 and "cloudy". *)
Theorem C8_first_tokens_are_extracted {U : Unicode}
    (text p1 q1 p2 q2 p3 q3 : str) :
  text = p1 ++ lit "22" ++ degrees_C ++ q1 ->
  contains degrees_C p1 = false ->
  last_char_avoids is_decimal p1 ->
  text = p2 ++ lit "60" ++ lit "%" ++ q2 ->
  contains (lit "%") p2 = false ->
  last_char_avoids is_decimal p2 ->
  str_lower text = p3 ++ lit "5 m/s" ++ q3 ->
  Forall (fun u => contains u p3 = false) speed_units ->
  last_char_avoids digit_or_dot p3 ->
  contains (lit "cloudy") (str_lower text) = true ->
  contains (lit "sunny") (str_lower text) = false ->
  _extract_temperature text (lit "metric") = 22 # 1
  /\ _extract_humidity text = 60
  /\ _extract_wind_speed text = 5 # 1
  /\ _extract_description text = lit "cloudy"
  /\ contains (lit "cloudy") (_extract_description text) = true.
Proof.
  intros Ht1 Hc1 Hl1 Ht2 Hc2 Hl2 Ht3 Hc3 Hl3 Hcloudy Hsunny.
  assert (Hd : _extract_description text = lit "cloudy")
    by now apply extract_description_cloudy.
  split; [rewrite Ht1 at 1; now apply extract_temperature_first|].
  split; [rewrite Ht2 at 1; now apply extract_humidity_first|].
  split; [now apply (extract_wind_speed_first text p3 q3)|].
  split; [exact Hd|]. now rewrite Hd.
Qed.

Lemma C8_witness :
  @_extract_temperature Latin1 four_tokens (lit "metric") = 22 # 1
  /\ @_extract_humidity Latin1 four_tokens = 60
  /\ @_extract_wind_speed Latin1 four_tokens = 5 # 1
  /\ @_extract_description Latin1 four_tokens = lit "cloudy"
  /\ contains (lit "cloudy") (@_extract_description Latin1 four_tokens)
     = true.
Proof.
  apply (@C8_first_tokens_are_extracted Latin1 four_tokens
           [] (lit " 60% 5 m/s cloudy")
           (lit "22" ++ degrees_C ++ lit " ") (lit " 5 m/s cloudy")
           (lit "22" ++ degree_sign :: lit "c 60% ") (lit " cloudy"));
    try reflexivity; try exact I; repeat constructor.
Defined.

(** C8 as stated fails: a text may contain the four tokens after an
    earlier temperature, and the first one wins. *)
Lemma C8_counterexample :
  contains (lit "22" ++ degrees_C) two_temperatures = true
  /\ contains (lit "60%") two_temperatures = true
  /\ contains (lit "5 m/s") two_temperatures = true
  /\ contains (lit "cloudy") two_temperatures = true
  /\ @_extract_temperature Latin1 two_temperatures (lit "metric") = 10 # 1
  /\ @_extract_temperature Latin1 two_temperatures (lit "metric") <> 22 # 1.
Proof. repeat split. discriminate. Qed.

(** ** Payloads without data *)

Section NoDataFacts.
Context {U : Unicode}.
Variable json_loads : str -> option pyval.
Variable hash_repr : pyval -> Z.






End NoDataFacts.




(** ** When the plan is returned *)

Lemma for_each_all_ok {A B} (f : A -> result B) (xs : list A) :
  (forall x, In x xs -> raises (f x) = false) ->
  exists ys, for_each f xs = Ok ys /\ length ys = length xs.
Proof.
  intros H. pose proof (for_each_ok f xs H) as Hok.
  destruct (for_each f xs) as [ys|e] eqn:E; [|discriminate].
  exists ys. split; [reflexivity|]. now apply for_each_length in E.
Qed.

Lemma next_day_ok (dt : datetime) :
  valid_datetime dt = true -> year dt < 9999 ->
  exists dt', next_day dt = Ok dt' /\ valid_datetime dt' = true
              /\ year dt' <= year dt + 1.
Proof.
  unfold valid_datetime. rewrite valid_date_spec. intros Hv Hy.
  unfold next_day.
  destruct (Z.ltb_spec (day dt) (days_in_month (year dt) (month dt))).
  - eexists. split; [reflexivity|]. cbn. rewrite valid_date_spec. lia.
  - destruct (Z.ltb_spec (month dt) 12).
    + eexists. split; [reflexivity|]. cbn. rewrite valid_date_spec.
      pose proof (days_in_month_bounds (year dt) (month dt + 1)). lia.
    + destruct (Z.ltb_spec (year dt) 9999); [|lia].
      eexists. split; [reflexivity|]. cbn. rewrite valid_date_spec.
      pose proof (days_in_month_bounds (year dt + 1) 1). lia.
Qed.

Lemma add_days_ok (dt : datetime) (n : Z) :
  valid_datetime dt = true -> 0 <= n -> year dt + n <= 9999 ->
  exists dt', add_days dt n = Ok dt' /\ valid_datetime dt' = true
              /\ year dt' <= year dt + n.
Proof.
  intros Hv Hn Hy. unfold add_days.
  destruct (Z.leb_spec 0 n) as [_|]; [|lia].
  rewrite <- (Z2Nat.id n Hn) in Hy |- *. rewrite Nat2Z.id.
  generalize dependent dt.
  induction (Z.to_nat n) as [|k IH]; intros dt Hv Hy.
  - exists dt. cbn. repeat split; [exact Hv|lia].
  - destruct (next_day_ok dt Hv ltac:(lia)) as (dt1 & H1 & Hv1 & Hy1).
    cbn [iter_days]. rewrite H1.
    destruct (IH dt1 Hv1 ltac:(lia)) as (dt' & H' & Hv' & Hy').
    exists dt'. repeat split; [exact H'|exact Hv'|lia].
Qed.

Section PlanFacts.
Context {U : Unicode}.
Variable json_loads : str -> option pyval.
Variable hash_repr : pyval -> Z.
Variable list_of_set : list str -> list str.

Lemma mock_forecast_ok (now : datetime) (city : str) (num_days : Z) :
  valid_datetime now = true -> year now + num_days <= 9999 ->
  exists days, _get_mock_forecast now city num_days = Ok days
               /\ length days = Z.to_nat num_days.
Proof.
  intros Hv Hy. unfold _get_mock_forecast.
  rewrite <- range_length. apply for_each_all_ok.
  intros i Hi%in_range.
  destruct (add_days_ok now i Hv ltac:(lia) ltac:(lia)) as (d & -> & _).
  reflexivity.
Qed.

(** the forecast is returned, with one record per requested day, unless
    real data meets the end of December *)
Lemma get_forecast_ok (self : WeatherTool) (o : outcome) (now : datetime)
    (city : str) (num_days : Z) :
  valid_datetime now = true -> year now + num_days <= 9999 ->
  month now < 12 \/ day now + (num_days - 1) <= 28 ->
  exists days, get_forecast self o now city num_days = Ok days
               /\ length days = Z.to_nat num_days.
Proof.
  intros Hv Hy Hc. unfold get_forecast.
  destruct (contains (lit "MCP") _).
  - rewrite <- range_length. apply for_each_all_ok.
    intros i Hi%in_range. apply forecast_day_returns; [exact Hv|lia|lia].
  - now apply mock_forecast_ok.
Qed.

Lemma get_best_flights_at_most (o : outcome)
    (departure_date fly_from fly_to : str) (return_date : option str)
    (num_results : nat) (g : rng) :
  (length
     (outbound_flights
        (fst (get_best_flights json_loads hash_repr o departure_date fly_from
                fly_to return_date num_results g))) <= num_results)%nat.
Proof.
  unfold get_best_flights, bind.
  destruct (search_flights json_loads hash_repr o departure_date fly_from
              fly_to return_date g).
  cbn. apply firstn_le_length.
Qed.

(** what a returned plan looks like *)
Lemma create_travel_plan_shape (weather_tool : WeatherTool) (w : World)
    (destination : str) (N travel_month : Z) (origin : str)
    (plan : TravelPlan) :
  1 <= N ->
  create_travel_plan json_loads hash_repr list_of_set weather_tool w
    destination N travel_month origin = Ok plan ->
  length (itinerary plan) = Z.to_nat N
  /\ (forall days,
        get_forecast weather_tool (weather_call_2 w) (clock w) destination
          (Z.min N 5) = Ok days ->
        forecast (weather plan) = days)
  /\ (length (outbound_flights (flights plan)) <= 3)%nat
  /\ exists d0 d7 d14 r0 r7 r14,
       add_days (clock w) 2 = Ok d0 /\ add_days d0 7 = Ok d7
       /\ add_days d0 14 = Ok d14
       /\ add_days d0 N = Ok r0 /\ add_days r0 7 = Ok r7
       /\ add_days r0 14 = Ok r14
       /\ map start_date (suggested_dates plan)
          = [strftime_long d0; strftime_long d7; strftime_long d14]
       /\ map end_date (suggested_dates plan)
          = [strftime_long r0; strftime_long r7; strftime_long r14].
Proof.
  intros HN. unfold create_travel_plan, _get_weather_info.
  destruct (add_days (clock w) 2) as [d0|] eqn:E0; [|discriminate].
  cbn [rbind].
  destruct (add_days d0 N) as [r0|] eqn:E1; [|discriminate]. cbn [rbind].
  destruct (get_forecast weather_tool (weather_call_2 w) (clock w)
              destination (Z.min N 5)) as [fc|] eqn:Ef; [|discriminate].
  cbn [rbind].
  destruct (add_days d0 7) as [d7|] eqn:E7; [|discriminate]. cbn [rbind].
  destruct (add_days r0 7) as [r7|] eqn:F7; [|discriminate]. cbn [rbind].
  destruct (add_days d0 14) as [d14|] eqn:E14; [|discriminate]. cbn [rbind].
  destruct (add_days r0 14) as [r14|] eqn:F14; [|discriminate]. cbn [rbind].
  pose proof (get_best_flights_at_most (flight_call w) (strftime_iso d0)
                (_get_city_code origin) (_get_city_code destination)
                (Some (strftime_iso r0)) 3 (dice w)) as Hfl.
  destruct (get_best_flights json_loads hash_repr (flight_call w)
              (strftime_iso d0) (_get_city_code origin)
              (_get_city_code destination) (Some (strftime_iso r0)) 3
              (dice w)) as [flight_options dice'].
  destruct (create_itinerary_days list_of_set destination N dice'
              ltac:(lia)) as (days & Hdays & Hnum & _).
  destruct (create_itinerary_suggestions list_of_set destination N dice')
    as [made g'].
  cbn [fst] in Hdays, Hfl. subst made. cbn [rbind].
  destruct (get_month_name travel_month) as [name|]; [|discriminate].
  cbn [rbind]. intros [= <-].
  cbn [itinerary weather forecast flights suggested_dates map start_date
       end_date].
  split.
  { rewrite <- (length_map dp_day), Hnum, length_map. apply range_length. }
  split; [now intros ? [= <-]|]. split; [exact Hfl|].
  exists d0, d7, d14, r0, r7, r14. repeat split; assumption.
Qed.

(** and it is returned whenever the forecast does not meet the end of
    December *)
Lemma create_travel_plan_returns (weather_tool : WeatherTool) (w : World)
    (destination : str) (N travel_month : Z) (origin : str) :
  1 <= N <= 30 -> 1 <= travel_month <= 12 ->
  valid_datetime (clock w) = true -> year (clock w) + 46 <= 9999 ->
  month (clock w) < 12 \/ day (clock w) + (Z.min N 5 - 1) <= 28 ->
  exists plan,
    create_travel_plan json_loads hash_repr list_of_set weather_tool w
      destination N travel_month origin = Ok plan
    /\ length (itinerary plan) = Z.to_nat N
    /\ length (forecast (weather plan)) = Z.to_nat (Z.min N 5)
    /\ (length (outbound_flights (flights plan)) <= 3)%nat
    /\ length (suggested_dates plan) = 3%nat.
Proof.
  intros HN Hm Hv Hy Hc.
  destruct (add_days_ok (clock w) 2 Hv ltac:(lia) ltac:(lia))
    as (d0 & E0 & Hv0 & Hy0).
  destruct (add_days_ok d0 N Hv0 ltac:(lia) ltac:(lia))
    as (r0 & E1 & Hv1 & Hy1).
  destruct (add_days_ok d0 7 Hv0 ltac:(lia) ltac:(lia)) as (d7 & E7 & _).
  destruct (add_days_ok r0 7 Hv1 ltac:(lia) ltac:(lia)) as (r7 & F7 & _).
  destruct (add_days_ok d0 14 Hv0 ltac:(lia) ltac:(lia)) as (d14 & E14 & _).
  destruct (add_days_ok r0 14 Hv1 ltac:(lia) ltac:(lia)) as (r14 & F14 & _).
  destruct (get_forecast_ok weather_tool (weather_call_2 w) (clock w)
              destination (Z.min N 5) Hv ltac:(lia) Hc) as (fc & Ef & Hfc).
  assert (Hret : exists plan,
            create_travel_plan json_loads hash_repr list_of_set weather_tool
              w destination N travel_month origin = Ok plan).
  { unfold create_travel_plan, _get_weather_info.
    rewrite E0. cbn [rbind]. rewrite E1. cbn [rbind]. rewrite Ef.
    cbn [rbind]. rewrite E7. cbn [rbind]. rewrite F7. cbn [rbind].
    rewrite E14. cbn [rbind]. rewrite F14. cbn [rbind].
    destruct (get_best_flights json_loads hash_repr (flight_call w)
                (strftime_iso d0) (_get_city_code origin)
                (_get_city_code destination) (Some (strftime_iso r0)) 3
                (dice w)) as [flight_options dice'].
    destruct (create_itinerary_days list_of_set destination N dice'
                ltac:(lia)) as (days & Hdays & _).
    destruct (create_itinerary_suggestions list_of_set destination N dice')
      as [made g'].
    cbn [fst] in Hdays. subst made. cbn [rbind].
    unfold get_month_name.
    replace ((0 <=? travel_month) && (travel_month <=? 12)) with true
      by (symmetry; apply andb_true_iff; split; apply Z.leb_le; lia).
    cbn [rbind]. eexists. reflexivity. }
  destruct Hret as (plan & Hplan). exists plan. split; [exact Hplan|].
  destruct (create_travel_plan_shape weather_tool w destination N
              travel_month origin plan ltac:(lia) Hplan)
    as (Hit & Hfor & Hfl & (a & b & c & d & e & f & _ & _ & _ & _ & _ & _
                            & Hs & _)).
  split; [exact Hit|]. split; [now rewrite (Hfor fc Ef)|].
  split; [exact Hfl|].
  rewrite <- (length_map start_date), Hs. reflexivity.
Qed.

End PlanFacts.

(** ** The flight adapter on every path *)

Lemma StronglySorted_app_cross {A} (R : A -> A -> Prop) (l1 l2 : list A) :
  StronglySorted R (l1 ++ l2) ->
  forall a b, In a l1 -> In b l2 -> R a b.
Proof.
  induction l1 as [|x l1 IH]; cbn; intros Hs a b Ha Hb; [contradiction|].
  inversion Hs as [|? ? Hs' Hx]; subst. destruct Ha as [<-|Ha].
  - rewrite Forall_forall in Hx. apply Hx. apply in_or_app. now right.
  - now apply IH.
Qed.

Lemma StronglySorted_firstn {A} (R : A -> A -> Prop) (n : nat) (l : list A) :
  StronglySorted R l -> StronglySorted R (firstn n l).
Proof.
  revert n. induction l as [|x l IH]; intros n Hs; destruct n; cbn;
    try constructor.
  - inversion Hs; subst. now apply IH.
  - inversion Hs as [|? ? _ Hx]; subst.
    rewrite <- (firstn_skipn n l) in Hx. now apply Forall_app in Hx.
Qed.

Lemma Forall_firstn_of {A} (P : A -> Prop) (n : nat) (l : list A) :
  Forall P l -> Forall P (firstn n l).
Proof.
  intros H. rewrite <- (firstn_skipn n l) in H. now apply Forall_app in H.
Qed.

Lemma mock_outbound_length (fly_from fly_to departure_date : str) (g : rng) :
  length (fst (mock_outbound fly_from fly_to departure_date g)) = 5%nat.
Proof. unfold mock_outbound. now rewrite rand_map_length, range_length. Qed.

Lemma mock_outbound_source (fly_from fly_to departure_date : str) (g : rng) :
  Forall (fun x => flight_source x = lit "Mock Data"
                   /\ origin x = fly_from /\ destination x = fly_to)
    (fst (mock_outbound fly_from fly_to departure_date g)).
Proof.
  unfold mock_outbound. apply rand_map_Forall. intros i g'. unfold bind.
  destruct (randint (-100) 200 g') as [r g1].
  destruct (choice [] airlines g1) as [a g2].
  destruct (choice 0 [0; 0; 1] g2) as [s g3]. cbn. auto.
Qed.

Lemma enumerate_length {A} (l : list A) : length (enumerate l) = length l.
Proof.
  unfold enumerate.
  rewrite length_combine, length_map, length_seq. apply Nat.min_id.
Qed.



Section FlightPathFacts.
Context {U : Unicode}.
Variable json_loads : str -> option pyval.
Variable hash_repr : pyval -> Z.

Lemma parse_text_response_length (text fly_from fly_to date : str) :
  length (_parse_text_response text fly_from fly_to date)
  = Nat.min 5 (length (re_findall re_price text)).
Proof.
  unfold _parse_text_response, slice_to.
  now rewrite length_map, enumerate_length, length_firstn.
Qed.

Lemma parse_text_response_source (text fly_from fly_to date : str) :
  Forall (fun x => flight_source x = lit "Kiwi.com MCP Server"
                   /\ origin x = fly_from /\ destination x = fly_to)
    (_parse_text_response text fly_from fly_to date).
Proof.
  unfold _parse_text_response. apply Forall_map, Forall_forall.
  intros [i p] _. cbn. auto.
Qed.

Lemma Ok_inj {A} (a b : A) : Ok a = Ok b -> a = b.
Proof. congruence. Qed.

Ltac step_rbind :=
  match goal with
  | |- context [rbind ?m _] => destruct m eqn:?; cbn [rbind]
  end.

Lemma parse_single_kiwi_flight_fields (d : list (str * pyval))
    (fly_from fly_to : str) (x : Flight) :
  _parse_single_kiwi_flight hash_repr (PDict d) fly_from fly_to = Some x ->
  flight_source x = lit "Kiwi.com MCP Server"
  /\ origin x = fly_from /\ destination x = fly_to
  /\ py_len (dict_get d (lit "route") (PList [])) = Ok (stops x + 1)
  /\ py_index0 (dict_get d (lit "airlines")
                  (PList [PStr (lit "Kiwi Airlines")])) = Ok (airline x)
  /\ price x = dict_get d (lit "price") (PInt 0).
Proof.
  unfold _parse_single_kiwi_flight.
  repeat step_rbind; cbn [try_except]; try discriminate.
  intros [= <-]. cbn. repeat split; try reflexivity. f_equal. lia.
Qed.

Lemma parse_single_kiwi_flight_source (flight_data : pyval)
    (fly_from fly_to : str) (x : Flight) :
  _parse_single_kiwi_flight hash_repr flight_data fly_from fly_to = Some x ->
  flight_source x = lit "Kiwi.com MCP Server"
  /\ origin x = fly_from /\ destination x = fly_to.
Proof.
  destruct flight_data; try discriminate.
  intros H. apply parse_single_kiwi_flight_fields in H. tauto.
Qed.

Lemma flat_map_option_length {A B} (f : A -> option B) (l : list A) :
  (length (flat_map (fun a => match f a with Some b => [b] | None => [] end) l)
   <= length l)%nat.
Proof.
  induction l as [|a l IH]; cbn; [lia|].
  destruct (f a); cbn; lia.
Qed.

Lemma json_flights_shape (flight_results : pyval) (fly_from fly_to : str)
    (flights : list Flight) :
  json_flights hash_repr flight_results fly_from fly_to = Ok flights ->
  (length flights <= 5)%nat
  /\ Forall (fun x => flight_source x = lit "Kiwi.com MCP Server"
                      /\ origin x = fly_from /\ destination x = fly_to)
       flights.
Proof.
  unfold json_flights.
  destruct flight_results;
    try (intros [= <-]; cbn; split; [lia|constructor]).
  destruct (dict_lookup d (lit "data")) as [data|];
    [|intros [= <-]; cbn; split; [lia|constructor]].
  unfold rbind. destruct (data_items data) as [items|] eqn:E; [|discriminate].
  intros [= <-].
  assert (Hitems : (length items <= 5)%nat).
  { destruct data; try discriminate E; apply Ok_inj in E; subst items;
      unfold slice_to; rewrite ?length_map; apply firstn_le_length. }
  split.
  - etransitivity; [|exact Hitems].
    apply (flat_map_option_length
             (fun flight =>
                _parse_single_kiwi_flight hash_repr flight fly_from fly_to)).
  - clear Hitems E. induction items as [|item items IH]; cbn; [constructor|].
    destruct (_parse_single_kiwi_flight hash_repr item fly_from fly_to)
      as [x|] eqn:Ex; [|exact IH].
    cbn. constructor; [|exact IH].
    now apply parse_single_kiwi_flight_source in Ex.
Qed.


Lemma generate_mock_flights_shape (fly_from fly_to departure_date : str)
    (return_date : option str) (g : rng) :
  let r := fst (_generate_mock_flights fly_from fly_to departure_date
                  return_date g) in
  flights_source r = kiwi_mock_source
  /\ search_params r = request_of fly_from fly_to departure_date return_date
  /\ raw_response r = None
  /\ length (outbound_flights r) = 5%nat
  /\ sorted_by price_key (outbound_flights r)
  /\ Forall (flight_of (lit "Mock Data") fly_from fly_to) (outbound_flights r)
  /\ return_flights r
     = if truthy return_date then Some (slice_to 3 (outbound_flights r))
       else None.
Proof.
  cbv zeta. unfold _generate_mock_flights, bind.
  pose proof (mock_outbound_length fly_from fly_to departure_date g) as Hl.
  pose proof (mock_outbound_source fly_from fly_to departure_date g) as Hs.
  destruct (mock_outbound fly_from fly_to departure_date g) as [l g'].
  cbn [fst ret flights_source search_params raw_response outbound_flights
       return_flights] in *.
  repeat split.
  - now rewrite sort_by_length.
  - apply sort_by_sorted.
  - now apply sort_by_Forall.
Qed.

(** every path of [_parse_kiwi_response] ends in the synthetic generator
    or in a non-empty list of at most five flights tagged as real, with the
    generator left untouched *)
Lemma parse_kiwi_response_cases (content : mcp_content)
    (fly_from fly_to departure_date : str) (return_date : option str)
    (g : rng) :
  _parse_kiwi_response json_loads hash_repr content fly_from fly_to
    departure_date return_date g
  = _generate_mock_flights fly_from fly_to departure_date return_date g
  \/ exists flights raw,
       flights <> [] /\ (length flights <= 5)%nat
       /\ Forall (flight_of (lit "Kiwi.com MCP Server") fly_from fly_to)
            flights
       /\ _parse_kiwi_response json_loads hash_repr content fly_from fly_to
            departure_date return_date g
          = ({| outbound_flights := flights;
                flights_source := kiwi_real_source;
                search_params :=
                  request_of fly_from fly_to departure_date return_date;
                return_flights := None;
                raw_response := raw |}, g).
Proof.
  unfold _parse_kiwi_response.
  destruct content as [[|first rest]|]; [now left| |now left].
  destruct (json_loads (item_text first)) as [flight_results|].
  - destruct (json_flights hash_repr flight_results fly_from fly_to)
      as [flights|e] eqn:E; [|now left].
    destruct flights as [|x flights]; [now left|]. right.
    apply json_flights_shape in E as [Hl Hs].
    exists (x :: flights), None. repeat split; [discriminate|exact Hl|exact Hs].
  - pose proof (parse_text_response_length (item_text first) fly_from fly_to
                  departure_date) as Hl.
    pose proof (parse_text_response_source (item_text first) fly_from fly_to
                  departure_date) as Hs.
    destruct (_parse_text_response (item_text first) fly_from fly_to
                departure_date) as [|x flights]; [now left|]. right.
    exists (x :: flights), (Some (item_text first)).
    repeat split; [discriminate|lia|exact Hs].
Qed.

Lemma search_flights_unanswered (o : outcome)
    (departure_date fly_from fly_to : str) (return_date : option str) :
  nothing_to_parse o ->
  search_flights json_loads hash_repr o departure_date fly_from fly_to
    return_date
  = _generate_mock_flights fly_from fly_to departure_date return_date.
Proof.
  unfold search_flights, _call_kiwi_mcp, connect_and_search.
  destruct o as [|e|[|[[|first rest]|]]|e]; cbn; intros H;
    try reflexivity; contradiction.
Qed.

Lemma search_flights_answered (first : content_item)
    (rest : list content_item) (departure_date fly_from fly_to : str)
    (return_date : option str) :
  search_flights json_loads hash_repr
    (Answered (WithContent (ContentList (first :: rest)))) departure_date
    fly_from fly_to return_date
  = _parse_kiwi_response json_loads hash_repr (ContentList (first :: rest))
      fly_from fly_to departure_date return_date.
Proof. reflexivity. Qed.

Lemma search_flights_cases (o : outcome)
    (departure_date fly_from fly_to : str) (return_date : option str)
    (g : rng) :
  search_flights json_loads hash_repr o departure_date fly_from fly_to
    return_date g
  = _generate_mock_flights fly_from fly_to departure_date return_date g
  \/ exists flights raw,
       flights <> [] /\ (length flights <= 5)%nat
       /\ Forall (flight_of (lit "Kiwi.com MCP Server") fly_from fly_to)
            flights
       /\ search_flights json_loads hash_repr o departure_date fly_from
            fly_to return_date g
          = ({| outbound_flights := flights;
                flights_source := kiwi_real_source;
                search_params :=
                  request_of fly_from fly_to departure_date return_date;
                return_flights := None;
                raw_response := raw |}, g).
Proof.
  destruct o as [|e|[|[[|first rest]|]]|e];
    try (left; now rewrite search_flights_unanswered).
  rewrite search_flights_answered. apply parse_kiwi_response_cases.
Qed.

Lemma json_flights_without_object (flight_results : pyval)
    (fly_from fly_to : str) :
  no_flight_object flight_results ->
  json_flights hash_repr flight_results fly_from fly_to = Ok []
  \/ exists e, json_flights hash_repr flight_results fly_from fly_to
               = Raise e.
Proof.
  unfold no_flight_object, json_flights.
  destruct flight_results as [| | | | | |d]; try (intros _; now left).
  destruct (dict_lookup d (lit "data")) as [data|]; [|intros _; now left].
  destruct data as [| | | |s|items|d']; try (intros _; right; now eexists).
  - intros _. left. cbn [data_items rbind]. f_equal.
    induction (slice_to 5 s) as [|c l IH]; [reflexivity|exact IH].
  - intros H. left. cbn [data_items rbind]. f_equal.
    induction H as [|item l Hd _ IH]; [reflexivity|].
    cbn [flat_map]. destruct item; try discriminate Hd; exact IH.
Qed.

End FlightPathFacts.

(** X1: when the flight server gives nothing to parse (the call times out
    or raises, the event loop raises, the result has no content, or the
    content is not a list with a first item), [search_flights] is the
    synthetic generator itself: the same result from the same draws. *)
Theorem flights_without_answer_are_mock {U : Unicode}
    (json_loads : str -> option pyval) (hash_repr : pyval -> Z) (o : outcome)
    (departure_date fly_from fly_to : str) (return_date : option str)
    (g : rng) :
  nothing_to_parse o ->
  search_flights json_loads hash_repr o departure_date fly_from fly_to
    return_date g
  = _generate_mock_flights fly_from fly_to departure_date return_date g
  /\ flights_source
       (fst (search_flights json_loads hash_repr o departure_date fly_from
               fly_to return_date g))
     = kiwi_mock_source.
Proof.
  intros H. rewrite search_flights_unanswered by exact H.
  split; [reflexivity|].
  apply (generate_mock_flights_shape fly_from fly_to departure_date
           return_date g).
Qed.

Lemma flights_without_answer_are_mock_witness :
  nothing_to_parse TimedOut
  /\ flights_source
       (fst (@search_flights Latin1 (fun _ => None) (fun _ => 0) TimedOut
               (lit "2026-03-01") (lit "NYC") (lit "PAR") None
               (fun _ => 7%N)))
     = kiwi_mock_source.
Proof.
  split; [exact I|].
  apply (@flights_without_answer_are_mock Latin1 (fun _ => None)
           (fun _ => 0) TimedOut (lit "2026-03-01") (lit "NYC") (lit "PAR")
           None (fun _ => 7%N) I).
Defined.

(** X2: whatever the flight server does, [search_flights] returns between
    one and five outbound flights. *)
Theorem search_flights_one_to_five {U : Unicode}
    (json_loads : str -> option pyval) (hash_repr : pyval -> Z) (o : outcome)
    (departure_date fly_from fly_to : str) (return_date : option str)
    (g : rng) :
  (1 <= length
          (outbound_flights
             (fst (search_flights json_loads hash_repr o departure_date
                     fly_from fly_to return_date g))) <= 5)%nat.
Proof.
  destruct (search_flights_cases json_loads hash_repr o departure_date
              fly_from fly_to return_date g)
    as [->|(flights & raw & Hne & Hl & _ & ->)].
  - destruct (generate_mock_flights_shape fly_from fly_to departure_date
                return_date g) as (_ & _ & _ & -> & _). lia.
  - cbn. destruct flights; [contradiction|cbn in *; lia].
Qed.

(** X3: the provenance of a flight result is consistent on every path.
    The result echoes the request and every flight joins the requested
    places.  Either the result and all its flights are tagged as mock data,
    with no raw response; or the result and all its flights are tagged as
    real, the generator was not consulted, and there are no return flights,
    even when a return date was given. *)
Theorem search_flights_provenance {U : Unicode}
    (json_loads : str -> option pyval) (hash_repr : pyval -> Z) (o : outcome)
    (departure_date fly_from fly_to : str) (return_date : option str)
    (g : rng) :
  let answer := search_flights json_loads hash_repr o departure_date fly_from
                  fly_to return_date g in
  let r := fst answer in
  search_params r = request_of fly_from fly_to departure_date return_date
  /\ Forall (fun x => origin x = fly_from /\ destination x = fly_to)
       (outbound_flights r)
  /\ ((flights_source r = kiwi_mock_source
       /\ Forall (fun x => flight_source x = lit "Mock Data")
            (outbound_flights r)
       /\ raw_response r = None)
      \/ (flights_source r = kiwi_real_source
          /\ Forall (fun x => flight_source x = lit "Kiwi.com MCP Server")
               (outbound_flights r)
          /\ return_flights r = None
          /\ snd answer = g)).
Proof.
  cbv zeta.
  destruct (search_flights_cases json_loads hash_repr o departure_date
              fly_from fly_to return_date g)
    as [->|(flights & raw & Hne & Hl & Hs & ->)].
  - destruct (generate_mock_flights_shape fly_from fly_to departure_date
                return_date g) as (Hsrc & Hp & Hraw & _ & _ & Hf & _).
    split; [exact Hp|]. split.
    + eapply Forall_impl; [|exact Hf]. now intros x (_ & ? & ?).
    + left. split; [exact Hsrc|]. split; [|exact Hraw].
      eapply Forall_impl; [|exact Hf]. now intros x (? & _).
  - cbn [fst snd search_params outbound_flights flights_source
         return_flights raw_response].
    split; [reflexivity|]. split.
    + eapply Forall_impl; [|exact Hs]. now intros x (_ & ? & ?).
    + right. split; [reflexivity|]. split; [|split; reflexivity].
      eapply Forall_impl; [|exact Hs]. now intros x (? & _).
Qed.





(** X5: when the flight server gives nothing to parse, [get_best_flights]
    returns the cheapest flights: the first [num_results] of the five
    synthetic flights in non-decreasing order of price, so that no flight
    left out is cheaper than a flight returned. *)
Theorem best_flights_are_cheapest_without_answer {U : Unicode}
    (json_loads : str -> option pyval) (hash_repr : pyval -> Z) (o : outcome)
    (departure_date fly_from fly_to : str) (return_date : option str)
    (num_results : nat) (g : rng) :
  nothing_to_parse o ->
  let all := outbound_flights
               (fst (search_flights json_loads hash_repr o departure_date
                       fly_from fly_to return_date g)) in
  let best := outbound_flights
                (fst (get_best_flights json_loads hash_repr o departure_date
                        fly_from fly_to return_date num_results g)) in
  best = slice_to num_results all
  /\ length best = Nat.min num_results 5
  /\ sorted_by price_key best
  /\ forall x y, In x best -> In y (skipn num_results all) ->
                 price_key x <= price_key y.
Proof.
  intros H. cbv zeta. unfold get_best_flights, bind.
  rewrite search_flights_unanswered by exact H.
  destruct (generate_mock_flights_shape fly_from fly_to departure_date
              return_date g) as (_ & _ & _ & Hl & Hs & _).
  destruct (_generate_mock_flights fly_from fly_to departure_date return_date
              g) as [r g'].
  cbn [fst ret outbound_flights] in *. unfold slice_to.
  split; [reflexivity|]. split; [now rewrite length_firstn, Hl|].
  split; [now apply StronglySorted_firstn|].
  intros x y Hx Hy.
  apply (StronglySorted_app_cross (fun a b => price_key a <= price_key b)
           (firstn num_results (outbound_flights r))
           (skipn num_results (outbound_flights r)));
    [now rewrite firstn_skipn|exact Hx|exact Hy].
Qed.

Lemma best_flights_are_cheapest_without_answer_witness :
  nothing_to_parse (Failed ValueError)
  /\ length
       (outbound_flights
          (fst (@get_best_flights Latin1 (fun _ => None) (fun _ => 0)
                  (Failed ValueError) (lit "2026-03-01") (lit "NYC")
                  (lit "PAR") None 3 (fun n => N.of_nat (7 * n)))))
     = 3%nat.
Proof.
  split; [exact I|].
  apply (@best_flights_are_cheapest_without_answer Latin1 (fun _ => None)
           (fun _ => 0) (Failed ValueError) (lit "2026-03-01") (lit "NYC")
           (lit "PAR") None 3 (fun n => N.of_nat (7 * n)) I).
Defined.

(** X6: a flight object of the server that has none of the keys
    [airlines], [local_departure], [local_arrival] and [route] is kept, not
    dropped: its airline is "Kiwi Airlines", its dates and times are empty
    strings, and its number of stops is -1 (the length of the default route
    minus one); the price defaults to 0 and the currency to "USD" when they
    are absent too. *)
Theorem kiwi_flight_defaults (hash_repr : pyval -> Z) (d : list (str * pyval))
    (fly_from fly_to : str) :
  dict_lookup d (lit "airlines") = None ->
  dict_lookup d (lit "local_departure") = None ->
  dict_lookup d (lit "local_arrival") = None ->
  dict_lookup d (lit "route") = None ->
  exists x,
    _parse_single_kiwi_flight hash_repr (PDict d) fly_from fly_to = Some x
    /\ airline x = PStr (lit "Kiwi Airlines")
    /\ stops x = -1
    /\ departure_date x = PStr [] /\ departure_time x = PStr []
    /\ arrival_date x = PStr [] /\ arrival_time x = PStr []
    /\ price x = dict_get d (lit "price") (PInt 0)
    /\ currency x = dict_get d (lit "currency") (PStr (lit "USD"))
    /\ origin x = fly_from /\ destination x = fly_to.
Proof.
  intros Ha Hd Hr Hroute. unfold _parse_single_kiwi_flight, dict_get.
  rewrite Ha, Hd, Hr, Hroute. cbn. eexists. split; [reflexivity|].
  cbn. repeat split.
Qed.

Lemma kiwi_flight_defaults_witness :
  exists x,
    _parse_single_kiwi_flight (fun _ => 0) (PDict [(lit "price", PInt 120)])
      (lit "NYC") (lit "PAR") = Some x
    /\ stops x = -1 /\ price x = PInt 120.
Proof.
  destruct (kiwi_flight_defaults (fun _ => 0) [(lit "price", PInt 120)]
              (lit "NYC") (lit "PAR") eq_refl eq_refl eq_refl eq_refl)
    as (x & H & _ & Hs & _ & _ & _ & _ & Hp & _).
  exists x. repeat split; [exact H|exact Hs|exact Hp].
Defined.

(** X7: a first content item that decodes as JSON but holds no flight
    object (the value is not an object, has no [data], or its [data] is not
    a list with an object among its first five items) is answered by the
    synthetic generator, whatever else the text holds: the price tokens of
    the text are read only when the text is not JSON. *)
Theorem json_without_flight_object_gives_mock {U : Unicode}
    (json_loads : str -> option pyval) (hash_repr : pyval -> Z) (text : str)
    (more : list content_item) (flight_results : pyval)
    (departure_date fly_from fly_to : str) (return_date : option str)
    (g : rng) :
  json_loads text = Some flight_results ->
  no_flight_object flight_results ->
  search_flights json_loads hash_repr (answered_first text more)
    departure_date fly_from fly_to return_date g
  = _generate_mock_flights fly_from fly_to departure_date return_date g.
Proof.
  intros Hjson Hno. unfold answered_first.
  rewrite search_flights_answered.
  unfold _parse_kiwi_response. cbn [item_text]. rewrite Hjson.
  destruct (json_flights_without_object hash_repr flight_results fly_from
              fly_to Hno) as [->|[e ->]]; reflexivity.
Qed.

Lemma json_without_flight_object_gives_mock_witness :
  let quote := 34%N in
  let text := quote :: lit "$120" ++ [quote] in
  let decoded := PStr (lit "$120") in
  @re_findall Latin1 re_price text = [lit "120"]
  /\ no_flight_object decoded
  /\ flights_source
       (fst (@search_flights Latin1 (fun _ => Some decoded) (fun _ => 0)
               (answered_first text []) (lit "2026-03-01") (lit "NYC")
               (lit "PAR") None (fun _ => 7%N)))
     = kiwi_mock_source.
Proof.
  cbv zeta. split; [reflexivity|]. split; [exact I|].
  rewrite (@json_without_flight_object_gives_mock Latin1
             (fun _ => Some (PStr (lit "$120"))) (fun _ => 0)
             (34%N :: lit "$120" ++ [34%N]) [] (PStr (lit "$120"))
             (lit "2026-03-01") (lit "NYC") (lit "PAR") None (fun _ => 7%N)
             eq_refl I).
  reflexivity.
Defined.

(** ** The weather adapter beyond the four tokens *)

Lemma for_each_nth {A B} (f : A -> result B) (xs : list A) (ys : list B)
    (i : nat) (x : A) :
  for_each f xs = Ok ys -> nth_error xs i = Some x ->
  exists y, f x = Ok y /\ nth_error ys i = Some y.
Proof.
  revert ys i. induction xs as [|a xs IH]; intros ys i H Hi.
  - destruct i; discriminate Hi.
  - cbn [for_each] in H. destruct (f a) as [b|e] eqn:Ea; [|discriminate].
    destruct (for_each f xs) as [bs|e] eqn:Es; [|discriminate].
    apply Ok_inj in H. subst ys. destruct i as [|i]; cbn in Hi |- *.
    + injection Hi as <-. eauto.
    + now apply (IH bs).
Qed.

Section DecimalFacts.
Context {U : Unicode}.
Local Open Scope N_scope.







End DecimalFacts.

Lemma use_mock_init (key : option str) (flag : bool) :
  use_mock (WeatherTool_init key flag) = false <-> usable_key key.
Proof.
  unfold WeatherTool_init, usable_key. cbn [use_mock].
  destruct key as [[|c k]|]; cbn [truthy andb].
  - split; [discriminate|]. intros (key & [= <-] & Hne & _). congruence.
  - destruct (str_eqb (c :: k) placeholder_key) eqn:E; cbn [negb].
    + apply str_eqb_eq in E. split; [discriminate|].
      intros (key & [= <-] & _ & Hp). congruence.
    + split; [|reflexivity]. intros _. exists (c :: k).
      repeat split; [discriminate|].
      intros Hp. apply str_eqb_eq in Hp. congruence.
  - split; [discriminate|]. now intros (key & [=] & _).
Qed.

(** X8: the key alone decides where a reading comes from, whatever
    [USE_MOCK_DATA] says.  The tool calls the server exactly when the key
    is set, not empty and not the placeholder; without such a key every
    reading is the mock reading, whatever the server would do; with one, a
    text answer is tagged as coming from the MCP weather server. *)
Theorem weather_key_decides_mock {U : Unicode} (key : option str)
    (flag : bool) :
  (use_mock (WeatherTool_init key flag) = false <-> usable_key key)
  /\ (forall o city units,
        ~ usable_key key ->
        get_current_weather (WeatherTool_init key flag) o city units
        = _get_mock_current_weather city)
  /\ (forall text more city units,
        usable_key key ->
        w_source
          (get_current_weather (WeatherTool_init key flag)
             (answered_first text more) city units)
        = mcp_weather_source).
Proof.
  pose proof (use_mock_init key flag) as Hk. split; [exact Hk|]. split.
  - intros o city units Hno. unfold get_current_weather.
    destruct (use_mock (WeatherTool_init key flag)); [reflexivity|].
    exfalso. apply Hno, Hk. reflexivity.
  - intros text more city units Hyes. apply Hk in Hyes.
    unfold get_current_weather. now rewrite Hyes.
Qed.

(** X9: the mock forecast of a valid clock reading has one record per
    requested day; record [i] is dated [i] days after today, its Celsius
    value is 24 + 2 (i mod 3), its Fahrenheit value is the conversion of
    the Celsius value, its humidity is 60 + 5 (i mod 4), its wind speed is
    10 + 2 (i mod 3) and its description cycles through sunny, partly
    cloudy, cloudy. *)
Theorem mock_forecast_contents (now : datetime) (city : str) (num_days : Z) :
  valid_datetime now = true -> year now + num_days <= 9999 ->
  exists days,
    _get_mock_forecast now city num_days = Ok days
    /\ length days = Z.to_nat num_days
    /\ forall i, 0 <= i < num_days ->
       exists date r,
         add_days now i = Ok date
         /\ nth_error days (Z.to_nat i) = Some r
         /\ f_date r = strftime_iso date
         /\ (f_temperature_celsius r == inject_Z (24 + 2 * (i mod 3)))%Q
         /\ (f_temperature_fahrenheit r
             == f_temperature_celsius r * (9 # 5) + (32 # 1))%Q
         /\ f_humidity r = 60 + 5 * (i mod 4)
         /\ 60 <= f_humidity r <= 75
         /\ f_wind_speed r = inject_Z (10 + 2 * (i mod 3))
         /\ f_description r
            = nth (Z.to_nat (i mod 3))
                [lit "sunny"; lit "partly cloudy"; lit "cloudy"] [].
Proof.
  intros Hv Hy.
  assert (Hall : forall i, In i (range num_days) ->
            raises
              ((fun i =>
                  match add_days now i with
                  | Raise e => Raise e
                  | Ok date =>
                      Ok {| f_date := strftime_iso date;
                            f_temperature_celsius :=
                              Qred ((24 # 1) + inject_Z (i mod 3 * 2));
                            f_temperature_fahrenheit :=
                              Qred (((24 # 1) + inject_Z (i mod 3 * 2))
                                    * (9 # 5) + (32 # 1));
                            f_description :=
                              nth (Z.to_nat (i mod 3))
                                [lit "sunny"; lit "partly cloudy";
                                 lit "cloudy"] [];
                            f_humidity := 60 + i mod 4 * 5;
                            f_wind_speed := inject_Z (10 + i mod 3 * 2) |}
                  end) i) = false).
  { intros i Hi%in_range.
    destruct (add_days_ok now i Hv ltac:(lia) ltac:(lia)) as (d & -> & _).
    reflexivity. }
  destruct (for_each_all_ok _ _ Hall) as (days & Hdays & Hlen).
  exists days. split; [exact Hdays|]. split.
  { now rewrite Hlen, range_length. }
  intros i Hi.
  destruct (for_each_nth _ _ _ (Z.to_nat i) i Hdays) as (r & Hr & Hnth).
  { rewrite range_nth_error by lia. reflexivity. }
  destruct (add_days now i) as [date|e]; [|discriminate Hr].
  apply Ok_inj in Hr. subst r. exists date. eexists.
  split; [reflexivity|]. split; [exact Hnth|].
  cbn [f_date f_temperature_celsius f_temperature_fahrenheit f_humidity
       f_wind_speed f_description].
  pose proof (Z.mod_pos_bound i 4 ltac:(lia)).
  split; [reflexivity|]. split.
  { rewrite Qred_correct. change (24 # 1)%Q with (inject_Z 24).
    rewrite <- inject_Z_plus.
    now replace (24 + i mod 3 * 2) with (24 + 2 * (i mod 3)) by lia. }
  split.
  { rewrite !Qred_correct. reflexivity. }
  split; [lia|]. split; [lia|]. split; [f_equal; lia|reflexivity].
Qed.

Lemma mock_forecast_contents_witness :
  valid_datetime december_28 = true
  /\ year december_28 + 5 <= 9999
  /\ exists days,
       _get_mock_forecast december_28 (lit "Paris") 5 = Ok days
       /\ length days = 5%nat.
Proof.
  split; [reflexivity|]. split; [cbn; lia|].
  destruct (mock_forecast_contents december_28 (lit "Paris") 5 eq_refl
              ltac:(cbn; lia)) as (days & H & Hl & _).
  exists days. split; [exact H|exact Hl].
Defined.

Section RealForecastFacts.
Context {U : Unicode}.


End RealForecastFacts.









(** ** The places tool *)

Lemma remove_nth_perm {A} (i : nat) (l : list A) (d : A) :
  (i < length l)%nat -> Permutation (nth i l d :: remove_nth i l) l.
Proof.
  revert i. induction l as [|x l IH]; intros i Hi; [cbn in Hi; lia|].
  destruct i as [|i]; cbn [nth remove_nth]; [reflexivity|].
  cbn in Hi. rewrite perm_swap. constructor. apply IH. lia.
Qed.

Lemma shuffle_fuel_perm {A} (fuel : nat) :
  forall (l : list A) (g : rng),
    (length l <= fuel)%nat -> Permutation (fst (shuffle_fuel fuel l g)) l.
Proof.
  induction fuel as [|fuel IH]; intros l g Hl.
  - destruct l; [reflexivity|cbn in Hl; lia].
  - destruct l as [|x l]; [reflexivity|].
    cbn [shuffle_fuel]. unfold bind, draw.
    set (i := (N.to_nat (g 0%nat) mod length (x :: l))%nat).
    assert (Hi : (i < length (x :: l))%nat)
      by (apply Nat.mod_upper_bound; discriminate).
    pose proof (remove_nth_perm i (x :: l) x Hi) as Hp.
    assert (Hlen : (length (remove_nth i (x :: l)) <= fuel)%nat).
    { apply Permutation_length in Hp. cbn [length] in Hp, Hl. lia. }
    specialize (IH (remove_nth i (x :: l)) (fun n => g (S n)) Hlen).
    destruct (shuffle_fuel fuel (remove_nth i (x :: l)) (fun n => g (S n)))
      as [rest g'].
    cbn [fst ret] in *. rewrite IH. exact Hp.
Qed.

(** [random.shuffle] rearranges, it neither drops nor invents *)
Lemma shuffle_perm {A} (l : list A) (g : rng) :
  Permutation (fst (shuffle l g)) l.
Proof. apply shuffle_fuel_perm. lia. Qed.

Lemma sample_spec {A} (population : list A) (k : nat) (g : rng) :
  (k <= length population)%nat ->
  length (fst (sample population k g)) = k
  /\ incl (fst (sample population k g)) population
  /\ (NoDup population -> NoDup (fst (sample population k g))).
Proof.
  intros Hk. unfold sample, bind.
  pose proof (shuffle_perm population g) as Hp.
  destruct (shuffle population g) as [l g']. cbn [fst ret] in *.
  split; [|split].
  - rewrite length_firstn. apply Permutation_length in Hp. lia.
  - intros x Hx. eapply Permutation_in; [exact Hp|].
    rewrite <- (firstn_skipn k l). apply in_or_app. now left.
  - intros Hnd. apply (Permutation_NoDup (Permutation_sym Hp)) in Hnd.
    rewrite <- (firstn_skipn k l) in Hnd. now apply NoDup_app_remove_r in Hnd.
Qed.

Lemma rand_map_Forall_In {A B} (P : B -> Prop) (f : A -> Rand B)
    (xs : list A) (g : rng) :
  (forall x g', In x xs -> P (fst (f x g'))) ->
  Forall P (fst (rand_map f xs g)).
Proof.
  revert g. induction xs as [|x xs IH]; intros g H; cbn.
  - constructor.
  - unfold bind. pose proof (H x g (or_introl eq_refl)) as Hx.
    destruct (f x g) as [y g1].
    specialize (IH g1 (fun z g' Hz => H z g' (or_intror Hz))).
    destruct (rand_map f xs g1) as [ys g2]. cbn in *. now constructor.
Qed.

Lemma insert_desc_perm {A} (key : A -> Q) (x : A) (l : list A) :
  Permutation (insert_desc key x l) (x :: l).
Proof.
  induction l as [|y l IH]; cbn; [reflexivity|].
  destruct (Qle_bool (key y) (key x)); [reflexivity|].
  rewrite IH. apply perm_swap.
Qed.

Lemma sort_desc_perm {A} (key : A -> Q) (l : list A) :
  Permutation (sort_desc key l) l.
Proof.
  induction l as [|x l IH]; cbn; [reflexivity|].
  rewrite insert_desc_perm. now constructor.
Qed.

Lemma insert_desc_sorted {A} (key : A -> Q) (x : A) (l : list A) :
  StronglySorted (fun a b => (key b <= key a)%Q) l ->
  StronglySorted (fun a b => (key b <= key a)%Q) (insert_desc key x l).
Proof.
  induction 1 as [|y l Hs IH Hy]; cbn; [repeat constructor|].
  destruct (Qle_bool (key y) (key x)) eqn:E.
  - apply Qle_bool_iff in E. constructor; [now constructor|].
    constructor; [exact E|].
    eapply Forall_impl; [|exact Hy]. intros z Hz. cbv beta in *.
    now apply (Qle_trans _ (key y)).
  - assert (Hxy : (key x <= key y)%Q).
    { apply Qlt_le_weak, Qnot_le_lt. intros H.
      apply Qle_bool_iff in H. congruence. }
    constructor; [exact IH|].
    apply (Permutation_Forall (Permutation_sym (insert_desc_perm key x l))).
    now constructor.
Qed.

Lemma sort_desc_sorted {A} (key : A -> Q) (l : list A) :
  StronglySorted (fun a b => (key b <= key a)%Q) (sort_desc key l).
Proof.
  induction l as [|x l IH]; cbn; [constructor|].
  now apply insert_desc_sorted.
Qed.

Lemma attraction_types_lookup :
  Forall (fun entry =>
            dict_get attraction_types (fst entry) [lit "Attraction"]
            = snd entry /\ snd entry <> [])
    attraction_types.
Proof. repeat constructor; discriminate. Qed.

Lemma NoDup_activity_types : NoDup activity_types.
Proof.
  unfold activity_types.
  repeat (constructor; [cbn; intuition discriminate|]). constructor.
Qed.

Lemma generate_entry_fee_ok (g : rng) :
  let fee := fst (_generate_entry_fee g) in
  (if is_free fee then fee_price fee = 0 else 5 <= fee_price fee <= 50)
  /\ fee_currency fee = lit "USD".
Proof.
  cbv zeta. unfold _generate_entry_fee, bind.
  destruct (random_below_three_tenths g) as [[|] g1].
  - cbn. split; reflexivity.
  - pose proof (randint_bounds 5 50 g1 ltac:(lia)) as Hp.
    destruct (randint 5 50 g1) as [p g2]. cbn in *. split; [exact Hp|].
    reflexivity.
Qed.

Lemma uniform_rating_bounds (g : rng) :
  (38 # 10 <= fst (uniform_rating g) <= 49 # 10)%Q.
Proof.
  unfold uniform_rating, bind, draw, ret. cbn [fst].
  pose proof (N.mod_lt (g 0%nat) 12 ltac:(discriminate)) as H.
  remember (g 0%nat mod 12)%N as m eqn:Hm. clear Hm.
  rewrite Qred_correct. unfold Qle. cbn [Qnum Qden]. lia.
Qed.

Section PlacesFacts.
Context {U : Unicode}.

Ltac next_draw x g H :=
  match goal with
  | |- context [match ?m with (_, _) => _ end] =>
      destruct m as [x g] eqn:H; cbv beta iota
  end.

Lemma generate_place_ok (destination category : str) (subtypes : list str)
    (famous_places : list (str * str)) (i : Z) (g : rng) :
  In (category, subtypes) attraction_types -> subtypes <> [] ->
  place_ok
    (fst (generate_place destination category subtypes famous_places i g)).
Proof.
  intros Hcat Hne. unfold generate_place, bind.
  next_draw place_data g0 E0. next_draw ty g1 E1. next_draw rt g2 E2.
  next_draw nr g3 E3. next_draw street g4 E4. next_draw dur g5 E5.
  next_draw fee g6 E6. next_draw best g7 E7. next_draw k g8 E8.
  next_draw acts g9 E9.
  pose proof (choice_In [] subtypes g0 Hne) as Hty. rewrite E1 in Hty.
  pose proof (uniform_rating_bounds g1) as Hrt. rewrite E2 in Hrt.
  pose proof (randint_bounds 100 5000 g2 ltac:(lia)) as Hnr.
  rewrite E3 in Hnr.
  pose proof (generate_entry_fee_ok g5) as Hfee. rewrite E6 in Hfee.
  pose proof (randint_bounds 2 4 g7 ltac:(lia)) as Hk. rewrite E8 in Hk.
  cbn [fst] in *.
  destruct (sample_spec activity_types (Z.to_nat k) g8) as (Hl & Hin & Hnd).
  { change (length activity_types) with 8%nat. lia. }
  rewrite E9 in Hl, Hin, Hnd.
  cbn [fst ret] in *. unfold place_ok.
  cbn [place_category place_type rating num_reviews entry_fee activities].
  split; [exists subtypes; now split|]. split; [exact Hrt|].
  split; [exact Hnr|]. split; [apply Hfee|]. split; [apply Hfee|].
  split; [lia|]. split; [apply Hnd, NoDup_activity_types|exact Hin].
Qed.

Lemma generate_places_for_category_ok (destination category : str)
    (subtypes : list str) (count : Z) (g : rng) :
  In (category, subtypes) attraction_types ->
  Forall place_ok
    (fst (_generate_places_for_category destination category count g)).
Proof.
  intros Hcat. unfold _generate_places_for_category.
  pose proof attraction_types_lookup as Hlook.
  rewrite Forall_forall in Hlook.
  destruct (Hlook _ Hcat) as [Hget Hne]. cbn [fst snd] in Hget, Hne.
  rewrite Hget. apply rand_map_Forall. intros i g'.
  now apply generate_place_ok.
Qed.

(** the pool [search_places] draws from: five categories,
    max(limit // 5, 2) places each *)
Lemma search_places_pool (destination : str) (limit : Z) (g : rng) :
  exists pool,
    length pool = Z.to_nat (5 * Z.max (limit / 5) 2)
    /\ Forall place_ok pool
    /\ exists places,
         Permutation places pool
         /\ fst (search_places destination limit g)
            = slice_to_int limit places.
Proof.
  unfold search_places, bind.
  change (Z.of_nat (length (map fst attraction_types))) with 5.
  set (per := Z.max (limit / 5) 2).
  set (f := fun category =>
              _generate_places_for_category destination category per).
  assert (Hlen : forall cs g0,
            length (concat (fst (rand_map f cs g0)))
            = (length cs * Z.to_nat per)%nat).
  { induction cs as [|c cs IH]; intros g0; [reflexivity|].
    cbn [rand_map]. unfold bind.
    pose proof (rand_map_length
                  (generate_place destination c
                     (dict_get attraction_types c [lit "Attraction"])
                     (_get_famous_places destination c))
                  (range per) g0) as Hc.
    fold (_generate_places_for_category destination c per) in Hc.
    fold (f c) in Hc.
    destruct (f c g0) as [y g1]. specialize (IH g1).
    destruct (rand_map f cs g1) as [ys g2]. cbn [fst ret concat] in *.
    rewrite length_app, IH, Hc, range_length. cbn [length]. lia. }
  assert (Hok : Forall (Forall place_ok)
                  (fst (rand_map f (map fst attraction_types) g))).
  { apply rand_map_Forall_In. intros c g0 Hc.
    apply in_map_iff in Hc as ([c' subtypes] & <- & Hin).
    now apply (generate_places_for_category_ok destination c' subtypes). }
  specialize (Hlen (map fst attraction_types) g).
  destruct (rand_map f (map fst attraction_types) g) as [by_category g1].
  cbn [fst] in *.
  pose proof (shuffle_perm (concat by_category) g1) as Hp.
  destruct (shuffle (concat by_category) g1) as [places g2].
  cbn [fst ret] in *.
  exists (concat by_category). split.
  { rewrite Hlen. change (length (map fst attraction_types)) with 5%nat.
    subst per. lia. }
  split.
  { clear Hlen Hp. induction Hok as [|l ls Hl _ IH]; cbn; [constructor|].
    apply Forall_app. now split. }
  exists places. split; [exact Hp|reflexivity].
Qed.

Lemma slice_to_int_length {A} (n : Z) (l : list A) :
  length (slice_to_int n l)
  = Z.to_nat (if 0 <=? n then Z.min n (Z.of_nat (length l))
              else Z.max 0 (Z.of_nat (length l) + n)).
Proof.
  unfold slice_to_int. destruct (Z.leb_spec 0 n); rewrite length_firstn; lia.
Qed.

Lemma slice_to_int_incl {A} (n : Z) (l : list A) :
  incl (slice_to_int n l) l.
Proof.
  unfold slice_to_int. intros x Hx.
  destruct (0 <=? n);
    match type of Hx with
    | In _ (firstn ?k _) =>
        rewrite <- (firstn_skipn k l); apply in_or_app; now left
    end.
Qed.

Lemma search_places_ok (destination : str) (limit : Z) (g : rng) :
  Forall place_ok (fst (search_places destination limit g)).
Proof.
  destruct (search_places_pool destination limit g)
    as (pool & _ & Hok & places & Hp & ->).
  apply Forall_forall. intros x Hx%slice_to_int_incl.
  rewrite Forall_forall in Hok. apply Hok.
  eapply Permutation_in; [exact Hp|exact Hx].
Qed.

Lemma search_places_length (destination : str) (limit : Z) (g : rng) :
  length (fst (search_places destination limit g))
  = Z.to_nat (if 0 <=? limit then Z.min limit (5 * Z.max (limit / 5) 2)
              else Z.max 0 (10 + limit)).
Proof.
  destruct (search_places_pool destination limit g)
    as (pool & Hlen & _ & places & Hp & ->).
  rewrite slice_to_int_length. apply Permutation_length in Hp.
  rewrite Hp, Hlen.
  destruct (Z.leb_spec 0 limit) as [Hl|Hl].
  - f_equal. lia.
  - assert (limit / 5 < 2) by (apply Z.div_lt_upper_bound; lia).
    f_equal. lia.
Qed.

End PlacesFacts.

Lemma firstn_plus {A} (a b : nat) (l : list A) :
  firstn (a + b) l = firstn a l ++ firstn b (skipn a l).
Proof.
  revert l. induction a as [|a IH]; intros l; [reflexivity|].
  destruct l as [|x l]; cbn; [now rewrite firstn_nil|]. now rewrite IH.
Qed.

Lemma range_succ (n : nat) :
  range (Z.of_nat (S n)) = range (Z.of_nat n) ++ [Z.of_nat n].
Proof.
  unfold range. rewrite !Nat2Z.id, seq_S, map_app. reflexivity.
Qed.

(** consecutive slices of width [w] put end to end are a prefix *)
Lemma chunks_concat {A} (l : list A) (w : Z) (n : nat) :
  0 <= w ->
  concat
    (map (fun day => slice_between (day * w) (day * w + w) l)
       (range (Z.of_nat n)))
  = firstn (n * Z.to_nat w) l.
Proof.
  intros Hw. induction n as [|n IH]; [reflexivity|].
  rewrite range_succ, map_app, concat_app, IH. cbn [map concat].
  rewrite app_nil_r. unfold slice_between.
  replace (Z.to_nat (Z.of_nat n * w + w) - Z.to_nat (Z.of_nat n * w))%nat
    with (Z.to_nat w) by nia.
  replace (Z.to_nat (Z.of_nat n * w)) with (n * Z.to_nat w)%nat by nia.
  replace (S n * Z.to_nat w)%nat with (n * Z.to_nat w + Z.to_nat w)%nat
    by lia.
  now rewrite firstn_plus.
Qed.

Lemma slice_between_length {A} (l : list A) (day w : Z) :
  0 <= day -> 0 <= w -> (day + 1) * w <= Z.of_nat (length l) ->
  length (slice_between (day * w) (day * w + w) l) = Z.to_nat w.
Proof.
  intros Hd Hw Hl. unfold slice_between.
  rewrite length_firstn, length_skipn. nia.
Qed.

Lemma slice_between_incl {A} (a b : Z) (l : list A) :
  incl (slice_between a b l) l.
Proof.
  unfold slice_between. intros x Hx.
  rewrite <- (firstn_skipn (Z.to_nat a) l). apply in_or_app. right.
  rewrite <- (firstn_skipn (Z.to_nat b - Z.to_nat a)
                (skipn (Z.to_nat a) l)).
  apply in_or_app. now left.
Qed.

(** the places of a day: 4 N places are asked for, 5 (4 N // 5) are
    obtained from the third day on, and the quotient by N is 3 or 4 *)
Lemma places_per_day_bounds (N : Z) :
  1 <= N ->
  let len := Z.min (N * 4) (5 * Z.max (N * 4 / 5) 2) in
  let per_day := Z.max (len / N) 2 in
  (per_day = 3 \/ per_day = 4) /\ N * per_day <= len.
Proof.
  intros HN. cbv zeta.
  pose proof (Z.div_mod (N * 4) 5 ltac:(lia)) as Hq.
  pose proof (Z.mod_pos_bound (N * 4) 5 ltac:(lia)) as Hr.
  remember (N * 4 / 5) as q eqn:Eq. remember ((N * 4) mod 5) as r eqn:Er.
  clear Eq Er.
  remember (Z.min (N * 4) (5 * Z.max q 2)) as len eqn:Elen.
  pose proof (Z.div_mod len N ltac:(lia)) as Hq'.
  pose proof (Z.mod_pos_bound len N ltac:(lia)) as Hr'.
  remember (len / N) as q' eqn:Eq'. remember (len mod N) as r' eqn:Er'.
  clear Eq' Er'.
  assert (Hlen : len = N * 4 /\ (N = 1 \/ N = 2 \/ N * 4 = 5 * q)
                 \/ len = 5 * q /\ 3 <= N) by lia.
  assert (3 <= q' <= 4) by nia.
  lia.
Qed.

(** X14: how many places [search_places] returns.  The pool holds
    5 max(limit // 5, 2) places, so a non-negative [limit] yields
    min(limit, 5 max(limit // 5, 2)) of them: exactly [limit] up to 10, but
    only 5 (limit // 5) from 10 on, which is fewer than asked for unless
    [limit] is a multiple of 5.  A negative [limit] cuts from the end of a
    pool of 10. *)
Theorem search_places_count {U : Unicode} (destination : str) (limit : Z)
    (g : rng) :
  let n := Z.of_nat (length (fst (search_places destination limit g))) in
  n = (if 0 <=? limit then Z.min limit (5 * Z.max (limit / 5) 2)
       else Z.max 0 (10 + limit))
  /\ (0 <= limit <= 10 -> n = limit)
  /\ (10 <= limit -> n = 5 * (limit / 5) /\ limit - 4 <= n <= limit).
Proof.
  cbv zeta. rewrite search_places_length.
  pose proof (Z.div_mod limit 5 ltac:(lia)) as Hq.
  pose proof (Z.mod_pos_bound limit 5 ltac:(lia)) as Hr.
  remember (limit / 5) as q eqn:Eq. remember (limit mod 5) as r eqn:Er.
  clear Eq Er.
  destruct (Z.leb_spec 0 limit); lia.
Qed.

(** X15: every place [search_places] returns is well formed: its category
    is one of the five and its type one of the subtypes of that category;
    the rating lies in [3.8, 4.9] and the number of reviews in
    [100, 5000]; a free place has price 0 and a paid one a price in
    [5, 50], in USD; and it has between 2 and 4 activities, all different
    and all taken from the activity types of the tool. *)
Theorem search_places_are_well_formed {U : Unicode} (destination : str)
    (limit : Z) (g : rng) :
  Forall place_ok (fst (search_places destination limit g))
  /\ Forall (fun p => In (place_category p) (map fst attraction_types))
       (fst (search_places destination limit g)).
Proof.
  pose proof (search_places_ok destination limit g) as H.
  split; [exact H|]. eapply Forall_impl; [|exact H].
  intros p ((subtypes & Hin & _) & _).
  apply in_map_iff. now exists (place_category p, subtypes).
Qed.

Section ItineraryChunks.
Context {U : Unicode}.
Variable list_of_set : list str -> list str.

Lemma itinerary_days (destination : str) (N : Z) (g : rng) :
  1 <= N ->
  let pool := fst (search_places destination (N * 4) g) in
  let per_day := Z.max (Z.of_nat (length pool) / N) 2 in
  (per_day = 3 \/ per_day = 4)
  /\ N * per_day <= Z.of_nat (length pool)
  /\ fst (create_itinerary_suggestions list_of_set destination N g)
     = Ok (map
             (fun day =>
                let day_places :=
                  slice_between (day * per_day) (day * per_day + per_day)
                    pool in
                {| dp_day := day + 1;
                   dp_theme := _get_day_theme day N;
                   dp_places := day_places;
                   dp_activities := _suggest_activities list_of_set
                                      day_places |})
             (range N)).
Proof.
  intros HN. cbv zeta.
  pose proof (search_places_length destination (N * 4) g) as Hlen.
  destruct (Z.leb_spec 0 (N * 4)) as [_|]; [|lia].
  destruct (places_per_day_bounds N HN) as [Hper Hfit]. cbv zeta in *.
  unfold create_itinerary_suggestions, bind.
  destruct (search_places destination (N * 4) g) as [pool g'].
  cbn [fst] in *. rewrite Hlen, Z2Nat.id by lia.
  destruct (Z.eqb_spec N 0) as [|_]; [lia|].
  split; [exact Hper|]. split; [exact Hfit|]. reflexivity.
Qed.

End ItineraryChunks.

(** X16: for one day or more, every day of the itinerary gets the same
    number of places, 3 or 4; the days take consecutive slices of the
    places found, so that put end to end they are a prefix of the list
    [search_places] returned for 4 N places: no place is invented and none
    is visited on two days.  Every place is well formed and no day lists
    more than four activities. *)
Theorem itinerary_places_per_day {U : Unicode}
    (list_of_set : list str -> list str) (destination : str) (N : Z)
    (g : rng) :
  1 <= N ->
  let pool := fst (search_places destination (N * 4) g) in
  exists days per_day,
    fst (create_itinerary_suggestions list_of_set destination N g) = Ok days
    /\ (per_day = 3 \/ per_day = 4)%nat
    /\ Forall (fun d => length (dp_places d) = per_day) days
    /\ concat (map dp_places days) = firstn (Z.to_nat N * per_day) pool
    /\ Forall (fun d => Forall place_ok (dp_places d)) days
    /\ Forall (fun d => (length (dp_activities d) <= 4)%nat) days.
Proof.
  intros HN. cbv zeta.
  destruct (itinerary_days list_of_set destination N g HN)
    as (Hper & Hfit & Hdays). cbv zeta in *.
  pose proof (search_places_ok destination (N * 4) g) as Hok.
  set (pool := fst (search_places destination (N * 4) g)) in *.
  set (w := Z.max (Z.of_nat (length pool) / N) 2) in *.
  eexists. exists (Z.to_nat w). split; [exact Hdays|].
  split; [lia|]. split.
  { apply Forall_map, Forall_forall. intros day Hday%in_range.
    cbn [dp_places]. apply slice_between_length; nia. }
  split.
  { rewrite map_map. cbn [dp_places].
    rewrite <- (Z2Nat.id N) at 1 by lia. apply chunks_concat. lia. }
  split.
  { apply Forall_map, Forall_forall. intros day _. cbn [dp_places].
    apply Forall_forall. intros p Hp%slice_between_incl.
    rewrite Forall_forall in Hok. now apply Hok. }
  apply Forall_map, Forall_forall. intros day _. cbn [dp_activities].
  unfold _suggest_activities, slice_to. apply firstn_le_length.
Qed.

Lemma itinerary_places_per_day_witness :
  1 <= 3
  /\ exists days,
       fst (@create_itinerary_suggestions Latin1 first_occurrences
              (lit "Paris") 3 (fun n => N.of_nat (3 * n + 1))) = Ok days
       /\ map (fun d => length (dp_places d)) days = [3; 3; 3]%nat.
Proof.
  split; [lia|].
  destruct (@itinerary_places_per_day Latin1 first_occurrences (lit "Paris")
              3 (fun n => N.of_nat (3 * n + 1)) ltac:(lia))
    as (days & per_day & Hdays & _).
  exists days. split; [exact Hdays|].
  vm_compute in Hdays. apply Ok_inj in Hdays. subst days. reflexivity.
Defined.

(** X17: an itinerary for no days.  With zero days the tool raises
    ZeroDivisionError (the places found are divided by the number of
    days); with a negative number of days it returns the empty
    itinerary. *)
Theorem itinerary_without_days {U : Unicode}
    (list_of_set : list str -> list str) (destination : str) (g : rng) :
  fst (create_itinerary_suggestions list_of_set destination 0 g)
  = Raise ZeroDivisionError
  /\ forall N, N < 0 ->
       fst (create_itinerary_suggestions list_of_set destination N g)
       = Ok [].
Proof.
  split.
  - unfold create_itinerary_suggestions, bind.
    now destruct (search_places destination (0 * 4) g).
  - intros N HN. unfold create_itinerary_suggestions, bind.
    destruct (search_places destination (N * 4) g) as [pool g'].
    destruct (Z.eqb_spec N 0) as [|_]; [lia|].
    cbn [fst ret]. unfold range.
    now replace (Z.to_nat N) with 0%nat by lia.
Qed.

Lemma first_occurrences_listing : set_listing first_occurrences.
Proof.
  intros l. unfold first_occurrences. split; [apply NoDup_nodup|].
  intros x. apply nodup_In.
Qed.

(** X18: when [list(set)] lists every member once, each day of an
    itinerary of one day or more suggests between two and four activities,
    all different, each one an activity of a place of that day and hence
    one of the activity types of the tool. *)
Theorem itinerary_activities {U : Unicode}
    (list_of_set : list str -> list str) (destination : str) (N : Z)
    (g : rng) :
  set_listing list_of_set ->
  1 <= N ->
  exists days,
    fst (create_itinerary_suggestions list_of_set destination N g) = Ok days
    /\ Forall
         (fun d =>
            (2 <= length (dp_activities d) <= 4)%nat
            /\ NoDup (dp_activities d)
            /\ incl (dp_activities d) activity_types
            /\ forall a, In a (dp_activities d) ->
                 exists p, In p (dp_places d) /\ In a (activities p))
         days.
Proof.
  intros Hset HN.
  destruct (itinerary_days list_of_set destination N g HN)
    as (Hper & Hfit & Hdays). cbv zeta in *.
  pose proof (search_places_ok destination (N * 4) g) as Hok.
  rewrite Forall_forall in Hok.
  set (pool := fst (search_places destination (N * 4) g)) in *.
  set (w := Z.max (Z.of_nat (length pool) / N) 2) in *.
  eexists. split; [exact Hdays|].
  apply Forall_map, Forall_forall. intros day Hday%in_range.
  cbn [dp_places dp_activities].
  set (day_places := slice_between (day * w) (day * w + w) pool).
  assert (Hlen : length day_places = Z.to_nat w)
    by (apply slice_between_length; nia).
  assert (Hplaces : forall p, In p day_places -> place_ok p).
  { intros p Hp%slice_between_incl. now apply Hok. }
  unfold _suggest_activities, slice_to.
  destruct (Hset (flat_map activities day_places)) as [Hnd Hin].
  set (listed := list_of_set (flat_map activities day_places)) in *.
  assert (Hsub : forall a, In a (firstn 4 listed) ->
                   exists p, In p day_places /\ In a (activities p)).
  { intros a Ha. assert (Ha' : In a listed).
    { rewrite <- (firstn_skipn 4 listed). apply in_or_app. now left. }
    apply Hin, in_flat_map in Ha'. exact Ha'. }
  split; [|split; [|split; [|exact Hsub]]].
  - rewrite length_firstn. split; [|lia].
    destruct day_places as [|p0 rest] eqn:E; [cbn in Hlen; lia|].
    destruct (Hplaces p0 (or_introl eq_refl))
      as (_ & _ & _ & _ & _ & Hn & Hnd0 & _).
    assert (Hincl : incl (activities p0) listed).
    { intros a Ha. apply Hin, in_flat_map. exists p0.
      split; [now left|exact Ha]. }
    pose proof (NoDup_incl_length Hnd0 Hincl). lia.
  - rewrite <- (firstn_skipn 4 listed) in Hnd.
    now apply NoDup_app_remove_r in Hnd.
  - intros a Ha. destruct (Hsub a Ha) as (p & Hp & Hap).
    destruct (Hplaces p Hp) as (_ & _ & _ & _ & _ & _ & _ & Hinc).
    now apply Hinc.
Qed.

Lemma itinerary_activities_witness :
  set_listing first_occurrences
  /\ 1 <= 2
  /\ exists days,
       fst (@create_itinerary_suggestions Latin1 first_occurrences
              (lit "Tokyo") 2 (fun n => N.of_nat (5 * n + 2))) = Ok days
       /\ Forall (fun d => incl (dp_activities d) activity_types) days.
Proof.
  split; [exact first_occurrences_listing|]. split; [lia|].
  destruct (@itinerary_activities Latin1 first_occurrences (lit "Tokyo") 2
              (fun n => N.of_nat (5 * n + 2)) first_occurrences_listing
              ltac:(lia)) as (days & Hdays & Hall).
  exists days. split; [exact Hdays|].
  eapply Forall_impl; [|exact Hall]. now intros d (_ & _ & H & _).
Defined.

(** X19: [get_top_attractions] returns the best-rated places of a pool of
    twenty: min(num_results, 20) well-formed places in non-increasing order
    of rating, taken from the places [search_places] finds for a limit of
    20, and no place left out is rated higher than a place returned. *)
Theorem top_attractions_are_best_rated {U : Unicode} (destination : str)
    (num_results : Z) (g : rng) :
  0 <= num_results ->
  let pool := fst (search_places destination 20 g) in
  let top := fst (get_top_attractions destination num_results g) in
  length pool = 20%nat
  /\ length top = Z.to_nat (Z.min num_results 20)
  /\ best_first top
  /\ Forall place_ok top
  /\ exists rest,
       Permutation (top ++ rest) pool
       /\ forall x y, In x top -> In y rest -> (rating y <= rating x)%Q.
Proof.
  intros Hn. cbv zeta.
  pose proof (search_places_length destination 20 g) as Hlen.
  change (Z.to_nat _) with 20%nat in Hlen.
  pose proof (search_places_ok destination 20 g) as Hok.
  unfold get_top_attractions, bind.
  destruct (search_places destination 20 g) as [pool g'].
  cbn [fst ret] in *.
  pose proof (sort_desc_perm rating pool) as Hp.
  pose proof (sort_desc_sorted rating pool) as Hs.
  set (sorted := sort_desc rating pool) in *.
  unfold slice_to_int. destruct (Z.leb_spec 0 num_results) as [_|]; [|lia].
  split; [exact Hlen|]. split.
  { rewrite length_firstn, (Permutation_length Hp), Hlen. lia. }
  split; [now apply StronglySorted_firstn|]. split.
  { apply Forall_firstn_of.
    now apply (Permutation_Forall (Permutation_sym Hp)). }
  exists (skipn (Z.to_nat num_results) sorted). split.
  { now rewrite firstn_skipn. }
  intros x y Hx Hy.
  apply (StronglySorted_app_cross (fun a b => (rating b <= rating a)%Q)
           (firstn (Z.to_nat num_results) sorted)
           (skipn (Z.to_nat num_results) sorted));
    [now rewrite firstn_skipn|exact Hx|exact Hy].
Qed.

Lemma top_attractions_are_best_rated_witness :
  0 <= 3
  /\ length (fst (@get_top_attractions Latin1 (lit "Paris") 3
                    (fun n => N.of_nat (7 * n + 3)))) = 3%nat
  /\ best_first (fst (@get_top_attractions Latin1 (lit "Paris") 3
                        (fun n => N.of_nat (7 * n + 3)))).
Proof.
  split; [lia|].
  destruct (@top_attractions_are_best_rated Latin1 (lit "Paris") 3
              (fun n => N.of_nat (7 * n + 3)) ltac:(lia))
    as (_ & Hl & Hs & _).
  split; [exact Hl|exact Hs].
Defined.

(** ** The plan and its inputs *)

Section PlanEcho.
Context {U : Unicode}.
Variable json_loads : str -> option pyval.
Variable hash_repr : pyval -> Z.
Variable list_of_set : list str -> list str.

Lemma get_best_flights_request (o : outcome)
    (departure_date fly_from fly_to : str) (return_date : option str)
    (num_results : nat) (g : rng) :
  let r := fst (get_best_flights json_loads hash_repr o departure_date
                  fly_from fly_to return_date num_results g) in
  search_params r = request_of fly_from fly_to departure_date return_date
  /\ ((1 <= num_results)%nat -> (1 <= length (outbound_flights r))%nat).
Proof.
  cbv zeta. unfold get_best_flights, bind.
  destruct (search_flights_cases json_loads hash_repr o departure_date
              fly_from fly_to return_date g)
    as [E|(flights & raw & Hne & Hl & _ & E)]; rewrite E.
  - destruct (generate_mock_flights_shape fly_from fly_to departure_date
                return_date g) as (_ & Hp & _ & Hlen & _).
    destruct (_generate_mock_flights fly_from fly_to departure_date
                return_date g) as [r g'].
    cbn [fst ret search_params outbound_flights] in *.
    split; [exact Hp|]. intros Hn. unfold slice_to.
    rewrite length_firstn, Hlen. lia.
  - cbn [fst ret search_params outbound_flights].
    split; [reflexivity|]. intros Hn. unfold slice_to.
    rewrite length_firstn. destruct flights; [contradiction|cbn; lia].
Qed.

(** what a returned plan echoes of the request and of the world *)
Lemma create_travel_plan_echo (weather_tool : WeatherTool) (w : World)
    (destination : str) (N m : Z) (origin : str) (plan : TravelPlan) :
  create_travel_plan json_loads hash_repr list_of_set weather_tool w
    destination N m origin = Ok plan ->
  plan_destination plan = destination
  /\ plan_origin plan = origin
  /\ plan_duration plan = str_of_Z N ++ lit " days"
  /\ get_month_name m = Ok (travel_month plan)
  /\ generated_at plan = isoformat (clock w)
  /\ cultural_context plan = _generate_cultural_context (llm w) destination
  /\ current (weather plan)
     = get_current_weather weather_tool (weather_call_1 w) destination
         (lit "metric")
  /\ exists d0 r0,
       add_days (clock w) 2 = Ok d0 /\ add_days d0 N = Ok r0
       /\ flights plan
          = fst (get_best_flights json_loads hash_repr (flight_call w)
                   (strftime_iso d0) (_get_city_code origin)
                   (_get_city_code destination) (Some (strftime_iso r0)) 3
                   (dice w)).
Proof.
  unfold create_travel_plan, _get_weather_info.
  destruct (add_days (clock w) 2) as [d0|] eqn:E0; [|discriminate].
  cbn [rbind].
  destruct (add_days d0 N) as [r0|] eqn:E1; [|discriminate]. cbn [rbind].
  destruct (get_forecast weather_tool (weather_call_2 w) (clock w)
              destination (Z.min N 5)) as [fc|] eqn:Ef; [|discriminate].
  cbn [rbind].
  destruct (add_days d0 7) as [d7|] eqn:E7; [|discriminate]. cbn [rbind].
  destruct (add_days r0 7) as [r7|] eqn:F7; [|discriminate]. cbn [rbind].
  destruct (add_days d0 14) as [d14|] eqn:E14; [|discriminate]. cbn [rbind].
  destruct (add_days r0 14) as [r14|] eqn:F14; [|discriminate]. cbn [rbind].
  destruct (get_best_flights json_loads hash_repr (flight_call w)
              (strftime_iso d0) (_get_city_code origin)
              (_get_city_code destination) (Some (strftime_iso r0)) 3
              (dice w)) as [flight_options dice'] eqn:Efl.
  destruct (create_itinerary_suggestions list_of_set destination N dice')
    as [[days|e] g']; [|discriminate]. cbn [rbind].
  destruct (get_month_name m) as [name|]; [|discriminate].
  cbn [rbind]. intros [= <-].
  cbn [plan_destination plan_origin plan_duration travel_month generated_at
       cultural_context weather current flights].
  do 7 (split; [reflexivity|]). exists d0, r0.
  split; [reflexivity|]. split; [exact E1|]. now rewrite Efl.
Qed.

End PlanEcho.

Section PlanByMonth.
Context {U : Unicode}.
Variable json_loads : str -> option pyval.
Variable hash_repr : pyval -> Z.
Variable list_of_set : list str -> list str.

Lemma validate_inputs_spec (destination : str) (N m : Z) :
  validate_inputs destination N m = true ->
  (2 <= length (str_strip destination))%nat /\ 1 <= N <= 30 /\ 1 <= m <= 12.
Proof.
  unfold validate_inputs.
  destruct (is_nil destination || (length (str_strip destination) <? 2)%nat)
    eqn:Ed; [discriminate|].
  destruct ((N <? 1) || (30 <? N)) eqn:EN; [discriminate|].
  destruct ((m <? 1) || (12 <? m)) eqn:Em; [discriminate|]. intros _.
  apply orb_false_iff in Ed as [_ Ed%Nat.ltb_ge].
  apply orb_false_iff in EN as [EN1%Z.ltb_ge EN2%Z.ltb_ge].
  apply orb_false_iff in Em as [Em1%Z.ltb_ge Em2%Z.ltb_ge]. lia.
Qed.

(** when the forecast does not meet the end of December, the month is the
    only thing that can still make the plan fail, and it only names the
    month *)
Lemma create_travel_plan_by_month (weather_tool : WeatherTool) (w : World)
    (destination : str) (N : Z) (origin : str) :
  0 <= N <= 30 -> N <> 0 ->
  valid_datetime (clock w) = true -> year (clock w) + 46 <= 9999 ->
  month (clock w) < 12 \/ day (clock w) + (Z.min N 5 - 1) <= 28 ->
  exists build : str -> TravelPlan,
    (forall name, travel_month (build name) = name)
    /\ forall m,
         create_travel_plan json_loads hash_repr list_of_set weather_tool w
           destination N m origin
         = rbind (get_month_name m) (fun name => Ok (build name)).
Proof.
  intros HN HN0 Hv Hy Hc.
  destruct (add_days_ok (clock w) 2 Hv ltac:(lia) ltac:(lia))
    as (d0 & E0 & Hv0 & Hy0).
  destruct (add_days_ok d0 N Hv0 ltac:(lia) ltac:(lia))
    as (r0 & E1 & Hv1 & Hy1).
  destruct (add_days_ok d0 7 Hv0 ltac:(lia) ltac:(lia)) as (d7 & E7 & _).
  destruct (add_days_ok r0 7 Hv1 ltac:(lia) ltac:(lia)) as (r7 & F7 & _).
  destruct (add_days_ok d0 14 Hv0 ltac:(lia) ltac:(lia)) as (d14 & E14 & _).
  destruct (add_days_ok r0 14 Hv1 ltac:(lia) ltac:(lia)) as (r14 & F14 & _).
  destruct (get_forecast_ok weather_tool (weather_call_2 w) (clock w)
              destination (Z.min N 5) Hv ltac:(lia) Hc) as (fc & Ef & Hfc).
  unfold create_travel_plan, _get_weather_info.
  rewrite E0. cbn [rbind]. rewrite E1. cbn [rbind]. rewrite Ef.
  cbn [rbind]. rewrite E7. cbn [rbind]. rewrite F7. cbn [rbind].
  rewrite E14. cbn [rbind]. rewrite F14. cbn [rbind].
  destruct (get_best_flights json_loads hash_repr (flight_call w)
              (strftime_iso d0) (_get_city_code origin)
              (_get_city_code destination) (Some (strftime_iso r0)) 3
              (dice w)) as [flight_options dice'].
  destruct (create_itinerary_days list_of_set destination N dice' HN0)
    as (days & Hdays & _).
  destruct (create_itinerary_suggestions list_of_set destination N dice')
    as [made g'].
  cbn [fst] in Hdays. subst made. cbn [rbind].
  eexists. split; [|intros m; reflexivity]. intros name. reflexivity.
Qed.

End PlanByMonth.

Lemma month_names_named (m : Z) :
  1 <= m <= 12 -> nth (Z.to_nat m) month_names [] <> [].
Proof.
  intros Hm.
  assert (H : In m [1; 2; 3; 4; 5; 6; 7; 8; 9; 10; 11; 12]) by (cbn; lia).
  cbn in H. intuition (subst m; discriminate).
Qed.

(** X20: a request that [validate_inputs] accepts gets a plan whenever the
    clock is a valid date before the year 9953 and the forecast does not
    run past 28 December.  The plan has one itinerary entry per day,
    min(N, 5) forecast records, between one and three outbound flights and
    three date suggestions.  The travel month only names the month: the
    flights are searched from the day after tomorrow to N days later,
    between the city codes of origin and destination. *)
Theorem validated_request_gets_plan {U : Unicode}
    (json_loads : str -> option pyval) (hash_repr : pyval -> Z)
    (list_of_set : list str -> list str) (weather_tool : WeatherTool)
    (w : World) (destination : str) (N m : Z) (origin : str) :
  validate_inputs destination N m = true ->
  valid_datetime (clock w) = true ->
  year (clock w) + 46 <= 9999 ->
  month (clock w) < 12 \/ day (clock w) + (Z.min N 5 - 1) <= 28 ->
  exists plan d0 r0,
    create_travel_plan json_loads hash_repr list_of_set weather_tool w
      destination N m origin = Ok plan
    /\ add_days (clock w) 2 = Ok d0 /\ add_days d0 N = Ok r0
    /\ travel_month plan = nth (Z.to_nat m) month_names []
    /\ travel_month plan <> []
    /\ length (itinerary plan) = Z.to_nat N
    /\ length (forecast (weather plan)) = Z.to_nat (Z.min N 5)
    /\ (1 <= length (outbound_flights (flights plan)) <= 3)%nat
    /\ length (suggested_dates plan) = 3%nat
    /\ search_params (flights plan)
       = request_of (_get_city_code origin) (_get_city_code destination)
           (strftime_iso d0) (Some (strftime_iso r0)).
Proof.
  intros Hval Hv Hy Hc.
  apply validate_inputs_spec in Hval as (_ & HN & Hm).
  destruct (create_travel_plan_returns json_loads hash_repr list_of_set
              weather_tool w destination N m origin HN Hm Hv Hy Hc)
    as (plan & Hplan & Hit & Hfc & Hfl & Hsd).
  destruct (create_travel_plan_echo json_loads hash_repr list_of_set
              weather_tool w destination N m origin plan Hplan)
    as (_ & _ & _ & Hname & _ & _ & _ & d0 & r0 & E0 & E1 & Hflights).
  exists plan, d0, r0.
  assert (Hmonth : travel_month plan = nth (Z.to_nat m) month_names []).
  { unfold get_month_name in Hname.
    replace ((0 <=? m) && (m <=? 12)) with true in Hname
      by (symmetry; apply andb_true_iff; split; apply Z.leb_le; lia).
    now apply Ok_inj in Hname. }
  destruct (get_best_flights_request json_loads hash_repr (flight_call w)
              (strftime_iso d0) (_get_city_code origin)
              (_get_city_code destination) (Some (strftime_iso r0)) 3
              (dice w)) as [Hreq Hone].
  cbv zeta in Hreq, Hone. rewrite <- Hflights in Hreq, Hone.
  split; [exact Hplan|]. split; [exact E0|]. split; [exact E1|].
  split; [exact Hmonth|]. split.
  { rewrite Hmonth. now apply month_names_named. }
  split; [exact Hit|]. split; [exact Hfc|]. split.
  { split; [apply Hone; lia|exact Hfl]. }
  split; [exact Hsd|exact Hreq].
Qed.

Lemma validated_request_gets_plan_witness :
  let march : World :=
    {| clock := {| year := 2026; month := 3; day := 30;
                   hour := 9; minute := 30; second := 0; microsecond := 0 |};
       llm := LlmFailed TimeoutError;
       weather_call_1 := answered_text four_tokens;
       weather_call_2 := answered_text four_tokens;
       flight_call := TimedOut;
       dice := fun n => N.of_nat (3 * n + 1) |} in
  @validate_inputs Latin1 (lit "Paris") 4 7 = true
  /\ exists plan,
       @create_travel_plan Latin1 (fun _ => None) (fun _ => 0)
         first_occurrences keyed_tool march (lit "Paris") 4 7 (lit "Boston")
       = Ok plan
       /\ travel_month plan = lit "July"
       /\ search_params (flights plan)
          = request_of (lit "BOS") (lit "PAR") (lit "2026-04-01")
              (Some (lit "2026-04-05")).
Proof.
  cbv zeta. split; [reflexivity|].
  destruct (@validated_request_gets_plan Latin1 (fun _ => None) (fun _ => 0)
              first_occurrences keyed_tool
              {| clock := {| year := 2026; month := 3; day := 30;
                             hour := 9; minute := 30; second := 0;
                             microsecond := 0 |};
                 llm := LlmFailed TimeoutError;
                 weather_call_1 := answered_text four_tokens;
                 weather_call_2 := answered_text four_tokens;
                 flight_call := TimedOut;
                 dice := fun n => N.of_nat (3 * n + 1) |}
              (lit "Paris") 4 7 (lit "Boston") eq_refl eq_refl
              ltac:(cbn; lia) ltac:(left; cbn; lia))
    as (plan & d0 & r0 & Hplan & E0 & E1 & Hm & _ & _ & _ & _ & _ & Hreq).
  exists plan. split; [exact Hplan|]. split; [exact Hm|].
  rewrite Hreq. vm_compute in E0. apply Ok_inj in E0. subst d0.
  vm_compute in E1. apply Ok_inj in E1. subst r0. reflexivity.
Defined.

(** X21: a request for zero days, which [validate_inputs] would refuse,
    makes [create_travel_plan] raise ZeroDivisionError for every valid
    clock reading before the year 9983: the dates, the empty forecast and
    the flights are computed, and the itinerary divides by the number of
    days. *)
Theorem plan_for_zero_days_raises {U : Unicode}
    (json_loads : str -> option pyval) (hash_repr : pyval -> Z)
    (list_of_set : list str -> list str) (weather_tool : WeatherTool)
    (w : World) (destination : str) (m : Z) (origin : str) :
  valid_datetime (clock w) = true ->
  year (clock w) + 16 <= 9999 ->
  create_travel_plan json_loads hash_repr list_of_set weather_tool w
    destination 0 m origin
  = Raise ZeroDivisionError.
Proof.
  intros Hv Hy.
  destruct (add_days_ok (clock w) 2 Hv ltac:(lia) ltac:(lia))
    as (d0 & E0 & Hv0 & Hy0).
  destruct (add_days_ok d0 0 Hv0 ltac:(lia) ltac:(lia))
    as (r0 & E1 & Hv1 & Hy1).
  destruct (add_days_ok d0 7 Hv0 ltac:(lia) ltac:(lia)) as (d7 & E7 & _).
  destruct (add_days_ok r0 7 Hv1 ltac:(lia) ltac:(lia)) as (r7 & F7 & _).
  destruct (add_days_ok d0 14 Hv0 ltac:(lia) ltac:(lia)) as (d14 & E14 & _).
  destruct (add_days_ok r0 14 Hv1 ltac:(lia) ltac:(lia)) as (r14 & F14 & _).
  assert (Ef : get_forecast weather_tool (weather_call_2 w) (clock w)
                 destination (Z.min 0 5) = Ok []).
  { unfold get_forecast. now destruct (contains _ _). }
  unfold create_travel_plan, _get_weather_info.
  rewrite E0. cbn [rbind]. rewrite E1. cbn [rbind]. rewrite Ef.
  cbn [rbind]. rewrite E7. cbn [rbind]. rewrite F7. cbn [rbind].
  rewrite E14. cbn [rbind]. rewrite F14. cbn [rbind].
  destruct (get_best_flights json_loads hash_repr (flight_call w)
              (strftime_iso d0) (_get_city_code origin)
              (_get_city_code destination) (Some (strftime_iso r0)) 3
              (dice w)) as [flight_options dice'].
  unfold create_itinerary_suggestions, bind.
  now destruct (search_places destination (0 * 4) dice').
Qed.

Lemma plan_for_zero_days_raises_witness :
  valid_datetime december_28 = true
  /\ @create_travel_plan Latin1 (fun _ => None) (fun _ => 0)
       first_occurrences keyed_tool
       (december_world four_tokens (LlmContent (lit "A city."))
          (answered_text four_tokens) TimedOut (fun _ => 7%N))
       (lit "Paris") 0 7 (lit "Boston")
     = Raise ZeroDivisionError.
Proof.
  split; [reflexivity|].
  apply (@plan_for_zero_days_raises Latin1); [reflexivity|cbn; lia].
Defined.

(** X22: the travel month is looked up last and indexes the thirteen
    entries of [calendar.month_name] like a list.  For a request of 1 to 30
    days that otherwise gets a plan, a month above 12 or below -13 raises
    IndexError after all tools have been called, while a month from -13 to
    0 is accepted: the plan names entry 13 + m counted from the start,
    which is the empty name for 0 and for -13 and December for -1. *)
Theorem plan_month_is_a_list_index {U : Unicode}
    (json_loads : str -> option pyval) (hash_repr : pyval -> Z)
    (list_of_set : list str -> list str) (weather_tool : WeatherTool)
    (w : World) (destination : str) (N : Z) (origin : str) :
  1 <= N <= 30 ->
  valid_datetime (clock w) = true ->
  year (clock w) + 46 <= 9999 ->
  month (clock w) < 12 \/ day (clock w) + (Z.min N 5 - 1) <= 28 ->
  (forall m, m < -13 \/ 12 < m ->
     create_travel_plan json_loads hash_repr list_of_set weather_tool w
       destination N m origin = Raise IndexError)
  /\ (forall m, -13 <= m <= 0 ->
        exists plan,
          create_travel_plan json_loads hash_repr list_of_set weather_tool w
            destination N m origin = Ok plan
          /\ travel_month plan
             = nth (Z.to_nat ((13 + m) mod 13)) month_names [])
  /\ nth 0 month_names [] = []
  /\ nth 12 month_names [] = lit "December".
Proof.
  intros HN Hv Hy Hc.
  destruct (create_travel_plan_by_month json_loads hash_repr list_of_set
              weather_tool w destination N origin ltac:(lia) ltac:(lia)
              Hv Hy Hc) as (build & Hname & Hplan).
  split; [|split; [|split; reflexivity]].
  - intros m Hm. rewrite Hplan. unfold get_month_name.
    replace ((0 <=? m) && (m <=? 12)) with false
      by (symmetry; apply andb_false_iff; rewrite Z.leb_gt, Z.leb_gt; lia).
    replace ((-13 <=? m) && (m <? 0)) with false
      by (symmetry; apply andb_false_iff; rewrite Z.leb_gt, Z.ltb_ge; lia).
    reflexivity.
  - intros m Hm. rewrite Hplan. unfold get_month_name.
    destruct (Z.eq_dec m 0) as [->|Hnz].
    + cbn [Z.leb Z.compare andb rbind]. eexists. split; [reflexivity|].
      now rewrite Hname.
    + replace ((0 <=? m) && (m <=? 12)) with false
        by (symmetry; apply andb_false_iff; rewrite Z.leb_gt; lia).
      replace ((-13 <=? m) && (m <? 0)) with true
        by (symmetry; apply andb_true_iff; rewrite Z.leb_le, Z.ltb_lt; lia).
      cbn [rbind]. eexists. split; [reflexivity|]. rewrite Hname.
      destruct (Z.eq_dec m (-13)) as [->|Hn13]; [reflexivity|].
      now rewrite Z.mod_small by lia.
Qed.

Lemma plan_month_is_a_list_index_witness :
  let march : World :=
    {| clock := {| year := 2026; month := 3; day := 30;
                   hour := 9; minute := 30; second := 0; microsecond := 0 |};
       llm := LlmFailed TimeoutError;
       weather_call_1 := TimedOut;
       weather_call_2 := TimedOut;
       flight_call := TimedOut;
       dice := fun n => N.of_nat (3 * n + 1) |} in
  @create_travel_plan Latin1 (fun _ => None) (fun _ => 0) first_occurrences
    keyed_tool march (lit "Paris") 4 13 (lit "Boston")
  = Raise IndexError.
Proof.
  cbv zeta.
  apply (@plan_month_is_a_list_index Latin1 (fun _ => None) (fun _ => 0)
           first_occurrences keyed_tool _ (lit "Paris") 4 (lit "Boston"));
    [lia|reflexivity|cbn; lia|left; cbn; lia|lia].
Defined.

(** the codes of the table have three characters, none of them a small
    letter *)
Lemma city_codes_upper :
  forallb
    (fun '(name, code) =>
       (length code =? 3)%nat && str_eqb (map ascii_upper code) code)
    city_codes = true.
Proof. vm_compute. reflexivity. Qed.

(** X23: the shape of a city code.  For an ASCII city name the code has at
    most three characters, all ASCII and none a small letter; a listed
    city (after lower-casing and stripping) gets its three-letter code,
    and an unlisted one the upper-cased first three characters of the name
    as typed, blanks included. *)
Theorem city_code_shape {U : Unicode} (city : str) :
  is_ascii city ->
  let code := _get_city_code city in
  (length code <= 3)%nat
  /\ is_ascii code
  /\ map ascii_upper code = code
  /\ match dict_lookup city_codes (str_strip (str_lower city)) with
     | Some listed => code = listed /\ length code = 3%nat
     | None => code = map ascii_upper (slice_to 3 city)
     end.
Proof.
  intros Hc. cbv zeta. unfold _get_city_code, dict_get.
  rewrite (str_upper_ascii (slice_to 3 city))
    by (apply is_ascii_firstn, Hc).
  destruct (dict_lookup city_codes (str_strip (str_lower city)))
    as [listed|] eqn:E.
  - pose proof E as Hin%dict_lookup_In.
    pose proof city_codes_upper as Hall.
    rewrite forallb_forall in Hall. specialize (Hall _ Hin).
    cbn beta iota in Hall.
    apply andb_true_iff in Hall as [Hlen%Nat.eqb_eq Hup%str_eqb_eq].
    apply city_codes_entry in E as (Ha & _).
    repeat split; [lia|exact Ha|exact Hup|exact Hlen].
  - repeat split.
    + rewrite length_map. apply firstn_le_length.
    + apply is_ascii_upper, is_ascii_firstn, Hc.
    + rewrite map_map. apply map_ext. apply ascii_upper_idem.
Qed.

Lemma city_code_shape_witness :
  is_ascii (lit "  oslo")
  /\ @_get_city_code Latin1 (lit "  oslo") = lit "  O"
  /\ (length (@_get_city_code Latin1 (lit "  oslo")) <= 3)%nat.
Proof.
  split; [repeat constructor|]. split; [reflexivity|].
  apply (@city_code_shape Latin1 (lit "  oslo")). repeat constructor.
Defined.

(** ** Date suggestions *)

Lemma iter_days_add (step : datetime -> result datetime) (a b : nat)
    (dt : datetime) :
  iter_days step (a + b) dt
  = rbind (iter_days step a dt) (iter_days step b).
Proof.
  revert dt. induction a as [|a IH]; intros dt; [reflexivity|].
  cbn [Nat.add iter_days]. destruct (step dt); [apply IH|reflexivity].
Qed.

Lemma with_date_same (dt : datetime) :
  with_date dt (year dt) (month dt) (day dt) = dt.
Proof. now destruct dt. Qed.

(** forwards inside the month *)
Lemma add_days_within (dt : datetime) (k : Z) :
  0 <= k -> day dt + k <= days_in_month (year dt) (month dt) ->
  add_days dt k = Ok (with_date dt (year dt) (month dt) (day dt + k)).
Proof.
  intros Hk Hd. unfold add_days.
  destruct (Z.leb_spec 0 k) as [_|]; [|lia].
  rewrite <- (Z2Nat.id k Hk) in Hd |- *. rewrite Nat2Z.id.
  generalize dependent dt. induction (Z.to_nat k) as [|n IH]; intros dt Hd.
  - cbn [iter_days]. now rewrite Z.add_0_r, with_date_same.
  - cbn [iter_days]. unfold next_day.
    rewrite Nat2Z.inj_succ in Hd |- *.
    destruct (Z.ltb_spec (day dt) (days_in_month (year dt) (month dt)));
      [|lia].
    rewrite IH by (cbn [year month day with_date]; lia).
    unfold with_date. cbn [year month day hour minute second microsecond].
    do 2 f_equal. lia.
Qed.

(** backwards inside the month *)
Lemma sub_days_within (dt : datetime) (k : Z) :
  0 <= k -> k < day dt ->
  add_days dt (- k) = Ok (with_date dt (year dt) (month dt) (day dt - k)).
Proof.
  intros Hk Hd. unfold add_days.
  destruct (Z.eq_dec k 0) as [->|Hnz].
  { cbn [Z.opp Z.leb Z.compare Z.to_nat iter_days].
    now rewrite Z.sub_0_r, with_date_same. }
  destruct (Z.leb_spec 0 (- k)) as [|_]; [lia|]. rewrite Z.opp_involutive.
  clear Hnz. rewrite <- (Z2Nat.id k Hk) in Hd |- *. rewrite Nat2Z.id.
  generalize dependent dt. induction (Z.to_nat k) as [|n IH]; intros dt Hd.
  - cbn [iter_days]. now rewrite Z.sub_0_r, with_date_same.
  - cbn [iter_days]. unfold prev_day.
    rewrite Nat2Z.inj_succ in Hd |- *.
    destruct (Z.ltb_spec 1 (day dt)); [|lia].
    rewrite IH by (cbn [year month day with_date]; lia).
    unfold with_date. cbn [year month day hour minute second microsecond].
    do 2 f_equal. lia.
Qed.

Ltac date_fields :=
  unfold with_date, time_of;
  cbn [year month day hour minute second microsecond].

Lemma next_day_later (dt dt' : datetime) :
  valid_datetime dt = true -> next_day dt = Ok dt' ->
  valid_datetime dt' = true
  /\ month_index dt <= month_index dt'
  /\ time_of dt' = time_of dt
  /\ (day dt = days_in_month (year dt) (month dt) ->
      month_index dt < month_index dt').
Proof.
  unfold valid_datetime, month_index. rewrite valid_date_spec.
  intros Hv. unfold next_day.
  destruct (Z.ltb_spec (day dt) (days_in_month (year dt) (month dt))).
  - intros [= <-]. date_fields. rewrite valid_date_spec. repeat split; lia.
  - destruct (Z.ltb_spec (month dt) 12).
    + intros [= <-]. date_fields. rewrite valid_date_spec.
      pose proof (days_in_month_bounds (year dt) (month dt + 1)).
      repeat split; lia.
    + destruct (Z.ltb_spec (year dt) 9999); [|discriminate].
      intros [= <-]. date_fields. rewrite valid_date_spec.
      pose proof (days_in_month_bounds (year dt + 1) 1).
      repeat split; lia.
Qed.

Lemma prev_day_earlier (dt dt' : datetime) :
  valid_datetime dt = true -> prev_day dt = Ok dt' ->
  valid_datetime dt' = true
  /\ month_index dt' <= month_index dt
  /\ time_of dt' = time_of dt
  /\ (day dt = 1 -> month_index dt' < month_index dt)
  /\ year dt - 1 <= year dt'.
Proof.
  unfold valid_datetime, month_index. rewrite valid_date_spec.
  intros Hv. unfold prev_day.
  destruct (Z.ltb_spec 1 (day dt)).
  - intros [= <-]. date_fields. rewrite valid_date_spec. repeat split; lia.
  - destruct (Z.ltb_spec 1 (month dt)).
    + intros [= <-]. date_fields. rewrite valid_date_spec.
      pose proof (days_in_month_bounds (year dt) (month dt - 1)).
      repeat split; lia.
    + destruct (Z.ltb_spec 1 (year dt)); [|discriminate].
      intros [= <-]. date_fields. rewrite valid_date_spec.
      change (days_in_month (year dt - 1) 12) with 31.
      repeat split; lia.
Qed.

Lemma iter_next_later (n : nat) :
  forall dt dt',
    valid_datetime dt = true -> iter_days next_day n dt = Ok dt' ->
    valid_datetime dt' = true
    /\ month_index dt <= month_index dt'
    /\ time_of dt' = time_of dt.
Proof.
  induction n as [|n IH]; intros dt dt' Hv; cbn [iter_days].
  - intros [= <-]. repeat split; [exact Hv|lia].
  - destruct (next_day dt) as [dt1|] eqn:E; [|discriminate]. intros H.
    destruct (next_day_later dt dt1 Hv E) as (Hv1 & Hm1 & Ht1 & _).
    destruct (IH dt1 dt' Hv1 H) as (Hv' & Hm' & Ht').
    repeat split; [exact Hv'|lia|congruence].
Qed.

Lemma iter_prev_earlier (n : nat) :
  forall dt,
    valid_datetime dt = true -> Z.of_nat n < year dt ->
    exists dt',
      iter_days prev_day n dt = Ok dt'
      /\ valid_datetime dt' = true
      /\ month_index dt' <= month_index dt
      /\ time_of dt' = time_of dt
      /\ year dt - Z.of_nat n <= year dt'.
Proof.
  induction n as [|n IH]; intros dt Hv Hy; cbn [iter_days].
  - exists dt. repeat split; [exact Hv|lia|lia].
  - destruct (prev_day dt) as [dt1|e] eqn:E.
    + destruct (prev_day_earlier dt dt1 Hv E) as (Hv1 & Hm1 & Ht1 & _ & Hy1).
      destruct (IH dt1 Hv1 ltac:(lia)) as (dt' & H' & Hv' & Hm' & Ht' & Hy').
      exists dt'. repeat split; [exact H'|exact Hv'|lia|congruence|lia].
    + exfalso. unfold prev_day in E.
      destruct (1 <? day dt); [discriminate|].
      destruct (1 <? month dt); [discriminate|].
      destruct (Z.ltb_spec 1 (year dt)); [discriminate|]. lia.
Qed.

(** forwards past the end of the month: a later month *)
Lemma add_days_beyond (dt : datetime) (k : Z) :
  valid_datetime dt = true -> 0 <= k -> year dt + k <= 9999 ->
  days_in_month (year dt) (month dt) < day dt + k ->
  exists dt',
    add_days dt k = Ok dt'
    /\ month_index dt < month_index dt'
    /\ valid_datetime dt' = true
    /\ time_of dt' = time_of dt.
Proof.
  intros Hv Hk Hy Hd.
  destruct (add_days_ok dt k Hv Hk Hy) as (dt' & Hdt' & Hv' & _).
  exists dt'. split; [exact Hdt'|].
  pose proof Hv as Hv0. unfold valid_datetime in Hv0.
  apply valid_date_spec in Hv0.
  set (a := days_in_month (year dt) (month dt) - day dt) in *.
  assert (Ha : 0 <= a < k) by lia.
  unfold add_days in Hdt'. destruct (Z.leb_spec 0 k) as [_|]; [|lia].
  replace (Z.to_nat k) with (Z.to_nat a + S (Z.to_nat (k - a - 1)))%nat
    in Hdt' by lia.
  rewrite iter_days_add in Hdt'.
  pose proof (add_days_within dt a ltac:(lia) ltac:(lia)) as Hlast.
  unfold add_days in Hlast. destruct (Z.leb_spec 0 a) as [_|]; [|lia].
  rewrite Hlast in Hdt'. cbn [rbind iter_days] in Hdt'.
  set (last := with_date dt (year dt) (month dt) (day dt + a)) in *.
  assert (Hvl : valid_datetime last = true).
  { unfold valid_datetime, last. cbn. apply valid_date_spec. lia. }
  destruct (next_day last) as [dt1|] eqn:E1; [|discriminate].
  destruct (next_day_later last dt1 Hvl E1) as (Hv1 & _ & Ht1 & Hlt).
  specialize (Hlt ltac:(unfold last; cbn; lia)).
  destruct (iter_next_later _ dt1 dt' Hv1 Hdt') as (_ & Hm' & Ht').
  assert (month_index last = month_index dt) by reflexivity.
  assert (time_of last = time_of dt) by reflexivity.
  repeat split; [lia|exact Hv'|congruence].
Qed.

(** backwards past the first of the month: an earlier month *)
Lemma sub_days_beyond (dt : datetime) (k : Z) :
  valid_datetime dt = true -> day dt <= k -> k < year dt ->
  exists dt',
    add_days dt (- k) = Ok dt'
    /\ month_index dt' < month_index dt
    /\ valid_datetime dt' = true
    /\ time_of dt' = time_of dt.
Proof.
  intros Hv Hd Hy.
  pose proof Hv as Hv0. unfold valid_datetime in Hv0.
  apply valid_date_spec in Hv0.
  unfold add_days. destruct (Z.leb_spec 0 (- k)) as [|_]; [lia|].
  rewrite Z.opp_involutive.
  set (a := day dt - 1) in *.
  replace (Z.to_nat k) with (Z.to_nat a + S (Z.to_nat (k - a - 1)))%nat
    by lia.
  rewrite iter_days_add.
  pose proof (sub_days_within dt a ltac:(lia) ltac:(lia)) as Hfirst.
  unfold add_days in Hfirst.
  assert (Hiter : iter_days prev_day (Z.to_nat a) dt
                  = Ok (with_date dt (year dt) (month dt) (day dt - a))).
  { destruct (Z.eq_dec a 0) as [Ha|Ha].
    - rewrite Ha. cbn [Z.to_nat iter_days].
      now rewrite Z.sub_0_r, with_date_same.
    - destruct (Z.leb_spec 0 (- a)) as [|_]; [lia|].
      now rewrite Z.opp_involutive in Hfirst. }
  rewrite Hiter. cbn [rbind iter_days].
  set (first := with_date dt (year dt) (month dt) (day dt - a)) in *.
  assert (Hvf : valid_datetime first = true).
  { unfold valid_datetime, first. cbn. apply valid_date_spec. lia. }
  destruct (prev_day first) as [dt1|e] eqn:E1.
  - destruct (prev_day_earlier first dt1 Hvf E1)
      as (Hv1 & _ & Ht1 & Hlt & Hy1).
    specialize (Hlt ltac:(unfold first; cbn; lia)).
    assert (Hyf : year first = year dt) by reflexivity.
    destruct (iter_prev_earlier (Z.to_nat (k - a - 1)) dt1 Hv1 ltac:(lia))
      as (dt' & Hdt' & Hv' & Hm' & Ht' & _).
    exists dt'. rewrite Hdt'.
    assert (month_index first = month_index dt) by reflexivity.
    assert (time_of first = time_of dt) by reflexivity.
    repeat split; [lia|exact Hv'|congruence].
  - exfalso. unfold prev_day in E1.
    destruct (1 <? day first); [discriminate|].
    destruct (1 <? month first); [discriminate|].
    destruct (Z.ltb_spec 1 (year first)); [discriminate|].
    change (year first) with (year dt) in *. lia.
Qed.

Lemma lex_leb_refl (a : list Z) : lex_leb a a = true.
Proof.
  induction a as [|x a IH]; [reflexivity|]. cbn [lex_leb].
  now rewrite Z.eqb_refl, IH, orb_true_r.
Qed.

Lemma datetime_leb_same_month (a b : datetime) :
  year a = year b -> month a = month b -> time_of a = time_of b ->
  datetime_leb a b = (day a <=? day b).
Proof.
  intros Hy Hm Ht. unfold datetime_leb, datetime_fields.
  unfold time_of in Ht. injection Ht as -> -> -> ->. rewrite Hy, Hm.
  cbn [lex_leb]. rewrite !Z.ltb_irrefl, !Z.eqb_refl. cbn [orb andb].
  destruct (Z.ltb_spec (day a) (day b)), (Z.eqb_spec (day a) (day b)),
    (Z.leb_spec (day a) (day b)); cbn; reflexivity || lia.
Qed.

Lemma datetime_leb_later_month (a b : datetime) :
  valid_datetime a = true -> valid_datetime b = true ->
  month_index a < month_index b ->
  datetime_leb a b = true /\ datetime_leb b a = false.
Proof.
  unfold valid_datetime, month_index. rewrite !valid_date_spec.
  intros Ha Hb Hlt. unfold datetime_leb, datetime_fields. cbn [lex_leb].
  destruct (Z.ltb_spec (year a) (year b)), (Z.ltb_spec (year b) (year a)),
    (Z.eqb_spec (year a) (year b)), (Z.eqb_spec (year b) (year a));
    try lia; cbn [orb andb]; try (split; reflexivity).
Qed.

Lemma midnight_valid (y m d : Z) :
  1 <= y <= 9999 -> 1 <= m <= 12 -> 1 <= d <= days_in_month y m ->
  valid_datetime (midnight y m d) = true.
Proof.
  intros. unfold valid_datetime, midnight. cbn [year month day].
  apply valid_date_spec. lia.
Qed.

(** a stay of [n] days from day [d]: its last day, and whether it ends
    within the month *)
Lemma window_forward (y m d n : Z) :
  1 <= y -> 1 <= m <= 12 -> 1 <= d <= days_in_month y m ->
  1 <= n -> y + n <= 9999 ->
  exists e,
    add_days (midnight y m d) (n - 1) = Ok e
    /\ datetime_leb e (midnight y m (days_in_month y m))
       = (d + (n - 1) <=? days_in_month y m)
    /\ (d + (n - 1) <= days_in_month y m -> e = midnight y m (d + (n - 1))).
Proof.
  intros Hy Hm Hd Hn Hmax.
  pose proof (midnight_valid y m d ltac:(lia) Hm Hd) as Hv.
  pose proof (midnight_valid y m (days_in_month y m) ltac:(lia) Hm
                ltac:(lia)) as Hvl.
  destruct (Z.leb_spec (d + (n - 1)) (days_in_month y m)) as [Hin|Hout].
  - exists (midnight y m (d + (n - 1))).
    split; [|split; [|reflexivity]].
    + now rewrite add_days_within by (cbn [midnight year month day]; lia).
    + rewrite datetime_leb_same_month by reflexivity.
      cbn [midnight day]. now apply Z.leb_le.
  - destruct (add_days_beyond (midnight y m d) (n - 1) Hv ltac:(lia)
                ltac:(cbn [midnight year]; lia)
                ltac:(cbn [midnight year month day]; lia))
      as (e & He & Hlt & Hve & _).
    exists e. split; [exact He|]. split; [|lia].
    now apply datetime_leb_later_month.
Qed.

(** a stay of [n] days up to the last day of the month: its first day, and
    whether it starts within the month *)
Lemma window_backward (y m n : Z) :
  1 <= m <= 12 -> 1 <= n -> n < y -> y <= 9999 ->
  exists s,
    add_days (midnight y m (days_in_month y m)) (- (n - 1)) = Ok s
    /\ datetime_leb (midnight y m 1) s = (n <=? days_in_month y m)
    /\ (n <= days_in_month y m ->
        s = midnight y m (days_in_month y m - (n - 1))).
Proof.
  intros Hm Hn Hy Hmax.
  pose proof (days_in_month_bounds y m) as Hb.
  pose proof (midnight_valid y m 1 ltac:(lia) Hm ltac:(lia)) as Hv.
  pose proof (midnight_valid y m (days_in_month y m) ltac:(lia) Hm
                ltac:(lia)) as Hvl.
  destruct (Z.leb_spec n (days_in_month y m)) as [Hin|Hout].
  - exists (midnight y m (days_in_month y m - (n - 1))).
    split; [|split; [|reflexivity]].
    + now rewrite sub_days_within by (cbn [midnight year month day]; lia).
    + rewrite datetime_leb_same_month by reflexivity.
      cbn [midnight day]. apply Z.leb_le. lia.
  - destruct (sub_days_beyond (midnight y m (days_in_month y m)) (n - 1)
                Hvl ltac:(cbn [midnight day]; lia)
                ltac:(cbn [midnight year]; lia))
      as (s & Hs & Hlt & Hvs & _).
    exists s. split; [exact Hs|]. split; [|lia].
    now apply datetime_leb_later_month.
Qed.

(** X24: which dates [generate_date_suggestions] suggests.  For a month
    of 1..12, a stay of n >= 1 days and a year between n + 1 and
    9989 - n, the result lists, in this order: "Early Month", from the 1st
    to the n-th, when n is at most the length of the month; "Mid Month",
    from the 11th to day n + 10, when n + 10 is at most the length of the
    month; "Late Month", the last n days of the month, when n is at most
    the length of the month.  So a stay of up to 18 days always gets three
    suggestions, and a stay longer than the month (30 days in February)
    gets none. *)
Theorem date_suggestions_by_length (m y n : Z) :
  1 <= m <= 12 -> 1 <= n -> n < y -> y + n + 10 <= 9999 ->
  let last := days_in_month y m in
  let on d := strftime_long (midnight y m d) in
  generate_date_suggestions m y n
  = Ok ((if n <=? last
         then [ {| period := lit "Early Month";
                   start_date := on 1; end_date := on n |} ]
         else [])
        ++ (if n + 10 <=? last
            then [ {| period := lit "Mid Month";
                      start_date := on 11; end_date := on (n + 10) |} ]
            else [])
        ++ (if n <=? last
            then [ {| period := lit "Late Month";
                      start_date := on (last - n + 1);
                      end_date := on last |} ]
            else []))
  /\ (n <= 18 -> exists a b c, generate_date_suggestions m y n = Ok [a; b; c])
  /\ (last < n -> generate_date_suggestions m y n = Ok []).
Proof.
  intros Hm Hn Hy Hmax. cbv zeta.
  pose proof (days_in_month_bounds y m) as Hb.
  assert (Hmain :
    generate_date_suggestions m y n
    = Ok ((if n <=? days_in_month y m
           then [ {| period := lit "Early Month";
                     start_date := strftime_long (midnight y m 1);
                     end_date := strftime_long (midnight y m n) |} ]
           else [])
          ++ (if n + 10 <=? days_in_month y m
              then [ {| period := lit "Mid Month";
                        start_date := strftime_long (midnight y m 11);
                        end_date := strftime_long (midnight y m (n + 10)) |} ]
              else [])
          ++ (if n <=? days_in_month y m
              then [ {| period := lit "Late Month";
                        start_date :=
                          strftime_long
                            (midnight y m (days_in_month y m - n + 1));
                        end_date :=
                          strftime_long
                            (midnight y m (days_in_month y m)) |} ]
              else []))).
  { unfold generate_date_suggestions, get_month_date_range, make_datetime.
    replace (valid_date y m 1) with true
      by (symmetry; apply valid_date_spec; lia).
    cbn [rbind].
    replace (valid_date y m (days_in_month y m)) with true
      by (symmetry; apply valid_date_spec; lia).
    cbn [rbind fst snd].
    fold (midnight y m 1). fold (midnight y m (days_in_month y m)).
    destruct (window_forward y m 1 n ltac:(lia) Hm ltac:(lia) Hn ltac:(lia))
      as (e1 & He1 & Hl1 & Hd1).
    rewrite He1. cbn [rbind]. rewrite Hl1.
    assert (H11 : add_days (midnight y m 1) 10 = Ok (midnight y m 11)).
    { now rewrite add_days_within by (cbn [midnight year month day]; lia). }
    rewrite H11. cbn [rbind].
    destruct (window_forward y m 11 n ltac:(lia) Hm ltac:(lia) Hn
                ltac:(lia)) as (e2 & He2 & Hl2 & Hd2).
    rewrite He2. cbn [rbind]. rewrite Hl2.
    destruct (window_backward y m n Hm Hn Hy ltac:(lia))
      as (s3 & Hs3 & Hl3 & Hd3).
    rewrite Hs3. cbn [rbind]. rewrite Hl3. f_equal.
    replace (1 + (n - 1) <=? days_in_month y m)
      with (n <=? days_in_month y m) by (f_equal; lia).
    replace (11 + (n - 1) <=? days_in_month y m)
      with (n + 10 <=? days_in_month y m) by (f_equal; lia).
    f_equal; [|f_equal].
    - destruct (Z.leb_spec n (days_in_month y m)); [|reflexivity].
      rewrite Hd1 by lia. now replace (1 + (n - 1)) with n by lia.
    - destruct (Z.leb_spec (n + 10) (days_in_month y m)); [|reflexivity].
      rewrite Hd2 by lia. now replace (11 + (n - 1)) with (n + 10) by lia.
    - destruct (Z.leb_spec n (days_in_month y m)); [|reflexivity].
      rewrite Hd3 by lia.
      now replace (days_in_month y m - (n - 1))
        with (days_in_month y m - n + 1) by lia. }
  split; [exact Hmain|]. split.
  - intros H18. rewrite Hmain.
    replace (n <=? days_in_month y m) with true
      by (symmetry; apply Z.leb_le; lia).
    replace (n + 10 <=? days_in_month y m) with true
      by (symmetry; apply Z.leb_le; lia).
    cbn [app]. eauto.
  - intros Hlong. rewrite Hmain.
    replace (n <=? days_in_month y m) with false
      by (symmetry; apply Z.leb_gt; lia).
    replace (n + 10 <=? days_in_month y m) with false
      by (symmetry; apply Z.leb_gt; lia).
    reflexivity.
Qed.

Lemma date_suggestions_by_length_witness :
  generate_date_suggestions 2 2026 30 = Ok []
  /\ option_map (map (fun s => (period s, start_date s, end_date s)))
       (match generate_date_suggestions 2 2026 20 with
        | Ok l => Some l
        | Raise _ => None
        end)
     = Some [ (lit "Early Month", lit "February 01, 2026",
               lit "February 20, 2026");
              (lit "Late Month", lit "February 09, 2026",
               lit "February 28, 2026") ].
Proof.
  split.
  - apply (date_suggestions_by_length 2 2026 30); cbn; lia.
  - vm_compute. reflexivity.
Defined.

